(** * SolanaStakePulse: the fetch / aggregate pipeline

    A shallow embedding of the aggregator ([utils/data_processor.py],
    class [DataProcessor]), of the fetch methods of the RPC client
    ([utils/solana_client.py], class [SolanaClient]), of the ranked frame
    of [utils/database.py] and of the data fetch block of [app.py], with
    the properties the specification states about them.  The rows that
    [utils/database.py] writes and reads back and the cache status of
    [app.py] follow, with further properties of the code.

    Modelling conventions.
    - A Python value that travels through the pipeline (decoded JSON, dict,
      list, number, string, [None]) is a [pyval]; a dict is the list of its
      items, in insertion order, with distinct keys.
    - A Python [float] is modelled by an exact rational ([Qc]); rounding
      error, infinities and NaN are outside the model.  Module [Binary64]
      repeats the stake concentration on double precision numbers, to
      show what rounding does to it.
    - A Python exception is the [Err] case of an error monad; the client
      runs in a state-and-error monad over the remote endpoint, the store
      and the printed lines, and [try/except] is [catch].
    - A pandas [DataFrame] is the list of its rows, in index order.
    - The remote endpoint and the relational store are parameters: the
      properties of the client hold for every behaviour of both. *)

From Stdlib Require Import ZArith QArith Qcanon Qround.
From Stdlib Require Import List String Ascii Bool Lia Lqa Permutation Sorting.
From Stdlib Require Floats.PrimFloat Numbers.Cyclic.Int63.Uint63.
Import ListNotations.

Set Warnings "-register-all".

Local Open Scope string_scope.
Local Open Scope list_scope.
Local Open Scope Z_scope.
Local Open Scope Qc_scope.

(* ================================================================= *)
(** ** Python values *)

Inductive pyval : Type :=
| PNone
| PBool (b : bool)
| PInt (z : Z)
| PFloat (q : Qc)
| PStr (s : string)
| PList (l : list pyval)
| PDict (d : list (string * pyval)).

(** Exceptions.  The three [Exception(f"...")] messages raised by
    [SolanaClient] are kept structured instead of formatted. *)
Inductive exn : Type :=
| AttributeError
| TypeError
| ValueError
| IndexError
| KeyError
| ZeroDivisionError
| JSONDecodeError
| ConnectionError
| RpcStatusFailure (status : Z) (text : string)
    (* Exception(f"RPC request failed with status {status}: {text}") *)
| RpcError (err : pyval)
    (* Exception(f"RPC error: {result['error']}") *)
| NetworkInfoFailure (cause : exn).
    (* Exception(f"Failed to get network info: {str(e)}") *)

Inductive result (A : Type) : Type :=
| Ok (a : A)
| Err (e : exn).
Arguments Ok {A} a.
Arguments Err {A} e.

Definition rbind {A B} (m : result A) (k : A -> result B) : result B :=
  match m with
  | Ok a => k a
  | Err e => Err e
  end.

Declare Scope result_scope.
Delimit Scope result_scope with result.
Notation "'let?' x ':=' m 'in' k" := (rbind m (fun x => k))
  (at level 10, x pattern, m at level 100, k at level 200) : result_scope.
Local Open Scope result_scope.

Fixpoint mapM {A B} (f : A -> result B) (l : list A) : result (list B) :=
  match l with
  | [] => Ok []
  | x :: xs =>
      let? y := f x in
      let? ys := mapM f xs in
      Ok (y :: ys)
  end.

(** Integers as rationals, and the constant [10**9]. *)
Definition Z2Qc (z : Z) : Qc := Q2Qc (inject_Z z).
Definition lamports_per_sol : Qc := Z2Qc 1000000000.
Definition hundred : Qc := Z2Qc 100.

(* ----------------------------------------------------------------- *)
(** *** Dictionaries *)

Fixpoint assoc (k : string) (d : list (string * pyval)) : option pyval :=
  match d with
  | [] => None
  | (k', v) :: rest => if String.eqb k k' then Some v else assoc k rest
  end.

(** [obj.get(key, default)]: only a dict has the method. *)
Definition py_get (obj : pyval) (key : string) (default : pyval)
  : result pyval :=
  match obj with
  | PDict d =>
      match assoc key d with
      | Some v => Ok v
      | None => Ok default
      end
  | _ => Err AttributeError
  end.

(** [obj[key]] for a string key. *)
Definition py_getitem (obj : pyval) (key : string) : result pyval :=
  match obj with
  | PDict d =>
      match assoc key d with
      | Some v => Ok v
      | None => Err KeyError
      end
  | _ => Err TypeError
  end.

(** [key in obj] for a string key. *)
Definition py_contains (key : string) (obj : pyval) : result bool :=
  match obj with
  | PDict d => Ok (match assoc key d with Some _ => true | None => false end)
  | PList l =>
      Ok (existsb (fun v => match v with
                            | PStr s => String.eqb s key
                            | _ => false
                            end) l)
  | PStr s =>
      Ok (match index 0 key s with Some _ => true | None => false end)
  | _ => Err TypeError
  end.

Definition is_dict (v : pyval) : bool :=
  match v with PDict _ => true | _ => false end.

(* ----------------------------------------------------------------- *)
(** *** Truthiness, numbers, sequences *)

Definition Qc_eqb (a b : Qc) : bool := Qeq_bool a b.
Definition Qc_ltb (a b : Qc) : bool :=
  match (a ?= b) with Lt => true | _ => false end.
Definition Qc_leb (a b : Qc) : bool := negb (Qc_ltb b a).

Definition py_truthy (v : pyval) : bool :=
  match v with
  | PNone => false
  | PBool b => b
  | PInt z => negb (Z.eqb z 0)
  | PFloat q => negb (Qc_eqb q 0)
  | PStr s => negb (String.eqb s "")
  | PList l => match l with [] => false | _ => true end
  | PDict d => match d with [] => false | _ => true end
  end.

(** [float(v)].  A numeric string would be parsed by Python; the remote
    API sends numbers, and the model rejects every string. *)
Definition py_float (v : pyval) : result Qc :=
  match v with
  | PInt z => Ok (Z2Qc z)
  | PFloat q => Ok q
  | PBool b => Ok (if b then 1 else 0)
  | PStr _ => Err ValueError
  | _ => Err TypeError
  end.

(** The numeric value of an operand of [+ - * / < >]. *)
Definition py_num (v : pyval) : result Qc :=
  match v with
  | PInt z => Ok (Z2Qc z)
  | PFloat q => Ok q
  | PBool b => Ok (if b then 1 else 0)
  | _ => Err TypeError
  end.

Definition as_int (v : pyval) : option Z :=
  match v with
  | PInt z => Some z
  | PBool b => Some (if b then 1 else 0)%Z
  | _ => None
  end.

(** [a - b]: an [int] when both are, a [float] otherwise. *)
Definition py_sub (a b : pyval) : result pyval :=
  match as_int a, as_int b with
  | Some x, Some y => Ok (PInt (x - y))
  | _, _ =>
      let? x := py_num a in
      let? y := py_num b in
      Ok (PFloat (x - y))
  end.

(** [a * b]: for numbers an [int] when both are and a [float] otherwise;
    a list or a string times an [int] is repeated. *)
Definition py_mul (a b : pyval) : result pyval :=
  match as_int a, as_int b with
  | Some x, Some y => Ok (PInt (x * y))
  | _, _ =>
      match a, as_int b with
      | PList l, Some n => Ok (PList (List.concat (repeat l (Z.to_nat n))))
      | PStr s, Some n => Ok (PStr (String.concat "" (repeat s (Z.to_nat n))))
      | _, _ =>
          let? x := py_num a in
          let? y := py_num b in
          Ok (PFloat (x * y))
      end
  end.

(** [int(v)]: a [float] is truncated towards zero.  A numeric string
    would be parsed by Python; the model rejects every string. *)
Definition py_int (v : pyval) : result pyval :=
  match v with
  | PInt z => Ok (PInt z)
  | PBool b => Ok (PInt (if b then 1 else 0))
  | PFloat q => Ok (PInt (Z.quot (Qnum q) (Zpos (Qden q))))
  | PStr _ => Err ValueError
  | _ => Err TypeError
  end.

(** [a / b], true division. *)
Definition py_truediv (a b : pyval) : result Qc :=
  let? x := py_num a in
  let? y := py_num b in
  if Qc_eqb y 0 then Err ZeroDivisionError else Ok (x / y).

(** [a > 0]. *)
Definition py_gt0 (a : pyval) : result bool :=
  let? x := py_num a in Ok (Qc_ltb 0 x).

(** [a + b]: concatenation of two lists or two strings, addition of two
    numbers. *)
Definition py_add (a b : pyval) : result pyval :=
  match a, b with
  | PList l1, PList l2 => Ok (PList (l1 ++ l2))
  | PStr s1, PStr s2 => Ok (PStr (s1 ++ s2))
  | _, _ =>
      match as_int a, as_int b with
      | Some x, Some y => Ok (PInt (x + y))
      | _, _ =>
          let? x := py_num a in
          let? y := py_num b in
          Ok (PFloat (x + y))
      end
  end.

Definition chars (s : string) : list pyval :=
  map (fun c => PStr (String c EmptyString)) (list_ascii_of_string s).

(** [for x in v]: the items a loop visits. *)
Definition py_iter (v : pyval) : result (list pyval) :=
  match v with
  | PList l => Ok l
  | PDict d => Ok (map (fun kv => PStr (fst kv)) d)
  | PStr s => Ok (chars s)
  | _ => Err TypeError
  end.

(** [len(v)]. *)
Definition py_len (v : pyval) : result Z :=
  match v with
  | PList l => Ok (Z.of_nat (List.length l))
  | PDict d => Ok (Z.of_nat (List.length d))
  | PStr s => Ok (Z.of_nat (String.length s))
  | _ => Err TypeError
  end.

(** [seq[i]] on a Python sequence, negative indices counting from the
    end. *)
Definition seq_index {A} (l : list A) (i : Z) : result A :=
  let n := Z.of_nat (List.length l) in
  let j := (if i <? 0 then i + n else i)%Z in
  if ((j <? 0) || (n <=? j))%Z then Err IndexError
  else match nth_error l (Z.to_nat j) with
       | Some x => Ok x
       | None => Err IndexError
       end.

(** [v[i]] for an integer index. *)
Definition py_index (v : pyval) (i : Z) : result pyval :=
  match v with
  | PList l => seq_index l i
  | PStr s => seq_index (chars s) i
  | PDict _ => Err KeyError
  | _ => Err TypeError
  end.

(** [a == b].  Numbers compare by value across [bool], [int] and [float];
    dicts compare key by key, whatever the order (the keys of a dict are
    distinct). *)
Definition num_of (v : pyval) : option Qc :=
  match v with
  | PInt z => Some (Z2Qc z)
  | PFloat q => Some q
  | PBool b => Some (if b then 1 else 0)
  | _ => None
  end.

Fixpoint py_eqb (a b : pyval) {struct a} : bool :=
  match a, b with
  | PNone, PNone => true
  | PStr s, PStr t => String.eqb s t
  | PList l1, PList l2 =>
      (fix go (l1 l2 : list pyval) {struct l1} : bool :=
         match l1, l2 with
         | [], [] => true
         | x :: xs, y :: ys => py_eqb x y && go xs ys
         | _, _ => false
         end) l1 l2
  | PDict d1, PDict d2 =>
      Nat.eqb (List.length d1) (List.length d2) &&
      (fix all (d : list (string * pyval)) {struct d} : bool :=
         match d with
         | [] => true
         | (k, v) :: rest =>
             match assoc k d2 with
             | Some w => py_eqb v w
             | None => false
             end && all rest
         end) d1
  | _, _ =>
      match num_of a, num_of b with
      | Some x, Some y => Qc_eqb x y
      | _, _ => false
      end
  end.

(** [v in container], for the list the aggregator tests against. *)
Definition py_in (v container : pyval) : result bool :=
  match container with
  | PList l => Ok (existsb (py_eqb v) l)
  | _ => Err TypeError
  end.

(* ================================================================= *)
(** ** The pandas operations the aggregator calls *)

Fixpoint Qsum (l : list Qc) : Qc :=
  match l with
  | [] => 0
  | x :: xs => x + Qsum xs
  end.

(** [sort_values(..., ascending=False)] on the key [key]: rows in
    descending key order.  (The order pandas gives to rows with equal keys
    is not specified; insertion keeps them in index order.) *)
Section SortDesc.
Context {A : Type} (key : A -> Qc).

Fixpoint insert_desc (x : A) (l : list A) : list A :=
  match l with
  | [] => [x]
  | y :: ys =>
      if Qc_ltb (key y) (key x) then x :: y :: ys
      else y :: insert_desc x ys
  end.

Fixpoint sort_desc (l : list A) : list A :=
  match l with
  | [] => []
  | x :: xs => insert_desc x (sort_desc xs)
  end.
End SortDesc.

(** [head(n)]. *)
Definition head {A} (n : nat) (l : list A) : list A := firstn n l.

(** [Series.rank(ascending=False, method='min')]: every value gets its
    1-based position in the descending order, and the members of a group
    of equal values all get the lowest position of the group. *)
Fixpoint first_position (x : Qc) (sorted : list Qc) : Z :=
  match sorted with
  | [] => 1
  | y :: ys => if Qc_eqb x y then 1 else (1 + first_position x ys)%Z
  end.

Definition rank_min_desc (values : list Qc) : list Z :=
  map (fun x => first_position x (sort_desc (fun v => v) values)) values.

(** [Series.round(2)]: to the nearest multiple of 1/100, a tie to the even
    neighbour. *)
Definition rint (q : Qc) : Z :=
  let f := Qfloor q in
  let r := q - Z2Qc f in
  let half := Z2Qc 1 / Z2Qc 2 in
  if Qc_ltb r half then f
  else if Qc_ltb half r then (f + 1)%Z
  else if Z.even f then f else (f + 1)%Z.

Definition round2 (q : Qc) : Qc := Z2Qc (rint (q * hundred)) / hundred.

(* ================================================================= *)
(** ** utils/data_processor.py *)

Module DataProcessor.

(** One dict appended to [processed_data]. *)
Record validator_entry : Type := {
  nodePubkey : pyval;
  votePubkey : pyval;
  activatedStake : Qc;
  stakePercentage : Qc;
  commission : pyval;
  lastVote : pyval;
  rootSlot : pyval;
  credits : pyval;
  status : string
}.

(** One row of the returned frame: the entry with the two columns added
    when the frame is not empty. *)
Record validator_row : Type := {
  entry : validator_entry;
  rank : Z;
  estimatedAPY : Qc
}.

Definition stake_of (r : validator_row) : Qc := activatedStake (entry r).
Definition percentage_of (r : validator_row) : Qc :=
  stakePercentage (entry r).

(** [float(v.get('activatedStake', 0)) / 10**9] *)
Definition activated_stake_sol (v : pyval) : result Qc :=
  let? raw := py_get v "activatedStake" (PInt 0) in
  let? f := py_float raw in
  Ok (f / lamports_per_sol).

(** [epoch_credits[-1][1] - epoch_credits[-1][0] if epoch_credits else 0] *)
Definition current_epoch_credits (epoch_credits : pyval) : result pyval :=
  if py_truthy epoch_credits then
    let? last1 := py_index epoch_credits (-1) in
    let? hi := py_index last1 1 in
    let? last0 := py_index epoch_credits (-1) in
    let? lo := py_index last0 0 in
    py_sub hi lo
  else Ok (PInt 0).

(** The body of the loop over [all_validators]. *)
Definition process_validator (current : pyval) (total_active_stake : Qc)
    (validator : pyval) : result validator_entry :=
  let? activated_stake_sol := activated_stake_sol validator in
  let stake_percentage :=
    if Qc_ltb 0 total_active_stake
    then activated_stake_sol / total_active_stake * hundred
    else 0 in
  let? epoch_credits := py_get validator "epochCredits" (PList []) in
  let? current_epoch_credits := current_epoch_credits epoch_credits in
  let? is_current := py_in validator current in
  let status := if is_current then "Active" else "Delinquent" in
  let? node := py_get validator "nodePubkey" (PStr "Unknown") in
  let? vote := py_get validator "votePubkey" (PStr "Unknown") in
  let? comm := py_get validator "commission" (PInt 0) in
  let? last_vote := py_get validator "lastVote" (PInt 0) in
  let? root_slot := py_get validator "rootSlot" (PInt 0) in
  Ok {| nodePubkey := node;
        votePubkey := vote;
        activatedStake := activated_stake_sol;
        stakePercentage := stake_percentage;
        commission := comm;
        lastVote := last_vote;
        rootSlot := root_slot;
        credits := current_epoch_credits;
        status := status |}.

(** [(inflation_rate * (1 - df['commission'] / 100)).round(2)], one row.
    A commission that is not a number is rejected (pandas would give NaN
    or raise, depending on the rest of the column). *)
Definition estimated_apy (inflation_rate : Qc) (commission : pyval)
  : result Qc :=
  let? c := py_num commission in
  Ok (round2 (inflation_rate * (1 - c / hundred))).

Definition default_inflation_rate : Qc := Z2Qc 8.

(** The columns added under [if not df.empty]. *)
Definition add_metrics (network_info : pyval) (df : list validator_entry)
  : result (list validator_row) :=
  match df with
  | [] => Ok []
  | _ :: _ =>
      let ranks := rank_min_desc (map activatedStake df) in
      let? rates := py_get network_info "inflation_rate" (PDict []) in
      let? total := py_get rates "total" (PFloat default_inflation_rate) in
      let? inflation_rate := py_num total in
      mapM (fun er : validator_entry * Z =>
              let? apy := estimated_apy inflation_rate (commission (fst er)) in
              Ok {| entry := fst er; rank := snd er; estimatedAPY := apy |})
           (combine df ranks)
  end.

Definition _process_validators (validators_info network_info : pyval)
  : result (list validator_row) :=
  let? current := py_get validators_info "current" (PList []) in
  let? delinquent := py_get validators_info "delinquent" (PList []) in
  let? both := py_add current delinquent in
  let? all_validators := py_iter both in
  let? stakes := mapM activated_stake_sol all_validators in
  let total_active_stake := Qsum stakes in
  let? processed_data :=
    mapM (process_validator current total_active_stake) all_validators in
  add_metrics network_info processed_data.

(** *** Network aggregation *)

(** The returned dict, flattened; the [updated_at] timestamp (the wall
    clock) is left out. *)
Record network_summary : Type := {
  epoch_current : pyval;
  epoch_slots_in_epoch : pyval;
  epoch_slot_index : pyval;
  epoch_progress_percentage : Qc;
  epoch_hours_remaining : Qc;
  inflation_total : pyval;
  inflation_validator : pyval;
  inflation_foundation : pyval;
  inflation_epoch : pyval;
  supply_total : Qc;
  supply_circulating : Qc;
  supply_staked : Qc;
  supply_staking_ratio : Qc;
  validators_active : Z;
  validators_delinquent : Z;
  validators_total : Z;
  concentration_top10 : Qc;
  concentration_top20 : Qc;
  concentration_top50 : Qc;
  performance_current_slot : pyval;
  performance_node_count : Z
}.

(** [seconds_per_slot = 0.4] *)
Definition seconds_per_slot : Qc := Z2Qc 4 / Z2Qc 10.
Definition seconds_per_hour : Qc := Z2Qc 3600.

(** [hours_remaining] from the two slot counters. *)
Definition hours_remaining (slots_in_epoch slot_index : pyval)
  : result Qc :=
  let? slots_remaining := py_sub slots_in_epoch slot_index in
  let? n := py_num slots_remaining in
  let time_remaining_seconds := n * seconds_per_slot in
  Ok (time_remaining_seconds / seconds_per_hour).

(** [float(supply_info.get('value', {}).get(field, 0)) / 10**9
     if supply_info.get('value') else 0] *)
Definition supply_figure (supply_info : pyval) (field : string)
  : result Qc :=
  let? present := py_get supply_info "value" PNone in
  if py_truthy present then
    let? value := py_get supply_info "value" (PDict []) in
    let? raw := py_get value field (PInt 0) in
    let? f := py_float raw in
    Ok (f / lamports_per_sol)
  else Ok 0.

(** [validators_df_sorted.head(n)['activatedStake'].sum() / total_staked
     * 100 if total_staked > 0 else 0] *)
Definition stake_top (n : nat) (validators_df_sorted : list validator_row)
    (total_staked : Qc) : Qc :=
  if Qc_ltb 0 total_staked
  then Qsum (map stake_of (head n validators_df_sorted)) / total_staked
       * hundred
  else 0.

Definition count_status (s : string) (df : list validator_row) : Z :=
  Z.of_nat (List.length
              (filter (fun r => String.eqb (status (entry r)) s) df)).

Definition _process_network_info (network_info : pyval)
    (processed_validators : list validator_row) : result network_summary :=
  let? epoch_info := py_get network_info "epoch_info" (PDict []) in
  let? current_epoch := py_get epoch_info "epoch" (PInt 0) in
  let? slots_in_epoch := py_get epoch_info "slotsInEpoch" (PInt 0) in
  let? slot_index := py_get epoch_info "slotIndex" (PInt 0) in
  let? has_slots := py_gt0 slots_in_epoch in
  let? epoch_progress :=
    (if has_slots
     then let? ratio := py_truediv slot_index slots_in_epoch in
          Ok (ratio * hundred)
     else Ok 0) in
  let? hours := hours_remaining slots_in_epoch slot_index in
  let? inflation_rate := py_get network_info "inflation_rate" (PDict []) in
  let? supply_info := py_get network_info "supply_info" (PDict []) in
  let? total_supply := supply_figure supply_info "total" in
  let? circulating_supply := supply_figure supply_info "circulating" in
  let validators_df := processed_validators in
  let empty := match validators_df with [] => true | _ => false end in
  let total_staked :=
    if empty then 0 else Qsum (map stake_of validators_df) in
  let staking_ratio :=
    if Qc_ltb 0 circulating_supply
    then total_staked / circulating_supply * hundred
    else 0 in
  let active_validators :=
    if empty then 0%Z else count_status "Active" validators_df in
  let delinquent_validators :=
    if empty then 0%Z else count_status "Delinquent" validators_df in
  let validators_df_sorted := sort_desc stake_of validators_df in
  let stake_top10 :=
    if empty then 0 else stake_top 10 validators_df_sorted total_staked in
  let stake_top20 :=
    if empty then 0 else stake_top 20 validators_df_sorted total_staked in
  let stake_top50 :=
    if empty then 0 else stake_top 50 validators_df_sorted total_staked in
  let? cluster_nodes := py_get network_info "cluster_nodes" (PList []) in
  let? current_slot := py_get network_info "slot_info" (PInt 0) in
  let? i_total := py_get inflation_rate "total" (PInt 0) in
  let? i_validator := py_get inflation_rate "validator" (PInt 0) in
  let? i_foundation := py_get inflation_rate "foundation" (PInt 0) in
  let? node_count := py_len cluster_nodes in
  Ok {| epoch_current := current_epoch;
        epoch_slots_in_epoch := slots_in_epoch;
        epoch_slot_index := slot_index;
        epoch_progress_percentage := epoch_progress;
        epoch_hours_remaining := hours;
        inflation_total := i_total;
        inflation_validator := i_validator;
        inflation_foundation := i_foundation;
        inflation_epoch := current_epoch;
        supply_total := total_supply;
        supply_circulating := circulating_supply;
        supply_staked := total_staked;
        supply_staking_ratio := staking_ratio;
        validators_active := active_validators;
        validators_delinquent := delinquent_validators;
        validators_total := (active_validators + delinquent_validators)%Z;
        concentration_top10 := stake_top10;
        concentration_top20 := stake_top20;
        concentration_top50 := stake_top50;
        performance_current_slot := current_slot;
        performance_node_count := node_count |}.

(** *** Stake distribution aggregation *)

(** One dict appended to [stake_accounts_data]. *)
Record stake_entry : Type := {
  pubkey : pyval;
  balance : Qc;
  parsed : pyval
}.

Record stake_info : Type := {
  total_stake : Qc;
  total_accounts : Z;
  distribution_categories : list string;
  distribution_counts : list Z;
  distribution_amounts : list Qc;
  accounts : list stake_entry
}.

(** A bin edge: a number or [float('inf')]. *)
Inductive edge : Type :=
| Fin (q : Qc)
| Inf.

Definition buckets : list edge :=
  [Fin 0; Fin (Z2Qc 100); Fin (Z2Qc 1000); Fin (Z2Qc 10000);
   Fin (Z2Qc 100000); Inf].
Definition labels : list string :=
  ["0-100"; "100-1K"; "1K-10K"; "10K-100K"; "100K+"].

Definition edge_leb (e : edge) (x : Qc) : bool :=
  match e with Fin q => Qc_leb q x | Inf => false end.
Definition ltb_edge (x : Qc) (e : edge) : bool :=
  match e with Fin q => Qc_ltb x q | Inf => true end.

(** [pd.cut(values, bins, labels=labels, right=False)] for one value:
    the index of the bin [[lo, hi)] that holds it, or nothing (NaN) when
    no bin does. *)
Fixpoint cut_from (i : nat) (bins : list edge) (x : Qc) : option nat :=
  match bins with
  | lo :: ((hi :: _) as rest) =>
      if edge_leb lo x && ltb_edge x hi then Some i
      else cut_from (S i) rest x
  | _ => None
  end.

Definition cut (bins : list edge) (x : Qc) : option nat := cut_from 0 bins x.

Definition in_category (i : nat) (e : stake_entry) : bool :=
  match cut buckets (balance e) with
  | Some j => Nat.eqb i j
  | None => false
  end.

Definition notna (v : pyval) : bool :=
  match v with PNone => false | _ => true end.

(** [df.groupby('stake_size_category').agg(count=('pubkey', 'count'),
    total_sol=('balance', 'sum'))]: one group per category, in category
    order, also for a category no row falls in; [count] counts the rows
    whose pubkey is not null. *)
Definition group_count (df : list stake_entry) (i : nat) : Z :=
  Z.of_nat (List.length
              (filter (fun e => notna (pubkey e))
                      (filter (in_category i) df))).
Definition group_total_sol (df : list stake_entry) (i : nat) : Qc :=
  Qsum (map balance (filter (in_category i) df)).

Definition category_indices : list nat := seq 0 (List.length labels).

(** The body of the loop over [self.stake_accounts]. *)
Definition process_stake_account (account : pyval) : result stake_entry :=
  let? pubkey := py_get account "pubkey" (PStr "Unknown") in
  let? account_data := py_get account "account" (PDict []) in
  let? lamports := py_get account_data "lamports" (PInt 0) in
  let? sol_balance := py_truediv lamports (PInt 1000000000) in
  let? data := py_get account_data "data" (PDict []) in
  let? has_parsed :=
    (if is_dict data then py_contains "parsed" data else Ok false) in
  let? parsed_data :=
    (if has_parsed
     then let? p := py_get data "parsed" (PDict []) in
          py_get p "info" (PDict [])
     else Ok PNone) in
  Ok {| pubkey := pubkey; balance := sol_balance; parsed := parsed_data |}.

Definition empty_stake_info : stake_info :=
  {| total_stake := 0;
     total_accounts := 0;
     distribution_categories := [];
     distribution_counts := [];
     distribution_amounts := [];
     accounts := [] |}.

Definition _process_stake_accounts (stake_accounts : pyval)
  : result stake_info :=
  if negb (py_truthy stake_accounts) then Ok empty_stake_info
  else
    let? items := py_iter stake_accounts in
    let? stake_accounts_data := mapM process_stake_account items in
    let df := stake_accounts_data in
    match df with
    | [] =>
        Ok {| total_stake := 0;
              total_accounts := 0;
              distribution_categories := [];
              distribution_counts := [];
              distribution_amounts := [];
              accounts := firstn 100 stake_accounts_data |}
    | _ :: _ =>
        Ok {| total_stake := Qsum (map balance df);
              total_accounts := Z.of_nat (List.length df);
              distribution_categories := labels;
              distribution_counts := map (group_count df) category_indices;
              distribution_amounts :=
                map (group_total_sol df) category_indices;
              accounts := firstn 100 stake_accounts_data |}
    end.

(** *** The constructor *)

Record t : Type := {
  validators_info : pyval;
  network_info : pyval;
  stake_accounts : pyval;
  processed_validators : list validator_row;
  processed_network_info : network_summary;
  processed_stake_info : stake_info
}.

Definition __init__ (validators_info network_info stake_accounts : pyval)
  : result t :=
  let? pv := _process_validators validators_info network_info in
  let? pn := _process_network_info network_info pv in
  let? ps := _process_stake_accounts stake_accounts in
  Ok {| validators_info := validators_info;
        network_info := network_info;
        stake_accounts := stake_accounts;
        processed_validators := pv;
        processed_network_info := pn;
        processed_stake_info := ps |}.

Definition get_processed_validators (self : t) := processed_validators self.
Definition get_processed_network_info (self : t) :=
  processed_network_info self.
Definition get_processed_stake_info (self : t) := processed_stake_info self.

End DataProcessor.

(* ================================================================= *)
(** ** utils/database.py: the frame of cached validators *)

Module Database.

(** A row of table [validator_info]. *)
Record ValidatorInfo : Type := {
  epoch : pyval;
  node_pubkey : pyval;
  vote_pubkey : pyval;
  activated_stake : Qc;
  stake_percentage : Qc;
  commission : pyval;
  last_vote : pyval;
  root_slot : pyval;
  credits : pyval;
  status : string
}.

(** [df.to_dict("records")] for one row of the frame that
    [get_latest_validators_data] builds, [rank] included. *)
Definition record (v : ValidatorInfo) (rank : Z) : pyval :=
  PDict [("nodePubkey", node_pubkey v);
         ("votePubkey", vote_pubkey v);
         ("activatedStake", PFloat (activated_stake v));
         ("stakePercentage", PFloat (stake_percentage v));
         ("commission", commission v);
         ("lastVote", last_vote v);
         ("rootSlot", root_slot v);
         ("credits", credits v);
         ("status", PStr (status v));
         ("rank", PInt rank)].

(** The frame built from the rows of the latest epoch:
    [df['rank'] = df['activatedStake'].rank(ascending=False, method='min')]. *)
Definition frame (validators : list ValidatorInfo)
  : list (ValidatorInfo * Z) :=
  combine validators (rank_min_desc (map activated_stake validators)).

(** [get_latest_validators_data], given what the two session queries
    return: [None] stands for an unavailable store, an empty table and a
    query that raises. *)
Definition get_latest_validators_data
    (latest_epoch_rows : option (list ValidatorInfo))
  : option (list (ValidatorInfo * Z)) :=
  match latest_epoch_rows with
  | None => None
  | Some [] => None
  | Some validators => Some (frame validators)
  end.

End Database.

(* ================================================================= *)
(** ** utils/solana_client.py *)

Module SolanaClient.

(** What [requests.post] hands back. *)
Record response : Type := {
  status_code : Z;
  text : string;
  json : result pyval        (* [response.json()] *)
}.

(** The lines the client prints. *)
Inductive log_line : Type :=
| WarnStoreNetworkInfo (e : exn)
    (* "Warning: Failed to store network info in database: ..." *)
| WarnStoreStakeAccounts (e : exn)
    (* "Warning: Failed to store stake account data: ..." *)
| WarnGetStakeAccounts (e : exn).
    (* "Warning: Failed to get stake accounts: ..." *)

Section Client.

(** The remote endpoint and the relational store are the environment:
    any state, any behaviour. *)
Context {Remote Store : Type}.

(** [requests.post(self.rpc_endpoint, ...)] for one method and its
    parameters. *)
Variable post : string -> pyval -> Remote -> result response * Remote.

(** The functions imported from [utils.database]. *)
Variable latest_epoch_rows : Store -> option (list Database.ValidatorInfo).
Variable get_latest_network_info : Store -> option pyval.
Variable get_latest_stake_data : Z -> Store -> option pyval.
Variable store_network_info : pyval -> Store -> result unit * Store.
Variable store_stake_accounts :
  DataProcessor.stake_info -> pyval -> Store -> result unit * Store.

Record world : Type := {
  remote : Remote;
  store : Store;
  stdout : list log_line
}.

(** Computations that read and change the world and may raise. *)
Definition M (A : Type) : Type := world -> result A * world.

Definition ret {A} (a : A) : M A := fun w => (Ok a, w).
Definition raise {A} (e : exn) : M A := fun w => (Err e, w).
Definition bind {A B} (m : M A) (k : A -> M B) : M B :=
  fun w =>
    match m w with
    | (Ok a, w') => k a w'
    | (Err e, w') => (Err e, w')
    end.
Definition lift {A} (r : result A) : M A := fun w => (r, w).

(** [try: body  except Exception as e: handler e] *)
Definition catch {A} (body : M A) (handler : exn -> M A) : M A :=
  fun w =>
    match body w with
    | (Ok a, w') => (Ok a, w')
    | (Err e, w') => handler e w'
    end.

(** The world after a line was printed. *)
Definition printed (w : world) (l : log_line) : world :=
  {| remote := remote w; store := store w; stdout := stdout w ++ [l] |}.

Definition print (l : log_line) : M unit :=
  fun w => (Ok tt, printed w l).

Definition on_remote {A} (f : Remote -> result A * Remote) : M A :=
  fun w => let (r, rem) := f (remote w) in
           (r, {| remote := rem; store := store w; stdout := stdout w |}).

Definition on_store {A} (f : Store -> result A * Store) : M A :=
  fun w => let (r, st) := f (store w) in
           (r, {| remote := remote w; store := st; stdout := stdout w |}).

Definition read_store {A} (f : Store -> A) : M A :=
  fun w => (Ok (f (store w)), w).

Local Notation "'do' x '<-' m ';' k" := (bind m (fun x => k))
  (at level 10, x pattern, m at level 100, k at level 200).

(** [data["params"] = params or []] *)
Definition params_or_empty (params : pyval) : pyval :=
  if py_truthy params then params else PList [].

Definition _make_rpc_request (method : string) (params : pyval)
  : M pyval :=
  do response <- on_remote (post method (params_or_empty params));
  if negb (status_code response =? 200)%Z
  then raise (RpcStatusFailure (status_code response) (text response))
  else
    do result <- lift (json response);
    do has_error <- lift (py_contains "error" result);
    if has_error
    then do err <- lift (py_getitem result "error");
         raise (RpcError err)
    else lift (py_getitem result "result").

(** [cached_data[cached_data["status"] == s].to_dict("records")] *)
Definition records_with_status (s : string)
    (cached_data : list (Database.ValidatorInfo * Z)) : pyval :=
  PList (map (fun vr => Database.record (fst vr) (snd vr))
             (filter (fun vr => String.eqb (Database.status (fst vr)) s)
                     cached_data)).

Definition get_validators (use_cache : bool) : M pyval :=
  do cached <-
    (if use_cache
     then read_store (fun s => Database.get_latest_validators_data
                                 (latest_epoch_rows s))
     else ret None);
  match cached with
  | Some cached_data =>
      ret (PDict [("current", records_with_status "current" cached_data);
                  ("delinquent",
                   records_with_status "delinquent" cached_data)])
  | None => _make_rpc_request "getVoteAccounts" PNone
  end.

Definition get_epoch_info : M pyval :=
  _make_rpc_request "getEpochInfo" PNone.
Definition get_inflation_rate : M pyval :=
  _make_rpc_request "getInflationRate" PNone.
Definition get_supply : M pyval :=
  _make_rpc_request "getSupply" PNone.

(** [hours_remaining = slots_remaining * 2 / 3600] *)
Definition hours_remaining (slots_in_epoch slot_index : pyval)
  : result Qc :=
  let? slots_remaining := py_sub slots_in_epoch slot_index in
  let? doubled := py_mul slots_remaining (PInt 2) in
  py_truediv doubled (PInt 3600).

(** [float(supply_info.get("value", {}).get(field, 0)) / 1e9] *)
Definition supply_figure (supply_info : pyval) (field : string)
  : result Qc :=
  let? value := py_get supply_info "value" (PDict []) in
  let? raw := py_get value field (PInt 0) in
  let? f := py_float raw in
  Ok (f / lamports_per_sol).

(** [inflation_rate.get(field, 0) * 100] *)
Definition inflation_percent (inflation_rate : pyval) (field : string)
  : result pyval :=
  let? raw := py_get inflation_rate field (PInt 0) in
  py_mul raw (PInt 100).

(** The loop [total_stake += float(validator.get("activatedStake", 0))
    / 1e9], from [total_stake = 0]. *)
Fixpoint add_stakes (total_stake : pyval) (validators : list pyval)
  : result pyval :=
  match validators with
  | [] => Ok total_stake
  | validator :: rest =>
      let? raw := py_get validator "activatedStake" (PInt 0) in
      let? f := py_float raw in
      let? acc := py_num total_stake in
      add_stakes (PFloat (acc + f / lamports_per_sol)) rest
  end.

(** The RPC branch of [get_network_info], inside its [try]. *)
Definition fetch_network_info (use_cache : bool) : M pyval :=
  do epoch_info <- get_epoch_info;
  do inflation_rate <- get_inflation_rate;
  do supply_info <- get_supply;
  do slot_info <- _make_rpc_request "getSlot" PNone;
  do cluster_nodes <- _make_rpc_request "getClusterNodes" PNone;
  do current_epoch <- lift (py_get epoch_info "epoch" (PInt 0));
  do slots_in_epoch <- lift (py_get epoch_info "slotsInEpoch" (PInt 0));
  do slot_index <- lift (py_get epoch_info "slotIndex" (PInt 0));
  do has_slots <- lift (py_gt0 slots_in_epoch);
  do epoch_progress <-
    lift (if has_slots
          then let? ratio := py_truediv slot_index slots_in_epoch in
               Ok (PFloat (ratio * hundred))
          else Ok (PInt 0));
  do hours <- lift (hours_remaining slots_in_epoch slot_index);
  do validators <- get_validators use_cache;
  do current <- lift (py_get validators "current" (PList []));
  do current_validators <- lift (py_len current);
  do delinquent <- lift (py_get validators "delinquent" (PList []));
  do delinquent_validators <- lift (py_len delinquent);
  do total_inflation <- lift (inflation_percent inflation_rate "total");
  do validator_inflation <-
    lift (inflation_percent inflation_rate "validator");
  do foundation_inflation <-
    lift (inflation_percent inflation_rate "foundation");
  do total_supply <- lift (supply_figure supply_info "total");
  do circulating_supply <- lift (supply_figure supply_info "circulating");
  do current' <- lift (py_get validators "current" (PList []));
  do delinquent' <- lift (py_get validators "delinquent" (PList []));
  do both <- lift (py_add current' delinquent');
  do all_validators <- lift (py_iter both);
  do total_stake <- lift (add_stakes (PInt 0) all_validators);
  do staking_ratio <-
    lift (if Qc_ltb 0 total_supply
          then let? r := py_truediv total_stake (PFloat total_supply) in
               Ok (PFloat r)
          else Ok (PInt 0));
  let processed_data :=
    PDict
      [("epoch",
        PDict [("current", current_epoch);
               ("slots_in_epoch", slots_in_epoch);
               ("slot_index", slot_index);
               ("progress_percentage", epoch_progress);
               ("hours_remaining", PFloat hours)]);
       ("inflation",
        PDict [("total", total_inflation);
               ("validator", validator_inflation);
               ("foundation", foundation_inflation)]);
       ("supply",
        PDict [("total", PFloat total_supply);
               ("circulating", PFloat circulating_supply);
               ("staked", total_stake);
               ("staking_ratio", staking_ratio)]);
       ("validators",
        PDict [("active", PInt current_validators);
               ("delinquent", PInt delinquent_validators)]);
       ("performance", PDict [("current_slot", slot_info)]);
       ("raw_data",
        PDict [("epoch_info", epoch_info);
               ("inflation_rate", inflation_rate);
               ("supply_info", supply_info);
               ("cluster_nodes", cluster_nodes)])] in
  do _ <- catch (on_store (store_network_info processed_data))
                (fun e => print (WarnStoreNetworkInfo e));
  ret processed_data.

Definition get_network_info (use_cache : bool) : M pyval :=
  do cached <-
    (if use_cache then read_store get_latest_network_info else ret None);
  match cached with
  | Some cached_data => ret cached_data
  | None =>
      catch (fetch_network_info use_cache)
            (fun e => raise (NetworkInfoFailure e))
  end.

(** One cached account, converted back to the shape of the remote
    answer. *)
Definition uncache_account (account : pyval) : result pyval :=
  let? pubkey := py_getitem account "pubkey" in
  let? balance := py_getitem account "balance" in
  let? scaled := py_mul balance (PFloat lamports_per_sol) in
  let? lamports := py_int scaled in
  let? parsed := py_getitem account "parsed" in
  let? parsed' :=
    (if py_truthy parsed then py_getitem account "parsed"
     else Ok (PDict [])) in
  Ok (PDict [("pubkey", pubkey);
             ("account",
              PDict [("lamports", lamports);
                     ("data", PDict [("parsed", parsed')])])]).

Definition stake_program_id : string :=
  "Stake11111111111111111111111111111111111111".

Definition scan_params (limit : Z) : pyval :=
  PList [PStr stake_program_id;
         PDict [("encoding", PStr "jsonParsed");
                ("limit", PInt limit);
                ("filters",
                 PList [PDict [("memcmp",
                                PDict [("offset", PInt 4);
                                       ("bytes", PStr "2")])]])]].

(** The block under [if result:], inside its own [try]. *)
Definition write_back (result : pyval) : M unit :=
  do epoch_info <- get_epoch_info;
  do current_epoch <- lift (py_get epoch_info "epoch" (PInt 0));
  do processor <- lift (DataProcessor.__init__ PNone PNone result);
  let stake_data := DataProcessor.get_processed_stake_info processor in
  on_store (store_stake_accounts stake_data current_epoch).

(** The RPC branch of [get_stake_accounts], inside the outer [try]. *)
Definition scan_stake_accounts (limit : Z) : M pyval :=
  do result <- _make_rpc_request "getProgramAccounts" (scan_params limit);
  do _ <-
    (if py_truthy result
     then catch (write_back result)
                (fun e => print (WarnStoreStakeAccounts e))
     else ret tt);
  ret result.

Definition get_stake_accounts (use_cache : bool) (limit : Z) : M pyval :=
  do cached <-
    (if use_cache then read_store (get_latest_stake_data limit)
     else ret None);
  match cached with
  | Some cached_data =>
      do accounts <- lift (py_get cached_data "accounts" (PList []));
      do items <- lift (py_iter accounts);
      do processed_accounts <- lift (mapM uncache_account items);
      ret (PList processed_accounts)
  | None =>
      catch (scan_stake_accounts limit)
            (fun e => do _ <- print (WarnGetStakeAccounts e);
                      ret (PList []))
  end.

End Client.

End SolanaClient.

(* ================================================================= *)
(** ** app.py: the data fetch block *)

Module App.

Section Refresh.
Context {Remote Store : Type}.
Variable post :
  string -> pyval -> Remote -> result SolanaClient.response * Remote.
Variable latest_epoch_rows : Store -> option (list Database.ValidatorInfo).
Variable get_latest_network_info : Store -> option pyval.
Variable get_latest_stake_data : Z -> Store -> option pyval.
Variable store_network_info : pyval -> Store -> result unit * Store.
Variable store_stake_accounts :
  DataProcessor.stake_info -> pyval -> Store -> result unit * Store.

(** The three fetches and the constructor, inside the [try] of the
    block; [database_available] is the [use_cache] of every fetch and
    the limit of the scan is its default. *)
Definition refresh (database_available : bool)
  : @SolanaClient.M Remote Store DataProcessor.t :=
  SolanaClient.bind
    (SolanaClient.get_validators post latest_epoch_rows database_available)
    (fun validators_info =>
  SolanaClient.bind
    (SolanaClient.get_network_info post latest_epoch_rows
       get_latest_network_info store_network_info database_available)
    (fun network_info =>
  SolanaClient.bind
    (SolanaClient.get_stake_accounts post get_latest_stake_data
       store_stake_accounts database_available 50)
    (fun stake_accounts =>
  SolanaClient.lift
    (DataProcessor.__init__ validators_info network_info stake_accounts)))).

End Refresh.

End App.

(* ================================================================= *)
(** ** utils/database.py: rows written and rows read

    The Python side of the functions that write to and read from the
    store.  What the session returns is an argument; a JSON text column
    is represented by the value it encodes ([json.loads] gives back what
    [json.dumps] was given), and the [timestamp] column, set from the
    wall clock, is left out of the rows. *)

Module Cache.

(** [validator.get(key)] on a record of [to_dict('records')]. *)
Definition validator_record (epoch : pyval) (r : DataProcessor.validator_row)
  : Database.ValidatorInfo :=
  let e := DataProcessor.entry r in
  {| Database.epoch := epoch;
     Database.node_pubkey := DataProcessor.nodePubkey e;
     Database.vote_pubkey := DataProcessor.votePubkey e;
     Database.activated_stake := DataProcessor.activatedStake e;
     Database.stake_percentage := DataProcessor.stakePercentage e;
     Database.commission := DataProcessor.commission e;
     Database.last_vote := DataProcessor.lastVote e;
     Database.root_slot := DataProcessor.rootSlot e;
     Database.credits := DataProcessor.credits e;
     Database.status := DataProcessor.status e |}.

(** The records [store_validators_data] hands to the bulk insert;
    nothing is stored for an empty frame. *)
Definition validator_records (validators_df : list DataProcessor.validator_row)
    (epoch : pyval) : list Database.ValidatorInfo :=
  map (validator_record epoch) validators_df.

(** A row of table [network_info]. *)
Record NetworkInfo : Type := {
  epoch : pyval;
  slots_in_epoch : pyval;
  slot_index : pyval;
  epoch_progress : pyval;
  hours_remaining : pyval;
  inflation_total : pyval;
  inflation_validator : pyval;
  inflation_foundation : pyval;
  total_supply : pyval;
  circulating_supply : pyval;
  staked_supply : pyval;
  staking_ratio : pyval;
  active_validators : pyval;
  delinquent_validators : pyval;
  current_slot : pyval;
  data_json : pyval
}.

(** [network_data[section][field]] *)
Definition item2 (network_data : pyval) (section field : string)
  : result pyval :=
  let? inner := py_getitem network_data section in
  py_getitem inner field.

(** The record [store_network_info] builds inside its [try]. *)
Definition network_record (network_data : pyval) : result NetworkInfo :=
  let? epoch := item2 network_data "epoch" "current" in
  let? slots_in_epoch := item2 network_data "epoch" "slots_in_epoch" in
  let? slot_index := item2 network_data "epoch" "slot_index" in
  let? epoch_progress :=
    item2 network_data "epoch" "progress_percentage" in
  let? hours_remaining := item2 network_data "epoch" "hours_remaining" in
  let? inflation_total := item2 network_data "inflation" "total" in
  let? inflation_validator := item2 network_data "inflation" "validator" in
  let? inflation_foundation :=
    item2 network_data "inflation" "foundation" in
  let? total_supply := item2 network_data "supply" "total" in
  let? circulating_supply := item2 network_data "supply" "circulating" in
  let? staked_supply := item2 network_data "supply" "staked" in
  let? staking_ratio := item2 network_data "supply" "staking_ratio" in
  let? active_validators := item2 network_data "validators" "active" in
  let? delinquent_validators :=
    item2 network_data "validators" "delinquent" in
  let? current_slot := item2 network_data "performance" "current_slot" in
  Ok {| epoch := epoch;
        slots_in_epoch := slots_in_epoch;
        slot_index := slot_index;
        epoch_progress := epoch_progress;
        hours_remaining := hours_remaining;
        inflation_total := inflation_total;
        inflation_validator := inflation_validator;
        inflation_foundation := inflation_foundation;
        total_supply := total_supply;
        circulating_supply := circulating_supply;
        staked_supply := staked_supply;
        staking_ratio := staking_ratio;
        active_validators := active_validators;
        delinquent_validators := delinquent_validators;
        current_slot := current_slot;
        data_json := network_data |}.

(** A row of table [stake_accounts]. *)
Record StakeAccount : Type := {
  account_epoch : pyval;
  pubkey : pyval;
  balance : Qc;
  parsed_data : option pyval
}.

(** One record of [store_stake_accounts]:
    [json.dumps(account.get('parsed')) if account.get('parsed') else None]
    for the last column. *)
Definition stake_record (epoch : pyval) (account : DataProcessor.stake_entry)
  : StakeAccount :=
  {| account_epoch := epoch;
     pubkey := DataProcessor.pubkey account;
     balance := DataProcessor.balance account;
     parsed_data :=
       if py_truthy (DataProcessor.parsed account)
       then Some (DataProcessor.parsed account)
       else None |}.

(** The records [store_stake_accounts] hands to the bulk insert: none
    when [stake_data.get('accounts')] is empty. *)
Definition stake_records (stake_data : DataProcessor.stake_info)
    (epoch : pyval) : list StakeAccount :=
  map (stake_record epoch) (DataProcessor.accounts stake_data).

(** One dict of [accounts_data] in [get_latest_stake_data]. *)
Definition account_data (account : StakeAccount) : pyval :=
  PDict [("pubkey", pubkey account);
         ("balance", PFloat (balance account));
         ("parsed",
          match parsed_data account with
          | Some v => v
          | None => PNone
          end)].

Definition cached_bucket (accounts : list StakeAccount) (i : nat)
  : list StakeAccount :=
  filter (fun a => match DataProcessor.cut DataProcessor.buckets (balance a)
                   with
                   | Some j => Nat.eqb i j
                   | None => false
                   end) accounts.

(** [get_latest_stake_data], given the rows the session returns for the
    latest epoch ([None] for an unavailable store, an empty table and a
    query that raises): the dict it returns. *)
Definition get_latest_stake_data (accounts : option (list StakeAccount))
  : option pyval :=
  match accounts with
  | None => None
  | Some [] => None
  | Some rows =>
      let counts :=
        map (fun i => PInt (Z.of_nat (List.length (cached_bucket rows i))))
            DataProcessor.category_indices in
      let amounts :=
        map (fun i => PFloat (Qsum (map balance (cached_bucket rows i))))
            DataProcessor.category_indices in
      Some (PDict
              [("total_stake", PFloat (Qsum (map balance rows)));
               ("total_accounts", PInt (Z.of_nat (List.length rows)));
               ("distribution",
                PDict [("categories",
                        PList (map PStr DataProcessor.labels));
                       ("counts", PList counts);
                       ("amounts", PList amounts)]);
               ("accounts", PList (map account_data rows))])
  end.

(** [is_data_fresh], given the latest timestamp of table [network_info]
    ([None] as above) and the clock, both in seconds:
    [latest_timestamp > now - timedelta(minutes=max_age_minutes)]. *)
Definition is_data_fresh (latest_timestamp : option Qc) (now : Qc)
    (max_age_minutes : Z) : bool :=
  match latest_timestamp with
  | None => false
  | Some t => Qc_ltb (now - Z2Qc (60 * max_age_minutes)) t
  end.

End Cache.

(* ================================================================= *)
(** ** app.py: the cache status of the sidebar *)

Module Sidebar.

(** [is_data_fresh(max_age_minutes=refresh_interval//60)], given the
    latest timestamp of the network table and the clock. *)
Definition cache_is_fresh (latest_timestamp : option Qc) (now : Qc)
    (refresh_interval : Z) : bool :=
  Cache.is_data_fresh latest_timestamp now (refresh_interval / 60)%Z.

End Sidebar.

(* ================================================================= *)
(** ** utils/data_processor.py: the stake concentration in binary64

    The stake column and the concentration figures once more, on IEEE
    754 double precision numbers, for stakes that the remote gives as
    integers of lamports ([0 <= lamports < 2^63]).  The sum of a column
    adds its cells from the first to the last, which is what pandas
    computes for a column of fewer than eight cells. *)

Module Binary64.

(** [float(n)] for an integer. *)
Definition of_int (n : Z) : PrimFloat.float :=
  PrimFloat.of_uint63 (Uint63.of_Z n).

(** [float(v.get('activatedStake', 0)) / 10**9] *)
Definition activated_stake_sol (lamports : Z) : PrimFloat.float :=
  PrimFloat.div (of_int lamports) (of_int 1000000000).

(** [column.sum()] *)
Definition column_sum (cells : list PrimFloat.float) : PrimFloat.float :=
  fold_left PrimFloat.add cells (of_int 0).

Fixpoint insert_desc (x : PrimFloat.float) (l : list PrimFloat.float)
  : list PrimFloat.float :=
  match l with
  | [] => [x]
  | y :: ys =>
      if PrimFloat.ltb y x then x :: y :: ys
      else y :: insert_desc x ys
  end.

(** [sort_values('activatedStake', ascending=False)] *)
Fixpoint sort_desc (l : list PrimFloat.float) : list PrimFloat.float :=
  match l with
  | [] => []
  | x :: xs => insert_desc x (sort_desc xs)
  end.

(** [validators_df_sorted.head(n)['activatedStake'].sum() / total_staked
     * 100 if total_staked > 0 else 0], with [total_staked] the sum of
    the column in index order. *)
Definition stake_top (n : nat) (stakes : list PrimFloat.float)
  : PrimFloat.float :=
  let total_staked := column_sum stakes in
  let validators_df_sorted := sort_desc stakes in
  if PrimFloat.ltb (of_int 0) total_staked
  then PrimFloat.mul
         (PrimFloat.div (column_sum (firstn n validators_df_sorted))
                        total_staked)
         (of_int 100)
  else of_int 0.

End Binary64.

(* ================================================================= *)
(** ** Further vocabulary *)

(** What is left of the parsed metadata of a stake entry after it went
    through the cache: its own ['info'] entry when it is a dict that has
    one, the empty dict otherwise. *)
Definition info_left (parsed : pyval) : pyval :=
  match parsed with
  | PDict info =>
      match assoc "info" info with
      | Some v => v
      | None => PDict []
      end
  | _ => PDict []
  end.

(** An entry whose parsed metadata is falsy (absent, empty) or a dict. *)
Definition cacheable (e : DataProcessor.stake_entry) : Prop :=
  py_truthy (DataProcessor.parsed e) = false \/
  exists info, DataProcessor.parsed e = PDict info.

(** A client computation that does not write to the store, whatever it
    returns. *)
Definition quiet {Remote Store A : Type}
    (m : @SolanaClient.M Remote Store A) : Prop :=
  forall w r w',
    m w = (r, w') -> SolanaClient.store w' = SolanaClient.store w.


(* ================================================================= *)
(** ** Vocabulary of the specification *)

(** How many values of [l] are strictly larger than [x]. *)
Definition count_greater (x : Qc) (l : list Qc) : nat :=
  List.length (filter (fun y => Qc_ltb x y) l).


(** The balance, in tokens, of one raw stake-account sample. *)
Definition sample_balance (account : pyval) : Qc :=
  match DataProcessor.process_stake_account account with
  | Ok e => DataProcessor.balance e
  | Err _ => 0
  end.

(** Rows in descending order of their key. *)
Definition descending {A} (key : A -> Qc) (l : list A) : Prop :=
  StronglySorted (fun a b => key b <= key a) l.

(** No rank number is skipped: below a rank that occurs, every rank from 1
    on occurs. *)
Definition no_rank_skipped (ranks : list Z) : Prop :=
  forall r, In r ranks -> forall k, (1 <= k <= r)%Z -> In k ranks.

(** Rank as the specification words it: the largest stake has rank 1,
    equal stakes share their rank, and no rank number is skipped. *)
Definition dense_descending_rank (rows : list DataProcessor.validator_row)
  : Prop :=
  (forall r, In r rows ->
     (forall r', In r' rows ->
        DataProcessor.stake_of r' <= DataProcessor.stake_of r) ->
     DataProcessor.rank r = 1%Z) /\
  (forall r r', In r rows -> In r' rows ->
     DataProcessor.stake_of r = DataProcessor.stake_of r' ->
     DataProcessor.rank r = DataProcessor.rank r') /\
  no_rank_skipped (map DataProcessor.rank rows).

(** The fields of a network summary that are read from the network info
    alone -- epoch number, slot counts, progress, time remaining,
    inflation rates, total and circulating supply, staking ratio, current
    slot and node count -- all at their zero defaults. *)
Definition network_fields_at_defaults (s : DataProcessor.network_summary)
  : Prop :=
  DataProcessor.epoch_current s = PInt 0 /\
  DataProcessor.epoch_slots_in_epoch s = PInt 0 /\
  DataProcessor.epoch_slot_index s = PInt 0 /\
  DataProcessor.epoch_progress_percentage s = 0 /\
  DataProcessor.epoch_hours_remaining s = 0 /\
  DataProcessor.inflation_total s = PInt 0 /\
  DataProcessor.inflation_validator s = PInt 0 /\
  DataProcessor.inflation_foundation s = PInt 0 /\
  DataProcessor.supply_total s = 0 /\
  DataProcessor.supply_circulating s = 0 /\
  DataProcessor.supply_staking_ratio s = 0 /\
  DataProcessor.performance_current_slot s = PInt 0 /\
  DataProcessor.performance_node_count s = 0%Z.

(** *** Raw shapes with optional fields

    The record shapes the aggregator expects.  Every key is optional; a
    key that is present holds a value of the expected kind. *)

Definition is_number (v : pyval) : bool :=
  match v with
  | PInt _ | PFloat _ | PBool _ => true
  | _ => false
  end.

Definition is_sized (v : pyval) : bool :=
  match v with
  | PList _ | PDict _ | PStr _ => true
  | _ => false
  end.

Definition optional (d : list (string * pyval)) (key : string)
    (shape : pyval -> bool) : bool :=
  match assoc key d with
  | Some v => shape v
  | None => true
  end.

Definition is_credit_entry (v : pyval) : bool :=
  match v with
  | PList (a :: b :: _) => is_number a && is_number b
  | _ => false
  end.

Definition is_credit_list (v : pyval) : bool :=
  match v with
  | PList l => forallb is_credit_entry l
  | _ => false
  end.

Definition is_validator (v : pyval) : bool :=
  match v with
  | PDict d =>
      optional d "activatedStake" is_number &&
      optional d "epochCredits" is_credit_list &&
      optional d "commission" is_number
  | _ => false
  end.

Definition is_validator_list (v : pyval) : bool :=
  match v with
  | PList l => forallb is_validator l
  | _ => false
  end.

Definition is_validators_info (v : pyval) : bool :=
  match v with
  | PDict d =>
      optional d "current" is_validator_list &&
      optional d "delinquent" is_validator_list
  | _ => false
  end.

Definition is_epoch_info (v : pyval) : bool :=
  match v with
  | PDict d =>
      optional d "slotsInEpoch" is_number &&
      optional d "slotIndex" is_number
  | _ => false
  end.

Definition is_inflation_rate (v : pyval) : bool :=
  match v with
  | PDict d => optional d "total" is_number
  | _ => false
  end.

Definition is_supply_value (v : pyval) : bool :=
  negb (py_truthy v) ||
  match v with
  | PDict d =>
      optional d "total" is_number && optional d "circulating" is_number
  | _ => false
  end.

Definition is_supply_info (v : pyval) : bool :=
  match v with
  | PDict d => optional d "value" is_supply_value
  | _ => false
  end.

Definition is_network_info (v : pyval) : bool :=
  match v with
  | PDict d =>
      optional d "epoch_info" is_epoch_info &&
      optional d "inflation_rate" is_inflation_rate &&
      optional d "supply_info" is_supply_info &&
      optional d "cluster_nodes" is_sized
  | _ => false
  end.

Definition is_account_payload (v : pyval) : bool :=
  match v with
  | PDict d => optional d "parsed" is_dict
  | _ => true
  end.

Definition is_account_data (v : pyval) : bool :=
  match v with
  | PDict d =>
      optional d "lamports" is_number &&
      optional d "data" is_account_payload
  | _ => false
  end.

Definition is_stake_account (v : pyval) : bool :=
  match v with
  | PDict d => optional d "account" is_account_data
  | _ => false
  end.

Definition is_stake_accounts (v : pyval) : bool :=
  negb (py_truthy v) ||
  match v with
  | PList l => forallb is_stake_account l
  | _ => false
  end.

(* ================================================================= *)
(** ** Sample inputs *)

Module Samples.

Definition sol (n : Z) : pyval := PInt (n * 1000000000).

Definition validator (vote : string) (stake_sol : Z) : pyval :=
  PDict [("votePubkey", PStr vote); ("activatedStake", sol stake_sol)].

(** Three validators with 100, 50 and 50 tokens. *)
Definition three_validators : pyval :=
  PDict [("current", PList [validator "v1" 100; validator "v2" 50]);
         ("delinquent", PList [validator "v3" 50])].

(** Four validators with 100, 50, 50 and 20 tokens. *)
Definition four_validators : pyval :=
  PDict [("current", PList [validator "v1" 100; validator "v2" 50;
                            validator "v3" 50; validator "v4" 20])].

Definition no_network_info : pyval := PDict [].

(** One validator whose last epoch-credit entry is [[501, 2000, 1200]],
    and one without entries. *)
Definition credit_validators : pyval :=
  PDict [("current",
          PList [PDict [("votePubkey", PStr "v1");
                        ("epochCredits",
                         PList [PList [PInt 500; PInt 1200; PInt 1000];
                                PList [PInt 501; PInt 2000; PInt 1200]])]]);
         ("delinquent", PList [PDict [("votePubkey", PStr "v2")]])].

Definition stake_account (key : string) (lamports : Z) : pyval :=
  PDict [("pubkey", PStr key);
         ("account", PDict [("lamports", PInt lamports)])].

(** Balances of 5, 250 and 250000 tokens. *)
Definition three_accounts : list pyval :=
  [stake_account "a1" 5000000000;
   stake_account "a2" 250000000000;
   stake_account "a3" 250000000000000].

Definition rows_of (r : result (list DataProcessor.validator_row))
  : list DataProcessor.validator_row :=
  match r with Ok rows => rows | Err _ => [] end.

Definition three_rows : list DataProcessor.validator_row :=
  Eval vm_compute in
    rows_of (DataProcessor._process_validators three_validators
                                               no_network_info).

Definition four_rows : list DataProcessor.validator_row :=
  Eval vm_compute in
    rows_of (DataProcessor._process_validators four_validators
                                               no_network_info).

Definition credit_rows : list DataProcessor.validator_row :=
  Eval vm_compute in
    rows_of (DataProcessor._process_validators credit_validators
                                               no_network_info).

(** A remote endpoint without state that answers every method with a
    fixed value, and a store that records what it is given. *)
Definition epoch_info : pyval :=
  PDict [("epoch", PInt 500); ("slotsInEpoch", PInt 432000);
         ("slotIndex", PInt 216000)].

Definition answer (method : string) : pyval :=
  if String.eqb method "getVoteAccounts" then three_validators
  else if String.eqb method "getEpochInfo" then epoch_info
  else if String.eqb method "getInflationRate" then
    PDict [("total", PFloat (Z2Qc 5 / Z2Qc 100));
           ("validator", PFloat (Z2Qc 4 / Z2Qc 100));
           ("foundation", PFloat (Z2Qc 1 / Z2Qc 100));
           ("epoch", PInt 500)]
  else if String.eqb method "getSupply" then
    PDict [("value", PDict [("total", sol 1000);
                            ("circulating", sol 800)])]
  else if String.eqb method "getSlot" then PInt 216216000
  else if String.eqb method "getClusterNodes" then
    PList [PDict [("pubkey", PStr "n1")]; PDict [("pubkey", PStr "n2")]]
  else if String.eqb method "getProgramAccounts" then PList three_accounts
  else PNone.

Definition reply (body : pyval) : SolanaClient.response :=
  {| SolanaClient.status_code := 200;
     SolanaClient.text := "";
     SolanaClient.json := Ok body |}.

Definition healthy_post (method : string) (params : pyval) (r : unit)
  : result SolanaClient.response * unit :=
  (Ok (reply (PDict [("jsonrpc", PStr "2.0");
                     ("result", answer method);
                     ("id", PInt 1)])), r).

Definition scan_limit_error : pyval :=
  PDict [("code", PInt (-32010));
         ("message",
          PStr "accumulated scan results exceeded the limit")].

(** The same endpoint, refusing the stake-account scan. *)
Definition limited_post (method : string) (params : pyval) (r : unit)
  : result SolanaClient.response * unit :=
  if String.eqb method "getProgramAccounts"
  then (Ok (reply (PDict [("jsonrpc", PStr "2.0");
                          ("error", scan_limit_error);
                          ("id", PInt 1)])), r)
  else healthy_post method params r.

(** An endpoint that refuses every method. *)
Definition failing_post (method : string) (params : pyval) (r : unit)
  : result SolanaClient.response * unit :=
  (Ok (reply (PDict [("jsonrpc", PStr "2.0");
                     ("error", scan_limit_error);
                     ("id", PInt 1)])), r).

Definition no_rows (s : list pyval) : option (list Database.ValidatorInfo) :=
  None.
Definition no_network (s : list pyval) : option pyval := None.
Definition no_stake (limit : Z) (s : list pyval) : option pyval := None.
Definition record_network (network_data : pyval) (s : list pyval)
  : result unit * list pyval := (Ok tt, network_data :: s).
Definition record_stake (stake_data : DataProcessor.stake_info)
    (epoch : pyval) (s : list pyval) : result unit * list pyval :=
  (Ok tt, epoch :: s).

Definition start : @SolanaClient.world unit (list pyval) :=
  {| SolanaClient.remote := tt;
     SolanaClient.store := [];
     SolanaClient.stdout := [] |}.

(** What the network-info fetch returns from the healthy endpoint. *)
Definition fetched_network_info : pyval :=
  Eval vm_compute in
    match fst (SolanaClient.get_network_info healthy_post no_rows
                 no_network record_network false start) with
    | Ok v => v
    | Err _ => PNone
    end.

Definition after_fetch : @SolanaClient.world unit (list pyval) :=
  Eval vm_compute in
    snd (SolanaClient.get_network_info healthy_post no_rows
           no_network record_network false start).

(** Ten validators with 10 tokens each and one with a stake of -5. *)
Definition validators_with_debt : pyval :=
  PDict [("current",
          PList (map (fun vote => validator vote 10)
                     ["v01"; "v02"; "v03"; "v04"; "v05";
                      "v06"; "v07"; "v08"; "v09"; "v10"]));
         ("delinquent", PList [validator "v11" (-5)])].

(** Three stakes, in lamports, whose sum in index order and whose sum
    in descending order round differently. *)
Definition rounding_lamports : list Z :=
  [4496387433281436; 8205683488046775; 7227539514146598]%Z.

(** Stakes of 0.1, 0.2 and 0.3 tokens. *)
Definition tenths_lamports : list Z :=
  [100000000; 200000000; 300000000]%Z.


(** *** Inputs of the further properties *)

(** A network info with the key the aggregator reads, halfway through
    an epoch. *)
Definition epoch_network_info : pyval := PDict [("epoch_info", epoch_info)].

(** 101 accounts of 5 tokens each. *)
Definition many_accounts : list pyval :=
  repeat (stake_account "a1" 5000000000) 101.


(** An account with parsed metadata, as the remote answers. *)
Definition parsed_account : pyval :=
  PDict [("pubkey", PStr "a4");
         ("account",
          PDict [("lamports", PInt 1500000001);
                 ("data",
                  PDict [("parsed",
                          PDict [("info",
                                  PDict [("meta",
                                          PDict [("rentExemptReserve",
                                                  PStr "2282880")])]);
                                 ("type", PStr "delegated")])])])].

Definition entries_of (r : result DataProcessor.stake_info)
  : list DataProcessor.stake_entry :=
  match r with Ok info => DataProcessor.accounts info | Err _ => [] end.

Definition two_entries : list DataProcessor.stake_entry :=
  Eval vm_compute in
    entries_of (DataProcessor._process_stake_accounts
                  (PList [stake_account "a1" 5000000000; parsed_account])).

(** A row of the validator table: 100 tokens of stake, 800 credits. *)
Definition cached_validator : Database.ValidatorInfo :=
  {| Database.epoch := PInt 500;
     Database.node_pubkey := PStr "n1";
     Database.vote_pubkey := PStr "v1";
     Database.activated_stake := Z2Qc 100;
     Database.stake_percentage := Z2Qc 50;
     Database.commission := PInt 5;
     Database.last_vote := PInt 1;
     Database.root_slot := PInt 1;
     Database.credits := PInt 800;
     Database.status := "Active" |}.

(** A store whose three tables answer: the validator table holds the
    processed frame of the three validators, the network table the
    fetched network info, the stake table the two entries. *)
Definition cached_rows (s : list pyval)
  : option (list Database.ValidatorInfo) :=
  Some (Cache.validator_records three_rows (PInt 500)).
Definition cached_stake (limit : Z) (s : list pyval) : option pyval :=
  Cache.get_latest_stake_data
    (Some (map (Cache.stake_record (PInt 500)) two_entries)).



End Samples.

(* ================================================================= *)
(** * Properties *)

(** ** Rationals and sums *)

Lemma Qc_ltb_lt (a b : Qc) : Qc_ltb a b = true <-> a < b.
Proof.
  unfold Qc_ltb. rewrite Qclt_alt.
  destruct (a ?= b); split; congruence.
Qed.

Lemma Qc_ltb_ge (a b : Qc) : Qc_ltb a b = false <-> b <= a.
Proof.
  split; intro H.
  - apply Qcnot_lt_le. intro L. apply Qc_ltb_lt in L. congruence.
  - destruct (Qc_ltb a b) eqn:E; [|reflexivity].
    apply Qc_ltb_lt in E. exfalso. exact (Qcle_not_lt _ _ H E).
Qed.


Lemma Qc_eqb_eq (a b : Qc) : Qc_eqb a b = true <-> a = b.
Proof.
  unfold Qc_eqb. rewrite Qeq_bool_iff. split.
  - apply Qc_is_canon.
  - intros ->. reflexivity.
Qed.

Lemma Qc_eqb_refl (a : Qc) : Qc_eqb a a = true.
Proof. now apply Qc_eqb_eq. Qed.

Lemma Qc_ltb_irrefl (a : Qc) : Qc_ltb a a = false.
Proof. apply Qc_ltb_ge, Qcle_refl. Qed.

Lemma hundred_pos : 0 < hundred.
Proof. reflexivity. Qed.



Lemma Qsum_nonneg (l : list Qc) :
  Forall (fun x => 0 <= x) l -> 0 <= Qsum l.
Proof.
  induction 1 as [|x l Hx _ IH]; simpl.
  - apply Qcle_refl.
  - replace 0 with (0 + 0) by ring. now apply Qcplus_le_compat.
Qed.

Lemma Qsum_perm (l1 l2 : list Qc) :
  Permutation l1 l2 -> Qsum l1 = Qsum l2.
Proof.
  induction 1; simpl; try congruence; ring.
Qed.

Lemma Forall_head {A} (P : A -> Prop) (n : nat) (l : list A) :
  Forall P l -> Forall P (firstn n l).
Proof.
  intros H. revert n.
  induction H as [|x l Hx _ IH]; intros [|n]; simpl; auto.
Qed.

Lemma Qsum_firstn_mono (l : list Qc) :
  Forall (fun x => 0 <= x) l ->
  forall n m, (n <= m)%nat -> Qsum (firstn n l) <= Qsum (firstn m l).
Proof.
  induction 1 as [|x l Hx Hl IH]; intros n m Hnm.
  - rewrite !firstn_nil. apply Qcle_refl.
  - destruct n as [|n]; destruct m as [|m]; simpl; try lia.
    + apply Qcle_refl.
    + replace 0 with (0 + 0) by ring.
      apply Qcplus_le_compat; [exact Hx|].
      apply Qsum_nonneg, Forall_head, Hl.
    + apply Qcplus_le_compat; [apply Qcle_refl|].
      apply IH. lia.
Qed.

Lemma Qsum_firstn_le (l : list Qc) (n : nat) :
  Forall (fun x => 0 <= x) l -> Qsum (firstn n l) <= Qsum l.
Proof.
  intros H.
  rewrite <- (firstn_all l) at 2.
  destruct (Nat.le_ge_cases n (List.length l)) as [L|L].
  - now apply Qsum_firstn_mono.
  - rewrite (firstn_all2 l L), firstn_all. apply Qcle_refl.
Qed.

(** ** The error monad *)

Lemma mapM_Forall2 {A B} (f : A -> result B) (l : list A) (l' : list B) :
  mapM f l = Ok l' -> Forall2 (fun x y => f x = Ok y) l l'.
Proof.
  revert l'. induction l as [|x l IH]; simpl; intros l' H.
  - injection H as <-. constructor.
  - destruct (f x) as [y|e] eqn:Fx; simpl in H; [|discriminate].
    destruct (mapM f l) as [ys|e] eqn:Fl; simpl in H; [|discriminate].
    injection H as <-. constructor; auto.
Qed.


Lemma Forall2_map_r {A B C} (P : A -> B -> Prop) (f : C -> B) l l' :
  Forall2 P l (map f l') -> Forall2 (fun x y => P x (f y)) l l'.
Proof.
  revert l. induction l' as [|y l' IH]; intros l H;
    inversion H; subst; constructor; auto.
Qed.

Lemma map_snd_combine {A B} (l : list A) (l' : list B) :
  List.length l' = List.length l -> map snd (combine l l') = l'.
Proof.
  revert l'. induction l as [|x l IH]; intros [|y l'] H;
    simpl in *; try discriminate; try reflexivity.
  f_equal. apply IH. lia.
Qed.

Lemma mapM_length {A B} (f : A -> result B) (l : list A) (l' : list B) :
  mapM f l = Ok l' -> List.length l' = List.length l.
Proof.
  intros H. apply mapM_Forall2 in H.
  symmetry. eapply Forall2_length; eauto.
Qed.

Lemma mapM_total {A B} (f : A -> result B) (l : list A) :
  Forall (fun x => exists y, f x = Ok y) l -> exists l', mapM f l = Ok l'.
Proof.
  induction 1 as [|x l [y Hy] _ [ys IH]]; simpl.
  - now exists [].
  - exists (y :: ys). now rewrite Hy, IH.
Qed.

(** Inversion of a successful bind. *)
Lemma rbind_Ok {A B} (m : result A) (k : A -> result B) (b : B) :
  rbind m k = Ok b -> exists a, m = Ok a /\ k a = Ok b.
Proof.
  destruct m as [a|e]; simpl; intros H; [eauto|discriminate].
Qed.

Ltac inv_bind H :=
  repeat match type of H with
         | rbind ?m ?k = Ok _ =>
             let a := fresh "x" in
             let Ha := fresh "E" in
             apply rbind_Ok in H; destruct H as (a & Ha & H)
         end.

(** ** Validator aggregation: the shape of a successful run *)

Section ValidatorRuns.
Import DataProcessor.

Lemma process_validator_inv current total v e :
  process_validator current total v = Ok e ->
  activated_stake_sol v = Ok (activatedStake e) /\
  stakePercentage e =
    (if Qc_ltb 0 total then activatedStake e / total * hundred else 0) /\
  exists epoch_credits,
    py_get v "epochCredits" (PList []) = Ok epoch_credits /\
    current_epoch_credits epoch_credits = Ok (credits e).
Proof.
  unfold process_validator. intros H. inv_bind H.
  injection H as <-. simpl. eauto.
Qed.

Lemma add_rows_inv (g : validator_entry -> result Qc) df :
  forall ranks rows,
    List.length ranks = List.length df ->
    mapM (fun er : validator_entry * Z =>
            let? apy := g (fst er) in
            Ok {| entry := fst er; rank := snd er; estimatedAPY := apy |})
         (combine df ranks) = Ok rows ->
    map entry rows = df /\ map rank rows = ranks /\
    Forall (fun r => g (entry r) = Ok (estimatedAPY r)) rows.
Proof.
  induction df as [|d df IH]; intros [|k ranks] rows L H;
    simpl in *; try discriminate.
  - injection H as <-. auto.
  - inv_bind H. injection H as <-. simpl.
    inv_bind E. injection E as <-. simpl.
    destruct (IH ranks x0) as (A & B & C); [lia|assumption|].
    subst. repeat split; auto.
Qed.

Lemma rank_min_desc_length l : List.length (rank_min_desc l) = List.length l.
Proof. unfold rank_min_desc. apply length_map. Qed.

Lemma add_metrics_inv network_info df rows :
  add_metrics network_info df = Ok rows ->
  map entry rows = df /\
  map rank rows = rank_min_desc (map activatedStake df) /\
  (df <> [] ->
   exists rates total inflation_rate,
     py_get network_info "inflation_rate" (PDict []) = Ok rates /\
     py_get rates "total" (PFloat default_inflation_rate) = Ok total /\
     py_num total = Ok inflation_rate /\
     Forall (fun r => estimated_apy inflation_rate (commission (entry r))
                      = Ok (estimatedAPY r)) rows).
Proof.
  unfold add_metrics. destruct df as [|d df].
  - intros H. injection H as <-. simpl. intuition congruence.
  - intros H. inv_bind H.
    apply (add_rows_inv (fun e => estimated_apy x1 (commission e))) in H.
    + destruct H as (A & B & C). repeat split; auto.
      intros _. exists x, x0, x1. auto.
    + now rewrite rank_min_desc_length, length_map.
Qed.

(** A successful [_process_validators] visited the validators [all] of
    the two raw lists, whose converted stakes are [stakes]. *)
Lemma process_validators_inv validators_info network_info rows :
  _process_validators validators_info network_info = Ok rows ->
  exists current delinquent both all stakes,
    py_get validators_info "current" (PList []) = Ok current /\
    py_get validators_info "delinquent" (PList []) = Ok delinquent /\
    py_add current delinquent = Ok both /\
    py_iter both = Ok all /\
    mapM activated_stake_sol all = Ok stakes /\
    Forall2 (fun v r =>
               process_validator current (Qsum stakes) v = Ok (entry r))
            all rows /\
    map stake_of rows = stakes /\
    map rank rows = rank_min_desc stakes.
Proof.
  unfold _process_validators. intros H. inv_bind H.
  apply add_metrics_inv in H. destruct H as (Hentry & Hrank & _).
  assert (Hrows : Forall2 (fun v r =>
              process_validator x (Qsum x3) v = Ok (entry r)) x2 rows).
  { apply mapM_Forall2 in E4. subst x4.
    exact (Forall2_map_r _ entry _ _ E4). }
  assert (Hstakes : map stake_of rows = x3).
  { apply mapM_Forall2 in E3. revert Hrows.
    generalize (Qsum x3) as total. intros total Hrows.
    clear -E3 Hrows. revert x3 E3.
    induction Hrows as [|v r all rows Hv _ IH]; intros stakes E3;
      inversion E3; subst; simpl.
    - reflexivity.
    - f_equal.
      + apply process_validator_inv in Hv. destruct Hv as [Hv _].
        unfold stake_of. congruence.
      + now apply IH. }
  exists x, x0, x1, x2, x3. repeat split; auto.
  rewrite Hrank, <- Hentry, map_map. exact (f_equal _ Hstakes).
Qed.

End ValidatorRuns.

(** ** Stake percentages *)

Section Percentages.
Import DataProcessor.

Lemma Forall2_right {A B} (P : A -> B -> Prop) (Q : B -> Prop) l l' :
  (forall x y, P x y -> Q y) -> Forall2 P l l' -> Forall Q l'.
Proof.
  intros HPQ. induction 1; constructor; eauto.
Qed.

Lemma percentages_of_run validators_info network_info rows :
  _process_validators validators_info network_info = Ok rows ->
  Forall (fun r =>
            percentage_of r =
              (if Qc_ltb 0 (Qsum (map stake_of rows))
               then stake_of r / Qsum (map stake_of rows) * hundred
               else 0)) rows.
Proof.
  intros H. apply process_validators_inv in H.
  destruct H as (cur & del & both & all & stakes & _ & _ & _ & _ & _
                 & Hrows & Hstakes & _).
  rewrite Hstakes.
  eapply Forall2_right; [|exact Hrows].
  intros v r Hv. apply process_validator_inv in Hv.
  unfold percentage_of, stake_of. tauto.
Qed.



End Percentages.

(** ** Ranking *)

Section Ranking.
Context {A : Type} (key : A -> Qc).

Lemma insert_desc_perm (x : A) (l : list A) :
  Permutation (insert_desc key x l) (x :: l).
Proof.
  induction l as [|y l IH]; simpl.
  - reflexivity.
  - destruct (Qc_ltb (key y) (key x)).
    + reflexivity.
    + rewrite IH. apply perm_swap.
Qed.

Lemma sort_desc_perm (l : list A) : Permutation (sort_desc key l) l.
Proof.
  induction l as [|x l IH]; simpl.
  - reflexivity.
  - rewrite insert_desc_perm. now constructor.
Qed.

Lemma insert_desc_sorted (x : A) (l : list A) :
  descending key l -> descending key (insert_desc key x l).
Proof.
  unfold descending.
  induction 1 as [|y l Hl IH Hy]; simpl.
  - repeat constructor.
  - destruct (Qc_ltb (key y) (key x)) eqn:E.
    + apply Qc_ltb_lt in E. constructor.
      * now constructor.
      * constructor; [now apply Qclt_le_weak|].
        eapply Forall_impl; [|exact Hy].
        intros a Ha. simpl in Ha.
        eapply Qcle_trans; [exact Ha|now apply Qclt_le_weak].
    + apply Qc_ltb_ge in E. constructor; [assumption|].
      eapply Permutation_Forall.
      * symmetry. apply insert_desc_perm.
      * now constructor.
Qed.

Lemma sort_desc_sorted (l : list A) : descending key (sort_desc key l).
Proof.
  induction l as [|x l IH]; simpl.
  - constructor.
  - now apply insert_desc_sorted.
Qed.

End Ranking.

Lemma count_greater_cons (x y : Qc) (l : list Qc) :
  count_greater x (y :: l) =
  if Qc_ltb x y then S (count_greater x l) else count_greater x l.
Proof.
  unfold count_greater. simpl. now destruct (Qc_ltb x y).
Qed.

Lemma count_greater_perm (x : Qc) (l l' : list Qc) :
  Permutation l l' -> count_greater x l = count_greater x l'.
Proof.
  unfold count_greater.
  induction 1; simpl; repeat destruct (Qc_ltb x _); simpl; congruence.
Qed.

Lemma count_greater_none (x : Qc) (l : list Qc) :
  Forall (fun y => y <= x) l -> count_greater x l = 0%nat.
Proof.
  unfold count_greater. induction 1 as [|y l Hy _ IH]; simpl.
  - reflexivity.
  - apply Qc_ltb_ge in Hy. now rewrite Hy.
Qed.

(** In a descending list the first position of a member is one more than
    the number of larger values. *)
Lemma first_position_sorted (x : Qc) (s : list Qc) :
  descending (fun v => v) s -> In x s ->
  first_position x s = (1 + Z.of_nat (count_greater x s))%Z.
Proof.
  unfold descending.
  induction 1 as [|y s Hs IH Hy]; intros Hin; [destruct Hin|].
  cbn [first_position]. destruct (Qc_eqb x y) eqn:E.
  - apply Qc_eqb_eq in E. subst y.
    rewrite (count_greater_none x (x :: s)); [reflexivity|].
    constructor; [apply Qcle_refl|exact Hy].
  - destruct Hin as [->|Hin]; [now rewrite Qc_eqb_refl in E|].
    rewrite (IH Hin).
    assert (L : x < y).
    { rewrite Forall_forall in Hy. specialize (Hy x Hin). simpl in Hy.
      destruct (Qcle_lt_or_eq _ _ Hy) as [L|L]; [exact L|].
      subst y. now rewrite Qc_eqb_refl in E. }
    apply Qc_ltb_lt in L. rewrite count_greater_cons, L. lia.
Qed.

(** The pandas rank is the competition rank: one more than the number of
    strictly larger values. *)
Lemma rank_min_desc_spec (values : list Qc) :
  rank_min_desc values =
  map (fun x => (1 + Z.of_nat (count_greater x values))%Z) values.
Proof.
  unfold rank_min_desc. apply map_ext_in. intros x Hx.
  rewrite first_position_sorted.
  - f_equal. f_equal. apply count_greater_perm, sort_desc_perm.
  - apply sort_desc_sorted.
  - eapply Permutation_in; [symmetry; apply sort_desc_perm|exact Hx].
Qed.

Lemma count_greater_mono (x y : Qc) (l : list Qc) :
  y <= x -> (count_greater x l <= count_greater y l)%nat.
Proof.
  intros Hxy. unfold count_greater. induction l as [|z l IH]; simpl.
  - lia.
  - destruct (Qc_ltb x z) eqn:E; simpl.
    + apply Qc_ltb_lt in E.
      assert (L : y < z) by (eapply Qcle_lt_trans; eauto).
      apply Qc_ltb_lt in L. rewrite L. simpl. lia.
    + destruct (Qc_ltb y z); simpl; lia.
Qed.

Lemma count_greater_strict (x y : Qc) (l : list Qc) :
  y < x -> In x l -> (count_greater x l < count_greater y l)%nat.
Proof.
  intros Hxy. induction l as [|z l IH]; intros Hin; [destruct Hin|].
  assert (M := count_greater_mono x y l (Qclt_le_weak _ _ Hxy)).
  unfold count_greater in *. simpl.
  destruct Hin as [->|Hin].
  - rewrite Qc_ltb_irrefl. apply Qc_ltb_lt in Hxy. rewrite Hxy. simpl. lia.
  - specialize (IH Hin).
    destruct (Qc_ltb x z) eqn:E; simpl.
    + apply Qc_ltb_lt in E.
      assert (L : y < z) by (eapply Qclt_trans; eauto).
      apply Qc_ltb_lt in L. rewrite L. simpl. lia.
    + destruct (Qc_ltb y z); simpl; lia.
Qed.

Section ValidatorRank.
Import DataProcessor.

Lemma rank_of_run validators_info network_info rows :
  _process_validators validators_info network_info = Ok rows ->
  forall r, In r rows ->
    rank r =
    (1 + Z.of_nat (count_greater (stake_of r) (map stake_of rows)))%Z.
Proof.
  intros H r Hr. apply process_validators_inv in H.
  destruct H as (cur & del & both & all & stakes & _ & _ & _ & _ & _
                 & _ & Hstakes & Hrank).
  rewrite rank_min_desc_spec, <- Hstakes, map_map in Hrank.
  exact (ext_in_map Hrank r Hr).
Qed.

(** C1, as the code has it.  The rank is the competition rank by
    descending stake: one more than the number of validators with a
    strictly larger stake.  So the largest stake has rank 1, validators
    with equal stake share the lowest rank of their group, and a larger
    stake has a smaller rank; the rank numbers that a group of tied
    validators would occupy after its first are skipped. *)
Theorem rank_is_competition_rank validators_info network_info rows :
  _process_validators validators_info network_info = Ok rows ->
  (forall r, In r rows ->
     rank r =
     (1 + Z.of_nat (count_greater (stake_of r) (map stake_of rows)))%Z) /\
  (forall r, In r rows ->
     (forall r', In r' rows -> stake_of r' <= stake_of r) ->
     rank r = 1%Z) /\
  (forall r r', In r rows -> In r' rows ->
     stake_of r = stake_of r' -> rank r = rank r') /\
  (forall r r', In r rows -> In r' rows ->
     stake_of r' < stake_of r -> (rank r < rank r')%Z).
Proof.
  intros H. pose proof (rank_of_run _ _ _ H) as R.
  repeat split.
  - exact R.
  - intros r Hr Hmax. rewrite (R r Hr), count_greater_none; [reflexivity|].
    apply Forall_forall. intros s Hs.
    apply in_map_iff in Hs. destruct Hs as (r' & <- & Hr'). now apply Hmax.
  - intros r r' Hr Hr' E. rewrite (R r Hr), (R r' Hr'). now rewrite E.
  - intros r r' Hr Hr' L. rewrite (R r Hr), (R r' Hr').
    assert (S := count_greater_strict (stake_of r) (stake_of r')
                   (map stake_of rows) L (in_map stake_of rows r Hr)).
    lia.
Qed.

Lemma rank_is_competition_rank_witness :
  (forall r, In r Samples.three_rows ->
     rank r =
     (1 + Z.of_nat (count_greater (stake_of r)
                      (map stake_of Samples.three_rows)))%Z) /\
  (forall r, In r Samples.three_rows ->
     (forall r', In r' Samples.three_rows -> stake_of r' <= stake_of r) ->
     rank r = 1%Z) /\
  (forall r r', In r Samples.three_rows -> In r' Samples.three_rows ->
     stake_of r = stake_of r' -> rank r = rank r') /\
  (forall r r', In r Samples.three_rows -> In r' Samples.three_rows ->
     stake_of r' < stake_of r -> (rank r < rank r')%Z).
Proof.
  apply (rank_is_competition_rank Samples.three_validators
                                  Samples.no_network_info).
  vm_compute. reflexivity.
Defined.

(** C1, as the specification words it, fails: with stakes 100, 50, 50
    and 20 the ranks are 1, 2, 2 and 4, and rank 3 is skipped. *)
Lemma rank_skips_after_tie :
  _process_validators Samples.four_validators Samples.no_network_info
    = Ok Samples.four_rows /\
  map rank Samples.four_rows = [1; 2; 2; 4]%Z /\
  ~ dense_descending_rank Samples.four_rows.
Proof.
  split; [vm_compute; reflexivity|].
  split; [vm_compute; reflexivity|].
  intros (_ & _ & D).
  assert (E : map rank Samples.four_rows = [1; 2; 2; 4]%Z)
    by (vm_compute; reflexivity).
  rewrite E in D.
  specialize (D 4%Z (or_intror (or_intror (or_intror (or_introl eq_refl))))
                3%Z ltac:(lia)).
  simpl in D. intuition discriminate.
Qed.

(** The frame of cached validators is ranked by the same call. *)
Lemma cached_frame_rank (validators : list Database.ValidatorInfo) :
  map snd (Database.frame validators) =
  map (fun v => (1 + Z.of_nat
                   (count_greater (Database.activated_stake v)
                      (map Database.activated_stake validators)))%Z)
      validators.
Proof.
  unfold Database.frame.
  rewrite map_snd_combine, rank_min_desc_spec, map_map.
  - reflexivity.
  - now rewrite rank_min_desc_length, length_map.
Qed.

End ValidatorRank.

(** ** Stake concentration *)

Lemma Qcinv_pos (t : Qc) : 0 < t -> 0 < / t.
Proof.
  unfold Qclt, Qcinv, Q2Qc. simpl. intros H.
  rewrite Qred_correct. now apply Qinv_lt_0_compat.
Qed.

Lemma share_mono (a b total : Qc) :
  0 < total -> a <= b -> a / total * hundred <= b / total * hundred.
Proof.
  intros Ht Hab. unfold Qcdiv.
  apply Qcmult_le_compat_r; [|apply Qclt_le_weak, hundred_pos].
  apply Qcmult_le_compat_r; [exact Hab|].
  apply Qclt_le_weak, Qcinv_pos, Ht.
Qed.

Lemma share_whole (total : Qc) : 0 < total -> total / total * hundred = hundred.
Proof.
  intros Ht. field. intros E. rewrite E in Ht. discriminate Ht.
Qed.

Section Concentration.
Import DataProcessor.

(** What [_process_network_info] stores under ['concentration']. *)
Lemma concentration_of_run network_info rows s :
  _process_network_info network_info rows = Ok s ->
  let total := Qsum (map stake_of rows) in
  let share n :=
    match rows with
    | [] => 0
    | _ => stake_top n (sort_desc stake_of rows) total
    end in
  concentration_top10 s = share 10%nat /\
  concentration_top20 s = share 20%nat /\
  concentration_top50 s = share 50%nat /\
  supply_staked s = total.
Proof.
  unfold _process_network_info. intros H. inv_bind H.
  injection H as <-. simpl. destruct rows; auto.
Qed.

Lemma stake_top_mono (n m : nat) (sorted : list validator_row) total :
  Forall (fun r => 0 <= stake_of r) sorted ->
  (n <= m)%nat ->
  stake_top n sorted total <= stake_top m sorted total.
Proof.
  intros Hpos Hnm. unfold stake_top, head.
  destruct (Qc_ltb 0 total) eqn:E; [|apply Qcle_refl].
  apply Qc_ltb_lt in E. apply share_mono; [exact E|].
  rewrite <- !firstn_map. apply Qsum_firstn_mono; [|exact Hnm].
  now apply Forall_map.
Qed.

Lemma stake_top_le_100 (n : nat) (sorted : list validator_row) :
  Forall (fun r => 0 <= stake_of r) sorted ->
  stake_top n sorted (Qsum (map stake_of sorted)) <= hundred.
Proof.
  intros Hpos. unfold stake_top, head.
  destruct (Qc_ltb 0 _) eqn:E; [|apply Qclt_le_weak, hundred_pos].
  apply Qc_ltb_lt in E. rewrite <- (share_whole _ E) at 2.
  apply share_mono; [exact E|].
  rewrite <- firstn_map. apply Qsum_firstn_le. now apply Forall_map.
Qed.

(** C3.  For validators with non-negative stake the concentration
    percentages satisfy top10 <= top20 <= top50 <= 100 (for the empty set
    they are all 0). *)
Theorem concentration_monotone network_info rows s :
  _process_network_info network_info rows = Ok s ->
  Forall (fun r => 0 <= stake_of r) rows ->
  concentration_top10 s <= concentration_top20 s /\
  concentration_top20 s <= concentration_top50 s /\
  concentration_top50 s <= hundred.
Proof.
  intros H Hpos. apply concentration_of_run in H.
  destruct H as (-> & -> & -> & _).
  destruct rows as [|r0 rows'] eqn:Erows.
  - repeat split; try apply Qcle_refl. apply Qclt_le_weak, hundred_pos.
  - rewrite <- Erows in *. clear Erows r0 rows'.
    assert (P := sort_desc_perm stake_of rows).
    assert (Hsorted : Forall (fun r => 0 <= stake_of r)
                             (sort_desc stake_of rows)).
    { eapply Permutation_Forall; [symmetry; exact P|exact Hpos]. }
    repeat split.
    + apply stake_top_mono; [exact Hsorted|lia].
    + apply stake_top_mono; [exact Hsorted|lia].
    + rewrite <- (Qsum_perm _ _ (Permutation_map stake_of P)).
      now apply stake_top_le_100.
Qed.

End Concentration.

Lemma concentration_monotone_witness :
  exists s,
    DataProcessor._process_network_info Samples.no_network_info
      Samples.three_rows = Ok s /\
    DataProcessor.concentration_top10 s <= DataProcessor.concentration_top20 s
    /\ DataProcessor.concentration_top20 s
       <= DataProcessor.concentration_top50 s
    /\ DataProcessor.concentration_top50 s <= hundred.
Proof.
  eexists. split; [vm_compute; reflexivity|].
  apply (concentration_monotone Samples.no_network_info Samples.three_rows).
  - vm_compute. reflexivity.
  - repeat (constructor; [vm_compute; discriminate|]). constructor.
Defined.

(** C3, as the specification words it, fails for a stake that is
    negative: of ten validators with 10 tokens and one with -5, the ten
    largest hold 100 of the 95 tokens, so that top10 is 2000/19, above
    top20 = top50 = 100 and above 100. *)
Lemma negative_stake_breaks_concentration :
  exists rows s,
    DataProcessor._process_validators Samples.validators_with_debt
      Samples.no_network_info = Ok rows /\
    DataProcessor._process_network_info Samples.no_network_info rows
      = Ok s /\
    this (DataProcessor.concentration_top10 s) = (2000 # 19)%Q /\
    this (DataProcessor.concentration_top20 s) = (100 # 1)%Q /\
    DataProcessor.concentration_top20 s
      < DataProcessor.concentration_top10 s /\
    hundred < DataProcessor.concentration_top10 s.
Proof.
  eexists. eexists.
  split; [vm_compute; reflexivity|].
  split; [vm_compute; reflexivity|].
  repeat split; vm_compute; reflexivity.
Qed.

(** In binary64 the bound of 100 is missed by rounding on ordinary
    stakes: the sum of the three largest stakes, added in descending
    order, is divided by the sum of the same stakes added in index
    order.  For the first sample the figure is above 100, for stakes of
    0.1, 0.2 and 0.3 tokens it is below 100. *)
Lemma concentration_overshoots_in_binary64 :
  PrimFloat.ltb (Binary64.of_int 100)
    (Binary64.stake_top 50
       (map Binary64.activated_stake_sol Samples.rounding_lamports))
  = true /\
  PrimFloat.ltb
    (Binary64.stake_top 10
       (map Binary64.activated_stake_sol Samples.tenths_lamports))
    (Binary64.of_int 100)
  = true.
Proof. split; vm_compute; reflexivity. Qed.

(** ** Credits *)

Lemma seq_index_last {A} (l : list A) (x : A) :
  seq_index (l ++ [x]) (-1) = Ok x.
Proof.
  unfold seq_index. rewrite length_app. simpl List.length.
  replace (-1 <? 0)%Z with true by reflexivity.
  set (n := Z.of_nat (List.length l + 1)).
  assert (Hn : (n = Z.of_nat (List.length l) + 1)%Z) by (unfold n; lia).
  clearbody n.
  replace (-1 + n <? 0)%Z with false by (symmetry; apply Z.ltb_ge; lia).
  replace (n <=? -1 + n)%Z with false by (symmetry; apply Z.leb_gt; lia).
  cbn [orb]. replace (Z.to_nat (-1 + n)) with (List.length l) by lia.
  rewrite nth_error_app2, Nat.sub_diag by lia. reflexivity.
Qed.

Lemma seq_index_nat {A} (l : list A) (i : nat) (x : A) :
  nth_error l i = Some x -> seq_index l (Z.of_nat i) = Ok x.
Proof.
  intros H. unfold seq_index.
  assert (L : (i < List.length l)%nat).
  { apply nth_error_Some. congruence. }
  cbv zeta.
  rewrite (proj2 (Z.ltb_ge (Z.of_nat i) 0)) by lia.
  rewrite (proj2 (Z.leb_gt (Z.of_nat (List.length l)) (Z.of_nat i))) by lia.
  rewrite (proj2 (Z.ltb_ge (Z.of_nat i) 0)) by lia.
  cbn [orb]. now rewrite Nat2Z.id, H.
Qed.

Lemma current_epoch_credits_last entries (a b : Z) rest :
  DataProcessor.current_epoch_credits
    (PList (entries ++ [PList (PInt a :: PInt b :: rest)]))
  = Ok (PInt (b - a)).
Proof.
  unfold DataProcessor.current_epoch_credits.
  assert (T : py_truthy
                (PList (entries ++ [PList (PInt a :: PInt b :: rest)]))
              = true) by (destruct entries; reflexivity).
  rewrite T. unfold py_index at 1 3. rewrite seq_index_last.
  cbn [rbind py_index].
  assert (I1 : seq_index (PInt a :: PInt b :: rest) 1 = Ok (PInt b))
    by exact (seq_index_nat (PInt a :: PInt b :: rest) 1 (PInt b) eq_refl).
  assert (I0 : seq_index (PInt a :: PInt b :: rest) 0 = Ok (PInt a))
    by exact (seq_index_nat (PInt a :: PInt b :: rest) 0 (PInt a) eq_refl).
  rewrite I1. cbn [rbind py_index]. rewrite I0. reflexivity.
Qed.

Section Credits.
Import DataProcessor.

(** C5.  For every validator the credits field is the second counter
    minus the first counter of the last epoch-credit entry, and 0 when
    the validator has no epoch-credit entries. *)
Theorem credits_from_last_entry validators_info network_info rows
    current delinquent :
  _process_validators validators_info network_info = Ok rows ->
  py_get validators_info "current" (PList []) = Ok (PList current) ->
  py_get validators_info "delinquent" (PList []) = Ok (PList delinquent) ->
  Forall2
    (fun v r =>
       (forall entries a b rest,
          py_get v "epochCredits" (PList [])
            = Ok (PList (entries ++ [PList (PInt a :: PInt b :: rest)])) ->
          credits (entry r) = PInt (b - a)) /\
       (py_get v "epochCredits" (PList []) = Ok (PList []) ->
        credits (entry r) = PInt 0))
    (current ++ delinquent) rows.
Proof.
  intros H Hc Hd. apply process_validators_inv in H.
  destruct H as (cur & del & both & all & stakes & Hc' & Hd' & Hadd & Hiter
                 & _ & Hrows & _).
  rewrite Hc in Hc'. rewrite Hd in Hd'.
  injection Hc' as <-. injection Hd' as <-.
  simpl in Hadd. injection Hadd as <-.
  simpl in Hiter. injection Hiter as <-.
  eapply Forall2_impl; [|exact Hrows].
  intros v r Hv. apply process_validator_inv in Hv.
  destruct Hv as (_ & _ & ec & Hget & Hcred).
  split.
  - intros entries a b rest E. rewrite E in Hget. injection Hget as <-.
    rewrite current_epoch_credits_last in Hcred. congruence.
  - intros E. rewrite E in Hget. injection Hget as <-.
    unfold current_epoch_credits in Hcred. cbn [py_truthy] in Hcred.
    congruence.
Qed.

End Credits.

Lemma credits_from_last_entry_witness :
  Forall2
    (fun v r =>
       (forall entries a b rest,
          py_get v "epochCredits" (PList [])
            = Ok (PList (entries ++ [PList (PInt a :: PInt b :: rest)])) ->
          DataProcessor.credits (DataProcessor.entry r) = PInt (b - a)) /\
       (py_get v "epochCredits" (PList []) = Ok (PList []) ->
        DataProcessor.credits (DataProcessor.entry r) = PInt 0))
    ([PDict [("votePubkey", PStr "v1");
             ("epochCredits",
              PList [PList [PInt 500; PInt 1200; PInt 1000];
                     PList [PInt 501; PInt 2000; PInt 1200]])]]
     ++ [PDict [("votePubkey", PStr "v2")]])
    Samples.credit_rows.
Proof.
  apply (credits_from_last_entry Samples.credit_validators
                                 Samples.no_network_info).
  - vm_compute. reflexivity.
  - reflexivity.
  - reflexivity.
Defined.

(** The sample run: credits 2000 - 501 and 0. *)
Example credits_of_sample :
  map (fun r => DataProcessor.credits (DataProcessor.entry r))
      Samples.credit_rows = [PInt 1499; PInt 0].
Proof. reflexivity. Qed.

(** ** Stake distribution *)

Section Distribution.
Import DataProcessor.










End Distribution.

(** ** Time to the end of the epoch *)

Lemma Z2Qc_mult (a b : Z) : Z2Qc (a * b) = Z2Qc a * Z2Qc b.
Proof.
  unfold Z2Qc, Qcmult. apply Q2Qc_eq_iff. cbn [this Q2Qc].
  rewrite !Qred_correct, inject_Z_mult. reflexivity.
Qed.


(** The aggregator counts 0.4 seconds for a slot. *)
Lemma aggregator_hours_remaining (slots_in_epoch slot_index : Z) :
  DataProcessor.hours_remaining (PInt slots_in_epoch) (PInt slot_index)
  = Ok (Z2Qc (slots_in_epoch - slot_index)
        * DataProcessor.seconds_per_slot / DataProcessor.seconds_per_hour).
Proof. reflexivity. Qed.

(** The fetch counts 2 seconds for a slot. *)
Lemma fetch_hours_remaining (slots_in_epoch slot_index : Z) :
  SolanaClient.hours_remaining (PInt slots_in_epoch) (PInt slot_index)
  = Ok (Z2Qc (slots_in_epoch - slot_index) * Z2Qc 2
        / DataProcessor.seconds_per_hour).
Proof.
  unfold SolanaClient.hours_remaining. cbn [py_sub as_int rbind py_mul].
  unfold py_truediv. cbn [py_num rbind].
  replace (Qc_eqb (Z2Qc 3600) 0) with false by reflexivity.
  now rewrite Z2Qc_mult.
Qed.

(** The two estimates differ by a factor of five. *)
Lemma hours_remaining_ratio (slots_in_epoch slot_index : Z) :
  Z2Qc (slots_in_epoch - slot_index) * Z2Qc 2
  / DataProcessor.seconds_per_hour
  = Z2Qc 5 * (Z2Qc (slots_in_epoch - slot_index)
              * DataProcessor.seconds_per_slot
              / DataProcessor.seconds_per_hour).
Proof.
  assert (E : Z2Qc 2 = Z2Qc 5 * DataProcessor.seconds_per_slot)
    by (apply Qc_is_canon; reflexivity).
  rewrite E. unfold Qcdiv. ring.
Qed.

(** C8 fails on the code.  At the start of an epoch of 432000 slots the
    aggregator reports 48 hours and the fetch reports 240 hours. *)
Theorem hours_remaining_disagree :
  exists aggregated fetched,
    DataProcessor.hours_remaining (PInt 432000) (PInt 0) = Ok aggregated /\
    SolanaClient.hours_remaining (PInt 432000) (PInt 0) = Ok fetched /\
    aggregated = Z2Qc 48 /\
    fetched = Z2Qc 240 /\
    aggregated <> fetched.
Proof.
  eexists. eexists.
  split; [apply aggregator_hours_remaining|].
  split; [apply fetch_hours_remaining|].
  split; [apply Qc_is_canon; reflexivity|].
  split; [apply Qc_is_canon; reflexivity|].
  intros E. apply (f_equal this) in E. vm_compute in E. discriminate E.
Qed.

(** ** The client: how a call changes the world *)

Section ClientFacts.
Import SolanaClient.
Context {Remote Store : Type}.
Variable post : string -> pyval -> Remote -> result response * Remote.
Variable latest_epoch_rows : Store -> option (list Database.ValidatorInfo).
Variable get_latest_network_info : Store -> option pyval.
Variable get_latest_stake_data : Z -> Store -> option pyval.
Variable store_network_info : pyval -> Store -> result unit * Store.
Variable store_stake_accounts :
  DataProcessor.stake_info -> pyval -> Store -> result unit * Store.

Local Abbreviation world := (@world Remote Store).
Local Abbreviation rpc := (_make_rpc_request post).
Local Abbreviation write_back :=
  (write_back post store_stake_accounts).
Local Abbreviation scan_stake_accounts :=
  (scan_stake_accounts post store_stake_accounts).
Local Abbreviation get_stake_accounts :=
  (get_stake_accounts post get_latest_stake_data store_stake_accounts).
Local Abbreviation get_validators :=
  (get_validators post latest_epoch_rows).
Local Abbreviation fetch_network_info :=
  (fetch_network_info post latest_epoch_rows store_network_info).
Local Abbreviation get_network_info :=
  (get_network_info post latest_epoch_rows get_latest_network_info
                    store_network_info).

Lemma bind_inv {A B} (m : @M Remote Store A) (k : A -> @M Remote Store B)
    (w w' : world) (r : result B) :
  bind m k w = (r, w') ->
  (exists a w1, m w = (Ok a, w1) /\ k a w1 = (r, w')) \/
  (exists e, m w = (Err e, w') /\ r = Err e).
Proof.
  unfold bind. destruct (m w) as [[a|e] w1]; intros H.
  - left. eauto.
  - right. injection H as <- <-. eauto.
Qed.

Lemma bind_Ok {A B} (m : @M Remote Store A) (k : A -> @M Remote Store B)
    (w w' : world) (b : B) :
  bind m k w = (Ok b, w') ->
  exists a w1, m w = (Ok a, w1) /\ k a w1 = (Ok b, w').
Proof.
  intros H. apply bind_inv in H.
  destruct H as [H|(e & _ & H)]; [exact H|discriminate H].
Qed.

(** A remote call leaves the store and the printed lines alone. *)
Lemma rpc_keeps_store method params (w w' : world) r :
  rpc method params w = (r, w') ->
  store w' = store w /\ stdout w' = stdout w.
Proof.
  unfold _make_rpc_request, bind, on_remote, raise, lift.
  destruct (post method (params_or_empty params) (remote w))
    as [[resp|e] rem]; cbn.
  - destruct (negb (status_code resp =? 200)%Z).
    + intros H. injection H as _ <-. auto.
    + destruct (json resp) as [body|e]; cbn.
      * destruct (py_contains "error" body) as [[|]|e]; cbn.
        -- destruct (py_getitem body "error"); cbn;
             intros H; injection H as _ <-; auto.
        -- intros H; injection H as _ <-; auto.
        -- intros H; injection H as _ <-; auto.
      * intros H; injection H as _ <-; auto.
  - intros H. injection H as _ <-. auto.
Qed.

(** A structured error of the remote is raised as [RpcError]. *)
Lemma rpc_error_raised method params (w : world) resp rem d err :
  post method (params_or_empty params) (remote w) = (Ok resp, rem) ->
  status_code resp = 200%Z ->
  json resp = Ok (PDict d) ->
  assoc "error" d = Some err ->
  rpc method params w
  = (Err (RpcError err),
     {| remote := rem; store := store w; stdout := stdout w |}).
Proof.
  intros Hpost Hstatus Hjson Herr.
  unfold _make_rpc_request, bind, on_remote, raise, lift.
  rewrite Hpost, Hstatus. cbn. rewrite Hjson. cbn.
  rewrite Herr. reflexivity.
Qed.

(** The aggregator cannot be built without validators. *)
Lemma init_without_validators network_info stake_accounts :
  DataProcessor.__init__ PNone network_info stake_accounts
  = Err AttributeError.
Proof. reflexivity. Qed.

(** The write-back always raises, before it reaches the store. *)
Lemma write_back_raises result (w : world) :
  exists e w1,
    write_back result w = (Err e, w1) /\
    store w1 = store w /\ stdout w1 = stdout w.
Proof.
  unfold SolanaClient.write_back, get_epoch_info, bind.
  destruct (rpc "getEpochInfo" PNone w) as [[epoch_info|e] w1] eqn:R;
    apply rpc_keeps_store in R.
  - unfold lift at 1.
    destruct (py_get epoch_info "epoch" (PInt 0)) as [current_epoch|e].
    + unfold lift. rewrite init_without_validators. eauto.
    + eauto.
  - eauto.
Qed.

(** The RPC branch of the stake-account fetch when the scan answers. *)
Lemma scan_answered limit (w w1 : world) result :
  rpc "getProgramAccounts" (scan_params limit) w = (Ok result, w1) ->
  exists w2,
    scan_stake_accounts limit w = (Ok result, w2) /\
    store w2 = store w /\
    (if py_truthy result
     then exists e, stdout w2 = stdout w ++ [WarnStoreStakeAccounts e]
     else stdout w2 = stdout w).
Proof.
  intros Hrpc. pose proof (rpc_keeps_store _ _ _ _ _ Hrpc) as [Hs Ho].
  unfold SolanaClient.scan_stake_accounts, bind. rewrite Hrpc.
  destruct (py_truthy result).
  - unfold catch.
    destruct (write_back_raises result w1) as (e & w1' & Hwb & Hs' & Ho').
    rewrite Hwb. unfold print, ret. cbn.
    eexists. split; [reflexivity|]. cbn.
    split; [congruence|]. exists e. congruence.
  - unfold ret. cbn. eexists. split; [reflexivity|]. auto.
Qed.

Lemma cache_miss {A} (use_cache : bool) (f : Store -> option A) (w : world) :
  (if use_cache then f (store w) else None) = None ->
  (if use_cache then read_store f else ret None) w = (Ok None, w).
Proof.
  destruct use_cache; unfold read_store, ret; intros H; congruence.
Qed.

(** C9.  Building the aggregator with [None] for the validators raises
    (attribute access on [None]) whatever the other inputs are.  So when
    the scan of the RPC stake-account fetch answers, the write-back block
    ends in its exception handler whenever it is entered (a non-empty
    answer), nothing reaches the store, and the fetch returns the
    answer of the scan. *)
Theorem stake_write_back_never_persists :
  (forall network_info stake_accounts,
     DataProcessor.__init__ PNone network_info stake_accounts
     = Err AttributeError) /\
  (forall (use_cache : bool) limit (w w1 : world) result,
     (if use_cache then get_latest_stake_data limit (store w) else None)
       = None ->
     rpc "getProgramAccounts" (scan_params limit) w = (Ok result, w1) ->
     exists w2,
       get_stake_accounts use_cache limit w = (Ok result, w2) /\
       store w2 = store w /\
       (if py_truthy result
        then exists e, stdout w2 = stdout w ++ [WarnStoreStakeAccounts e]
        else stdout w2 = stdout w)).
Proof.
  split; [exact init_without_validators|].
  intros use_cache limit w w1 result Hmiss Hrpc.
  destruct (scan_answered limit w w1 result Hrpc) as (w2 & Hscan & Hrest).
  exists w2. split; [|exact Hrest].
  unfold SolanaClient.get_stake_accounts, bind.
  rewrite (cache_miss use_cache (get_latest_stake_data limit) w Hmiss).
  unfold catch. now rewrite Hscan.
Qed.

(** An error of the scan itself is the only way the RPC branch raises. *)
Lemma scan_raises limit (w w1 : world) e :
  scan_stake_accounts limit w = (Err e, w1) ->
  rpc "getProgramAccounts" (scan_params limit) w = (Err e, w1).
Proof.
  destruct (rpc "getProgramAccounts" (scan_params limit) w)
    as [[result|e'] w'] eqn:Hrpc.
  - destruct (scan_answered limit w w' result Hrpc) as (w2 & Hscan & _).
    rewrite Hscan. discriminate.
  - unfold SolanaClient.scan_stake_accounts, bind. rewrite Hrpc. auto.
Qed.

(** C7.  Whatever error the RPC stake-account scan raises, the
    stake-account fetch prints a warning and returns the empty list; a
    structured error of the remote is one such error, and on the RPC
    branch the fetch never raises.  The validator fetch and the
    network-info fetch do not catch: an error of their remote calls
    propagates (the network-info fetch wraps it). *)
Theorem stake_scan_failure_is_contained :
  (forall (use_cache : bool) limit (w w1 : world) e,
     (if use_cache then get_latest_stake_data limit (store w) else None)
       = None ->
     rpc "getProgramAccounts" (scan_params limit) w = (Err e, w1) ->
     get_stake_accounts use_cache limit w
     = (Ok (PList []), printed w1 (WarnGetStakeAccounts e))) /\
  (forall (use_cache : bool) limit (w : world) resp rem d err,
     (if use_cache then get_latest_stake_data limit (store w) else None)
       = None ->
     post "getProgramAccounts" (scan_params limit) (remote w)
       = (Ok resp, rem) ->
     status_code resp = 200%Z ->
     json resp = Ok (PDict d) ->
     assoc "error" d = Some err ->
     get_stake_accounts use_cache limit w
     = (Ok (PList []),
        {| remote := rem; store := store w;
           stdout := stdout w ++ [WarnGetStakeAccounts (RpcError err)] |}))
  /\
  (forall (use_cache : bool) limit (w : world),
     (if use_cache then get_latest_stake_data limit (store w) else None)
       = None ->
     exists v w', get_stake_accounts use_cache limit w = (Ok v, w')) /\
  (forall (use_cache : bool) (w w1 : world) e,
     (if use_cache
      then Database.get_latest_validators_data (latest_epoch_rows (store w))
      else None) = None ->
     rpc "getVoteAccounts" PNone w = (Err e, w1) ->
     get_validators use_cache w = (Err e, w1)) /\
  (forall (use_cache : bool) (w w1 : world) e,
     (if use_cache then get_latest_network_info (store w) else None)
       = None ->
     fetch_network_info use_cache w = (Err e, w1) ->
     get_network_info use_cache w = (Err (NetworkInfoFailure e), w1)) /\
  (forall (use_cache : bool) (w w1 : world) e,
     (if use_cache then get_latest_network_info (store w) else None)
       = None ->
     rpc "getEpochInfo" PNone w = (Err e, w1) ->
     get_network_info use_cache w = (Err (NetworkInfoFailure e), w1)).
Proof.
  assert (Hcaught : forall (use_cache : bool) limit (w w1 : world) e,
     (if use_cache then get_latest_stake_data limit (store w) else None)
       = None ->
     scan_stake_accounts limit w = (Err e, w1) ->
     get_stake_accounts use_cache limit w
     = (Ok (PList []), printed w1 (WarnGetStakeAccounts e))).
  { intros use_cache limit w w1 e Hmiss Hscan.
    unfold SolanaClient.get_stake_accounts, bind.
    rewrite (cache_miss use_cache (get_latest_stake_data limit) w Hmiss).
    unfold catch. rewrite Hscan. reflexivity. }
  assert (Hwrapped : forall (use_cache : bool) (w w1 : world) e,
     (if use_cache then get_latest_network_info (store w) else None)
       = None ->
     fetch_network_info use_cache w = (Err e, w1) ->
     get_network_info use_cache w = (Err (NetworkInfoFailure e), w1)).
  { intros use_cache w w1 e Hmiss Hfetch.
    unfold SolanaClient.get_network_info, bind.
    rewrite (cache_miss use_cache get_latest_network_info w Hmiss).
    unfold catch. rewrite Hfetch. reflexivity. }
  repeat split.
  - intros use_cache limit w w1 e Hmiss Hrpc.
    apply Hcaught; [exact Hmiss|].
    unfold SolanaClient.scan_stake_accounts, bind. now rewrite Hrpc.
  - intros use_cache limit w resp rem d err Hmiss Hpost Hstatus Hjson Herr.
    rewrite (Hcaught use_cache limit w
               {| remote := rem; store := store w; stdout := stdout w |}
               (RpcError err) Hmiss); [reflexivity|].
    unfold SolanaClient.scan_stake_accounts, bind.
    rewrite (rpc_error_raised "getProgramAccounts" (scan_params limit)
               w resp rem d err Hpost Hstatus Hjson Herr).
    reflexivity.
  - intros use_cache limit w Hmiss.
    destruct (scan_stake_accounts limit w) as [[v|e] w1] eqn:Hscan.
    + exists v, w1.
      unfold SolanaClient.get_stake_accounts, bind.
      rewrite (cache_miss use_cache (get_latest_stake_data limit) w Hmiss).
      unfold catch. now rewrite Hscan.
    + exists (PList []), (printed w1 (WarnGetStakeAccounts e)).
      apply Hcaught; assumption.
  - intros use_cache w w1 e Hmiss Hrpc.
    unfold SolanaClient.get_validators, bind.
    rewrite (cache_miss use_cache
               (fun s => Database.get_latest_validators_data
                           (latest_epoch_rows s)) w Hmiss).
    exact Hrpc.
  - exact Hwrapped.
  - intros use_cache w w1 e Hmiss Hrpc.
    apply Hwrapped; [exact Hmiss|].
    unfold SolanaClient.fetch_network_info, get_epoch_info.
    unfold bind at 1. now rewrite Hrpc.
Qed.

End ClientFacts.

Lemma stake_write_back_never_persists_witness :
  exists w2,
    SolanaClient.get_stake_accounts Samples.healthy_post Samples.no_stake
      Samples.record_stake false 50 Samples.start
    = (Ok (PList Samples.three_accounts), w2) /\
    SolanaClient.store w2 = [] /\
    exists e,
      SolanaClient.stdout w2 = [SolanaClient.WarnStoreStakeAccounts e].
Proof.
  exact (proj2 (stake_write_back_never_persists Samples.healthy_post
                  Samples.no_stake Samples.record_stake)
               false 50%Z Samples.start Samples.start
               (PList Samples.three_accounts) eq_refl eq_refl).
Defined.

Lemma stake_scan_failure_is_contained_witness :
  SolanaClient.get_stake_accounts Samples.limited_post Samples.no_stake
    Samples.record_stake false 50 Samples.start
  = (Ok (PList []),
     {| SolanaClient.remote := tt;
        SolanaClient.store := [];
        SolanaClient.stdout :=
          [SolanaClient.WarnGetStakeAccounts
             (RpcError Samples.scan_limit_error)] |}) /\
  SolanaClient.get_validators Samples.failing_post Samples.no_rows false
    Samples.start
  = (Err (RpcError Samples.scan_limit_error), Samples.start) /\
  SolanaClient.get_network_info Samples.failing_post Samples.no_rows
    Samples.no_network Samples.record_network false Samples.start
  = (Err (NetworkInfoFailure (RpcError Samples.scan_limit_error)),
     Samples.start).
Proof.
  split; [|split].
  - exact (proj1 (proj2 (stake_scan_failure_is_contained
                           Samples.limited_post Samples.no_rows
                           Samples.no_network Samples.no_stake
                           Samples.record_network Samples.record_stake))
                 false 50%Z Samples.start _ tt _ Samples.scan_limit_error
                 eq_refl eq_refl eq_refl eq_refl eq_refl).
  - exact (proj1 (proj2 (proj2 (proj2 (stake_scan_failure_is_contained
                           Samples.failing_post Samples.no_rows
                           Samples.no_network Samples.no_stake
                           Samples.record_network Samples.record_stake))))
                 false Samples.start Samples.start
                 (RpcError Samples.scan_limit_error) eq_refl eq_refl).
  - exact (proj2 (proj2 (proj2 (proj2 (proj2
                    (stake_scan_failure_is_contained
                       Samples.failing_post Samples.no_rows
                       Samples.no_network Samples.no_stake
                       Samples.record_network Samples.record_stake)))))
                 false Samples.start Samples.start
                 (RpcError Samples.scan_limit_error) eq_refl eq_refl).
Defined.

(** ** The fetched network info, seen by the aggregator *)

Section FetchedNetworkInfo.
Import SolanaClient.
Context {Remote Store : Type}.
Variable post : string -> pyval -> Remote -> result response * Remote.
Variable latest_epoch_rows : Store -> option (list Database.ValidatorInfo).
Variable get_latest_network_info : Store -> option pyval.
Variable store_network_info : pyval -> Store -> result unit * Store.

Local Abbreviation world := (@world Remote Store).
Local Abbreviation fetch_network_info :=
  (fetch_network_info post latest_epoch_rows store_network_info).
Local Abbreviation get_network_info :=
  (get_network_info post latest_epoch_rows get_latest_network_info
                    store_network_info).

Ltac inv_mbind H :=
  repeat (apply bind_Ok in H; destruct H as (? & ? & _ & H); cbv beta in H).

(** The dict the RPC branch returns has six keys, none of which the
    aggregator reads. *)
Lemma fetch_network_info_keys (use_cache : bool) (w w' : world) nd :
  fetch_network_info use_cache w = (Ok nd, w') ->
  exists epoch inflation supply validators performance raw_data,
    nd = PDict [("epoch", epoch); ("inflation", inflation);
                ("supply", supply); ("validators", validators);
                ("performance", performance); ("raw_data", raw_data)].
Proof.
  unfold SolanaClient.fetch_network_info. intros H.
  inv_mbind H.
  unfold ret in H. injection H as <- _. eauto 10.
Qed.

(** When the five top-level keys it reads are absent, the network
    aggregation succeeds with their defaults; the staked supply does not
    come from the network info. *)
Lemma network_info_without_keys d rows :
  assoc "epoch_info" d = None ->
  assoc "inflation_rate" d = None ->
  assoc "supply_info" d = None ->
  assoc "cluster_nodes" d = None ->
  assoc "slot_info" d = None ->
  exists s,
    DataProcessor._process_network_info (PDict d) rows = Ok s /\
    network_fields_at_defaults s /\
    DataProcessor.supply_staked s = Qsum (map DataProcessor.stake_of rows).
Proof.
  intros H1 H2 H3 H4 H5.
  unfold DataProcessor._process_network_info, py_get.
  rewrite H1, H2, H3, H4, H5.
  eexists. split; [reflexivity|].
  split.
  - unfold network_fields_at_defaults; cbn.
    repeat split; try reflexivity.
    apply Qc_is_canon; reflexivity.
  - cbn. destruct rows; reflexivity.
Qed.

(** C10, as the code has it.  Whatever the RPC branch of the network-info
    fetch returns, the network aggregation succeeds on it and reports the
    zero defaults for epoch number, slot counts, progress, time
    remaining, inflation rates, total and circulating supply, staking
    ratio, current slot and node count.  The staked supply is not a
    default: it is the total stake of the processed validators. *)
Theorem fetched_network_info_reads_defaults
    (use_cache : bool) (w w' : world) nd rows :
  (if use_cache then get_latest_network_info (store w) else None) = None ->
  get_network_info use_cache w = (Ok nd, w') ->
  exists s,
    DataProcessor._process_network_info nd rows = Ok s /\
    network_fields_at_defaults s /\
    DataProcessor.supply_staked s = Qsum (map DataProcessor.stake_of rows).
Proof.
  intros Hmiss H.
  unfold SolanaClient.get_network_info, bind in H.
  rewrite (cache_miss use_cache get_latest_network_info w Hmiss) in H.
  unfold catch in H.
  destruct (fetch_network_info use_cache w) as [[nd'|e] w1] eqn:Hfetch;
    [|discriminate H].
  injection H as -> _.
  apply fetch_network_info_keys in Hfetch.
  destruct Hfetch as (a & b & c & v & p & r & ->).
  apply network_info_without_keys; reflexivity.
Qed.

End FetchedNetworkInfo.

Lemma fetched_network_info_reads_defaults_witness :
  exists s,
    DataProcessor._process_network_info Samples.fetched_network_info
      Samples.three_rows = Ok s /\
    network_fields_at_defaults s /\
    DataProcessor.supply_staked s
    = Qsum (map DataProcessor.stake_of Samples.three_rows).
Proof.
  apply (fetched_network_info_reads_defaults Samples.healthy_post
           Samples.no_rows Samples.no_network Samples.record_network
           false Samples.start Samples.after_fetch).
  - reflexivity.
  - vm_compute. reflexivity.
Defined.

(** C10, as the specification words it, fails for the staked supply: one
    refresh against the sample endpoint, whose three validators hold 200
    tokens, reports a staked supply of 200. *)
Lemma staked_supply_is_not_a_default :
  exists t w',
    App.refresh Samples.healthy_post Samples.no_rows Samples.no_network
      Samples.no_stake Samples.record_network Samples.record_stake
      false Samples.start = (Ok t, w') /\
    DataProcessor.supply_staked (DataProcessor.processed_network_info t)
    = Z2Qc 200 /\
    ~ (network_fields_at_defaults (DataProcessor.processed_network_info t)
       /\ DataProcessor.supply_staked
            (DataProcessor.processed_network_info t) = 0).
Proof.
  eexists. eexists. split; [vm_compute; reflexivity|].
  split.
  - apply Qc_is_canon. vm_compute. reflexivity.
  - intros [_ H]. apply (f_equal this) in H. vm_compute in H.
    discriminate H.
Qed.

(** ** Missing optional fields *)

Lemma py_get_optional d key default (shape : pyval -> bool) :
  optional d key shape = true -> shape default = true ->
  exists v, py_get (PDict d) key default = Ok v /\ shape v = true.
Proof.
  unfold optional, py_get. destruct (assoc key d); eauto.
Qed.

Lemma py_get_dict d key default :
  exists v, py_get (PDict d) key default = Ok v.
Proof. unfold py_get. destruct (assoc key d); eauto. Qed.

Lemma is_number_num v : is_number v = true -> exists q, py_num v = Ok q.
Proof. destruct v; simpl; try discriminate; eauto. Qed.

Lemma is_number_float v : is_number v = true -> py_float v = py_num v.
Proof. destruct v; simpl; try discriminate; reflexivity. Qed.

Lemma py_sub_number a b :
  is_number a = true -> is_number b = true ->
  exists v, py_sub a b = Ok v /\ is_number v = true.
Proof.
  destruct a, b; cbn [is_number]; try discriminate; intros _ _;
    eexists; (split; [reflexivity|reflexivity]).
Qed.

Section StakeAccountsNeverRaise.
Import DataProcessor.

Lemma process_stake_account_total account :
  is_stake_account account = true ->
  exists e, process_stake_account account = Ok e.
Proof.
  destruct account as [| | | | | |d]; try discriminate. cbn [is_stake_account].
  intros Hacc. unfold process_stake_account.
  destruct (py_get_dict d "pubkey" (PStr "Unknown")) as (pk & ->).
  cbn [rbind].
  all: destruct (py_get_optional d "account" (PDict []) _ Hacc eq_refl)
         as (data & -> & Hdata); cbn [rbind].
  all: destruct data as [| | | | | |ad]; try discriminate Hdata.
  all: cbn [is_account_data] in Hdata; apply andb_prop in Hdata.
  all: destruct Hdata as [Hlam Hpay].
  all: destruct (py_get_optional ad "lamports" (PInt 0) _ Hlam eq_refl)
         as (lam & -> & Hnum); cbn [rbind].
  all: destruct (is_number_num _ Hnum) as (q & Hq).
  all: unfold py_truediv; rewrite Hq; cbn [rbind py_num].
  all: replace (Qc_eqb (Z2Qc 1000000000) 0) with false by reflexivity.
  all: destruct (py_get_optional ad "data" (PDict []) _ Hpay eq_refl)
         as (payload & -> & Hpayload); cbn [rbind].
  all: destruct payload as [| | | | | |pd]; cbn [is_dict rbind];
         try (eexists; reflexivity).
  all: cbn [is_account_payload] in Hpayload.
  all: unfold optional in Hpayload; cbn [py_contains py_get rbind].
  all: destruct (assoc "parsed" pd) as [p|]; cbn [rbind];
         try (eexists; reflexivity).
  all: destruct p; try discriminate Hpayload; cbn [py_get rbind].
  all: destruct (assoc "info" _); eexists; reflexivity.
Qed.

Lemma process_stake_accounts_total stake_accounts :
  is_stake_accounts stake_accounts = true ->
  exists info, _process_stake_accounts stake_accounts = Ok info.
Proof.
  unfold is_stake_accounts, _process_stake_accounts.
  destruct (py_truthy stake_accounts) eqn:T; cbn [negb orb];
    [|eauto].
  destruct stake_accounts as [| | | | |l|]; try discriminate.
  intros Hall. cbn [py_iter rbind].
  destruct (mapM_total process_stake_account l) as (df & ->).
  { rewrite forallb_forall in Hall. apply Forall_forall.
    intros a Ha. now apply process_stake_account_total, Hall. }
  cbn [rbind]. destruct df; eauto.
Qed.

End StakeAccountsNeverRaise.

Section NetworkNeverRaises.
Import DataProcessor.

Lemma py_gt0_number v :
  is_number v = true ->
  exists q, py_num v = Ok q /\ py_gt0 v = Ok (Qc_ltb 0 q).
Proof.
  intros H. destruct (is_number_num v H) as (q & Hq).
  exists q. unfold py_gt0. now rewrite Hq.
Qed.

Lemma py_truediv_positive a b q :
  is_number a = true -> py_num b = Ok q -> Qc_ltb 0 q = true ->
  exists r, py_truediv a b = Ok r.
Proof.
  intros Ha Hb Hq. destruct (is_number_num a Ha) as (x & Hx).
  unfold py_truediv. rewrite Hx, Hb. cbn [rbind].
  destruct (Qc_eqb q 0) eqn:E; [|eauto].
  apply Qc_eqb_eq in E. subst q. discriminate Hq.
Qed.

Lemma hours_remaining_total slots_in_epoch slot_index :
  is_number slots_in_epoch = true -> is_number slot_index = true ->
  exists h, hours_remaining slots_in_epoch slot_index = Ok h.
Proof.
  intros Hs Hi. unfold hours_remaining.
  destruct (py_sub_number _ _ Hs Hi) as (v & -> & Hv). cbn [rbind].
  destruct (is_number_num v Hv) as (q & ->). cbn [rbind]. eauto.
Qed.

Lemma supply_figure_total supply_info field :
  is_supply_info supply_info = true ->
  field = "total" \/ field = "circulating" ->
  exists q, supply_figure supply_info field = Ok q.
Proof.
  destruct supply_info as [| | | | | |sd]; try discriminate.
  cbn [is_supply_info]. unfold optional, supply_figure, py_get at 1 2.
  destruct (assoc "value" sd) as [value|]; cbn [rbind];
    [|intros _ _; cbn [py_truthy]; eauto].
  unfold is_supply_value.
  destruct (py_truthy value); cbn [negb orb]; [|eauto].
  destruct value as [| | | | | |vd]; try discriminate.
  intros Hv Hfield. apply andb_prop in Hv. destruct Hv as [Ht Hc].
  assert (Hf : optional vd field is_number = true)
    by (destruct Hfield; subst; assumption).
  destruct (py_get_optional vd field (PInt 0) _ Hf eq_refl)
    as (raw & -> & Hraw). cbn [rbind].
  rewrite (is_number_float raw Hraw).
  destruct (is_number_num raw Hraw) as (q & ->). cbn [rbind]. eauto.
Qed.

Lemma py_len_sized v : is_sized v = true -> exists n, py_len v = Ok n.
Proof. destruct v; simpl; try discriminate; eauto. Qed.

Lemma process_network_info_total network_info rows :
  is_network_info network_info = true ->
  exists s, _process_network_info network_info rows = Ok s.
Proof.
  destruct network_info as [| | | | | |d]; try discriminate.
  cbn [is_network_info]. intros H.
  apply andb_prop in H. destruct H as [H Hnodes].
  apply andb_prop in H. destruct H as [H Hsupply].
  apply andb_prop in H. destruct H as [Hepoch Hrate].
  unfold _process_network_info.
  destruct (py_get_optional d "epoch_info" (PDict []) _ Hepoch eq_refl)
    as (epoch_info & -> & Hei). cbn [rbind].
  destruct epoch_info as [| | | | | |ed]; try discriminate Hei.
  cbn [is_epoch_info] in Hei. apply andb_prop in Hei.
  destruct Hei as [Hslots Hindex].
  destruct (py_get_dict ed "epoch" (PInt 0)) as (current_epoch & ->).
  cbn [rbind].
  destruct (py_get_optional ed "slotsInEpoch" (PInt 0) _ Hslots eq_refl)
    as (slots & -> & Hs). cbn [rbind].
  destruct (py_get_optional ed "slotIndex" (PInt 0) _ Hindex eq_refl)
    as (index & -> & Hi). cbn [rbind].
  destruct (py_gt0_number slots Hs) as (q & Hq & ->). cbn [rbind].
  assert (Hprogress : exists p,
            (if Qc_ltb 0 q
             then let? ratio := py_truediv index slots in
                  Ok (ratio * hundred)
             else Ok 0) = Ok p).
  { destruct (Qc_ltb 0 q) eqn:Hpos; [|eauto].
    destruct (py_truediv_positive index slots q Hi Hq Hpos) as (r & ->).
    cbn [rbind]. eauto. }
  destruct Hprogress as (p & ->). cbn [rbind].
  destruct (hours_remaining_total slots index Hs Hi) as (h & ->).
  cbn [rbind].
  destruct (py_get_optional d "inflation_rate" (PDict []) _ Hrate eq_refl)
    as (rates & -> & Hrates). cbn [rbind].
  destruct rates as [| | | | | |rd]; try discriminate Hrates.
  destruct (py_get_optional d "supply_info" (PDict []) _ Hsupply eq_refl)
    as (supply_info & -> & Hsi). cbn [rbind].
  destruct (supply_figure_total supply_info "total" Hsi (or_introl eq_refl))
    as (total_supply & ->). cbn [rbind].
  destruct (supply_figure_total supply_info "circulating" Hsi
              (or_intror eq_refl)) as (circulating_supply & ->).
  cbn [rbind].
  destruct (py_get_optional d "cluster_nodes" (PList []) _ Hnodes eq_refl)
    as (cluster_nodes & -> & Hcn). cbn [rbind].
  destruct (py_get_dict d "slot_info" (PInt 0)) as (current_slot & ->).
  cbn [rbind].
  destruct (py_get_dict rd "total" (PInt 0)) as (i_total & ->).
  destruct (py_get_dict rd "validator" (PInt 0)) as (i_validator & ->).
  destruct (py_get_dict rd "foundation" (PInt 0)) as (i_foundation & ->).
  cbn [rbind].
  destruct (py_len_sized cluster_nodes Hcn) as (n & ->). cbn [rbind].
  eauto.
Qed.

End NetworkNeverRaises.

Section ValidatorsNeverRaise.
Import DataProcessor.

Lemma activated_stake_sol_total v :
  is_validator v = true -> exists s, activated_stake_sol v = Ok s.
Proof.
  destruct v as [| | | | | |vd]; try discriminate. cbn [is_validator].
  intros H. apply andb_prop in H. destruct H as [H _].
  apply andb_prop in H. destruct H as [Hstake _].
  unfold activated_stake_sol.
  destruct (py_get_optional vd "activatedStake" (PInt 0) _ Hstake eq_refl)
    as (raw & -> & Hraw). cbn [rbind].
  rewrite (is_number_float raw Hraw).
  destruct (is_number_num raw Hraw) as (q & ->). cbn [rbind]. eauto.
Qed.

Lemma current_epoch_credits_total epoch_credits :
  is_credit_list epoch_credits = true ->
  exists c, current_epoch_credits epoch_credits = Ok c.
Proof.
  destruct epoch_credits as [| | | | |l|]; try discriminate.
  cbn [is_credit_list]. intros Hall. unfold current_epoch_credits.
  destruct l as [|x0 l0] eqn:El; [cbn [py_truthy]; eauto|].
  cbn [py_truthy]. rewrite <- El in *.
  destruct (exists_last (l := l)) as (l' & x & ->); [congruence|].
  rewrite forallb_app in Hall. apply andb_prop in Hall.
  destruct Hall as [_ Hx]. cbn [forallb] in Hx. rewrite andb_true_r in Hx.
  destruct x as [| | | | |[|a [|b rest]]|]; try discriminate Hx.
  cbn [is_credit_entry] in Hx. apply andb_prop in Hx.
  destruct Hx as [Ha Hb].
  unfold py_index at 1 3. rewrite seq_index_last. cbn [rbind py_index].
  assert (I1 : seq_index (a :: b :: rest) 1 = Ok b)
    by exact (seq_index_nat (a :: b :: rest) 1 b eq_refl).
  assert (I0 : seq_index (a :: b :: rest) 0 = Ok a)
    by exact (seq_index_nat (a :: b :: rest) 0 a eq_refl).
  rewrite I1. cbn [rbind]. rewrite I0. cbn [rbind].
  destruct (py_sub_number b a Hb Ha) as (c & -> & _). eauto.
Qed.

Lemma process_validator_total current total v :
  is_validator v = true ->
  exists e,
    process_validator (PList current) total v = Ok e /\
    is_number (commission e) = true.
Proof.
  intros Hv.
  destruct (activated_stake_sol_total v Hv) as (s & Hs).
  destruct v as [| | | | | |vd]; try discriminate.
  cbn [is_validator] in Hv.
  apply andb_prop in Hv. destruct Hv as [Hv Hcomm].
  apply andb_prop in Hv. destruct Hv as [_ Hcredits].
  unfold process_validator. rewrite Hs. cbn [rbind].
  destruct (py_get_optional vd "epochCredits" (PList []) _ Hcredits eq_refl)
    as (ec & -> & Hec). cbn [rbind].
  destruct (current_epoch_credits_total ec Hec) as (c & ->).
  cbn [rbind py_in].
  destruct (py_get_dict vd "nodePubkey" (PStr "Unknown")) as (node & ->).
  destruct (py_get_dict vd "votePubkey" (PStr "Unknown")) as (vote & ->).
  destruct (py_get_optional vd "commission" (PInt 0) _ Hcomm eq_refl)
    as (comm & -> & Hnum).
  destruct (py_get_dict vd "lastVote" (PInt 0)) as (last_vote & ->).
  destruct (py_get_dict vd "rootSlot" (PInt 0)) as (root_slot & ->).
  cbn [rbind]. eexists. split; [reflexivity|exact Hnum].
Qed.

Lemma add_metrics_total network_info df :
  is_network_info network_info = true ->
  Forall (fun e => is_number (commission e) = true) df ->
  exists rows, add_metrics network_info df = Ok rows.
Proof.
  intros Hni Hdf. unfold add_metrics.
  destruct df as [|e0 df0] eqn:Edf; [eauto|]. rewrite <- Edf in *.
  destruct network_info as [| | | | | |d]; try discriminate.
  cbn [is_network_info] in Hni.
  apply andb_prop in Hni. destruct Hni as [Hni _].
  apply andb_prop in Hni. destruct Hni as [Hni _].
  apply andb_prop in Hni. destruct Hni as [_ Hrate].
  destruct (py_get_optional d "inflation_rate" (PDict []) _ Hrate eq_refl)
    as (rates & -> & Hrates). cbn [rbind].
  destruct rates as [| | | | | |rd]; try discriminate Hrates.
  cbn [is_inflation_rate] in Hrates.
  destruct (py_get_optional rd "total" (PFloat default_inflation_rate)
              _ Hrates eq_refl) as (total & -> & Htotal). cbn [rbind].
  destruct (is_number_num total Htotal) as (rate & ->). cbn [rbind].
  apply mapM_total. apply Forall_forall. intros [e k] Hin.
  apply in_combine_l in Hin. rewrite Forall_forall in Hdf.
  specialize (Hdf e Hin). cbn [fst snd]. unfold estimated_apy.
  destruct (is_number_num _ Hdf) as (c & ->). cbn [rbind]. eauto.
Qed.

Lemma mapM_total_with {A B} (f : A -> result B) (P : B -> Prop) l :
  Forall (fun x => exists y, f x = Ok y /\ P y) l ->
  exists l', mapM f l = Ok l' /\ Forall P l'.
Proof.
  induction 1 as [|x l (y & Hy & Py) _ (ys & IH & Pys)]; simpl.
  - exists []. auto.
  - exists (y :: ys). rewrite Hy, IH. auto.
Qed.

Lemma process_validators_total validators_info network_info :
  is_validators_info validators_info = true ->
  is_network_info network_info = true ->
  exists rows, _process_validators validators_info network_info = Ok rows.
Proof.
  destruct validators_info as [| | | | | |d]; try discriminate.
  cbn [is_validators_info]. intros H Hni.
  apply andb_prop in H. destruct H as [Hcur Hdel].
  unfold _process_validators.
  destruct (py_get_optional d "current" (PList []) _ Hcur eq_refl)
    as (current & -> & Hc). cbn [rbind].
  destruct (py_get_optional d "delinquent" (PList []) _ Hdel eq_refl)
    as (delinquent & -> & Hd). cbn [rbind].
  destruct current as [| | | | |l1|]; try discriminate Hc.
  destruct delinquent as [| | | | |l2|]; try discriminate Hd.
  cbn [is_validator_list] in Hc, Hd. cbn [py_add rbind py_iter].
  assert (Hall : Forall (fun v => is_validator v = true) (l1 ++ l2)).
  { apply Forall_app. split; apply Forall_forall;
      now apply forallb_forall. }
  destruct (mapM_total activated_stake_sol (l1 ++ l2)) as (stakes & ->).
  { eapply Forall_impl; [|exact Hall]. apply activated_stake_sol_total. }
  cbn [rbind].
  destruct (mapM_total_with (process_validator (PList l1) (Qsum stakes))
              (fun e => is_number (commission e) = true) (l1 ++ l2))
    as (df & -> & Hdf).
  { eapply Forall_impl; [|exact Hall].
    intros v Hv. now apply process_validator_total. }
  cbn [rbind]. now apply add_metrics_total.
Qed.

End ValidatorsNeverRaise.

Section Defaults.
Import DataProcessor.

Ltac absent Habs :=
  repeat match goal with
         | E : py_get (PDict _) _ _ = Ok _ |- _ =>
             unfold py_get in E; rewrite Habs in E; injection E as <-
         end.

Lemma Qc_zero_over (q : Qc) : Z2Qc 0 / q = 0.
Proof. unfold Qcdiv. apply Qcmult_0_l. Qed.

Lemma validator_defaults current total d e :
  process_validator current total (PDict d) = Ok e ->
  (assoc "activatedStake" d = None -> activatedStake e = 0) /\
  (assoc "epochCredits" d = None -> credits e = PInt 0) /\
  (assoc "commission" d = None -> commission e = PInt 0) /\
  (assoc "lastVote" d = None -> lastVote e = PInt 0) /\
  (assoc "rootSlot" d = None -> rootSlot e = PInt 0) /\
  (assoc "nodePubkey" d = None -> nodePubkey e = PStr "Unknown") /\
  (assoc "votePubkey" d = None -> votePubkey e = PStr "Unknown").
Proof.
  unfold process_validator. intros H. inv_bind H. injection H as <-.
  cbn [activatedStake credits commission lastVote rootSlot nodePubkey
       votePubkey].
  split; [|split; [|split; [|split; [|split; [|split]]]]]; intros Habs.
  - unfold activated_stake_sol in E. inv_bind E. injection E as <-.
    absent Habs.
    match goal with
    | F : py_float (PInt 0) = Ok _ |- _ => cbn in F; injection F as <-
    end.
    apply Qc_zero_over.
  - absent Habs.
    match goal with
    | F : current_epoch_credits (PList []) = Ok _ |- _ =>
        unfold current_epoch_credits in F; cbn [py_truthy] in F;
        congruence
    end.
  - now absent Habs.
  - now absent Habs.
  - now absent Habs.
  - now absent Habs.
  - now absent Habs.
Qed.

Lemma absent_inflation_rate validators_info d rows :
  _process_validators validators_info (PDict d) = Ok rows ->
  assoc "inflation_rate" d = None ->
  Forall (fun r => exists c,
            py_num (commission (entry r)) = Ok c /\
            estimatedAPY r
            = round2 (default_inflation_rate * (1 - c / hundred))) rows.
Proof.
  unfold _process_validators. intros H Habs. inv_bind H.
  apply add_metrics_inv in H. destruct H as (Hentry & _ & Hapy).
  destruct x4 as [|e0 df].
  - destruct rows; [constructor|discriminate Hentry].
  - destruct Hapy as (rates & total & rate & Hr & Ht & Hn & Hall);
      [discriminate|].
    unfold py_get in Hr. rewrite Habs in Hr. injection Hr as <-.
    cbn in Ht. injection Ht as <-. cbn in Hn. injection Hn as <-.
    eapply Forall_impl; [|exact Hall].
    intros r Hr. unfold estimated_apy in Hr. inv_bind Hr.
    injection Hr as <-. eauto.
Qed.

Lemma network_defaults d rows s :
  _process_network_info (PDict d) rows = Ok s ->
  (assoc "epoch_info" d = None ->
   epoch_current s = PInt 0 /\ epoch_slots_in_epoch s = PInt 0 /\
   epoch_slot_index s = PInt 0 /\ epoch_progress_percentage s = 0 /\
   epoch_hours_remaining s = 0) /\
  (assoc "inflation_rate" d = None ->
   inflation_total s = PInt 0 /\ inflation_validator s = PInt 0 /\
   inflation_foundation s = PInt 0) /\
  (assoc "supply_info" d = None ->
   supply_total s = 0 /\ supply_circulating s = 0 /\
   supply_staking_ratio s = 0) /\
  (assoc "cluster_nodes" d = None -> performance_node_count s = 0%Z) /\
  (assoc "slot_info" d = None -> performance_current_slot s = PInt 0).
Proof.
  unfold _process_network_info. intros H. inv_bind H. injection H as <-.
  cbn [epoch_current epoch_slots_in_epoch epoch_slot_index
       epoch_progress_percentage epoch_hours_remaining inflation_total
       inflation_validator inflation_foundation supply_total
       supply_circulating supply_staking_ratio performance_node_count
       performance_current_slot].
  split; [|split; [|split; [|split]]]; intros Habs; absent Habs.
  all: repeat match goal with
         | E : py_get (PDict []) _ _ = Ok _ |- _ =>
             cbn in E; injection E as <-
         end.
  all: repeat match goal with
         | E : py_gt0 (PInt 0) = Ok _ |- _ =>
             cbn in E; injection E as <-
         | E : (if false then _ else _) = Ok _ |- _ => injection E as <-
         | E : Ok _ = Ok ?y |- _ => is_var y; injection E as <-
         | E : hours_remaining (PInt 0) (PInt 0) = Ok _ |- _ =>
             rewrite aggregator_hours_remaining in E; injection E as <-
         | E : supply_figure (PDict []) _ = Ok _ |- _ =>
             cbn in E; injection E as <-
         | E : py_len (PList []) = Ok _ |- _ =>
             cbn in E; injection E as <-
         end.
  all: repeat split; try reflexivity.
  apply Qc_is_canon. reflexivity.
Qed.

Lemma stake_account_defaults d e :
  process_stake_account (PDict d) = Ok e ->
  (assoc "pubkey" d = None -> pubkey e = PStr "Unknown") /\
  (assoc "account" d = None -> balance e = 0 /\ parsed e = PNone).
Proof.
  unfold process_stake_account. intros H. inv_bind H. injection H as <-.
  cbn [pubkey balance parsed].
  split; intros Habs; absent Habs; [reflexivity|].
  repeat match goal with
         | E : py_get (PDict []) _ _ = Ok _ |- _ =>
             cbn in E; injection E as <-
         end.
  match goal with
  | E : py_truediv (PInt 0) _ = Ok _ |- _ =>
      unfold py_truediv in E; cbn [py_num rbind] in E;
      replace (Qc_eqb (Z2Qc 1000000000) 0) with false in E by reflexivity;
      injection E as <-
  end.
  match goal with
  | E : (if is_dict (PDict []) then _ else _) = Ok _ |- _ =>
      cbn in E; injection E as <-
  end.
  match goal with
  | E : Ok _ = Ok ?y |- _ => injection E as <-
  end.
  split; [apply Qc_zero_over|reflexivity].
Qed.

(** C6, as the code has it.  On inputs of the expected shapes, with any
    optional field missing, the aggregation does not raise.  A missing
    field is replaced by 0 or by an empty collection, with two
    exceptions: a missing pubkey becomes ['Unknown'], and a missing
    inflation rate is taken as 8 for the estimated yield, which is then
    [round(8 * (1 - commission / 100), 2)]. *)
Theorem missing_fields_get_defaults :
  (forall validators_info network_info stake_accounts,
     is_validators_info validators_info = true ->
     is_network_info network_info = true ->
     is_stake_accounts stake_accounts = true ->
     exists t, __init__ validators_info network_info stake_accounts = Ok t)
  /\
  (forall current total d e,
     process_validator current total (PDict d) = Ok e ->
     (assoc "activatedStake" d = None -> activatedStake e = 0) /\
     (assoc "epochCredits" d = None -> credits e = PInt 0) /\
     (assoc "commission" d = None -> commission e = PInt 0) /\
     (assoc "lastVote" d = None -> lastVote e = PInt 0) /\
     (assoc "rootSlot" d = None -> rootSlot e = PInt 0) /\
     (assoc "nodePubkey" d = None -> nodePubkey e = PStr "Unknown") /\
     (assoc "votePubkey" d = None -> votePubkey e = PStr "Unknown")) /\
  (forall validators_info d rows,
     _process_validators validators_info (PDict d) = Ok rows ->
     assoc "inflation_rate" d = None ->
     Forall (fun r => exists c,
               py_num (commission (entry r)) = Ok c /\
               estimatedAPY r = round2 (Z2Qc 8 * (1 - c / hundred))) rows)
  /\
  (forall d rows s,
     _process_network_info (PDict d) rows = Ok s ->
     (assoc "epoch_info" d = None ->
      epoch_current s = PInt 0 /\ epoch_slots_in_epoch s = PInt 0 /\
      epoch_slot_index s = PInt 0 /\ epoch_progress_percentage s = 0 /\
      epoch_hours_remaining s = 0) /\
     (assoc "inflation_rate" d = None ->
      inflation_total s = PInt 0 /\ inflation_validator s = PInt 0 /\
      inflation_foundation s = PInt 0) /\
     (assoc "supply_info" d = None ->
      supply_total s = 0 /\ supply_circulating s = 0 /\
      supply_staking_ratio s = 0) /\
     (assoc "cluster_nodes" d = None -> performance_node_count s = 0%Z) /\
     (assoc "slot_info" d = None -> performance_current_slot s = PInt 0))
  /\
  (forall d e,
     process_stake_account (PDict d) = Ok e ->
     (assoc "pubkey" d = None -> pubkey e = PStr "Unknown") /\
     (assoc "account" d = None -> balance e = 0 /\ parsed e = PNone)) /\
  _process_stake_accounts PNone = Ok empty_stake_info /\
  _process_stake_accounts (PList []) = Ok empty_stake_info.
Proof.
  split; [|split; [|split; [|split; [|split; [|split]]]]].
  - intros vi ni sa Hvi Hni Hsa. unfold __init__.
    destruct (process_validators_total vi ni Hvi Hni) as (rows & ->).
    cbn [rbind].
    destruct (process_network_info_total ni rows Hni) as (s & ->).
    cbn [rbind].
    destruct (process_stake_accounts_total sa Hsa) as (info & ->).
    cbn [rbind]. eauto.
  - exact validator_defaults.
  - exact absent_inflation_rate.
  - exact network_defaults.
  - exact stake_account_defaults.
  - reflexivity.
  - reflexivity.
Qed.

End Defaults.

Lemma missing_fields_get_defaults_witness :
  (exists t,
     DataProcessor.__init__ (PDict [("current", PList [PDict []])])
       (PDict []) (PList [PDict []]) = Ok t) /\
  Forall (fun r => exists c,
            py_num (DataProcessor.commission (DataProcessor.entry r)) = Ok c
            /\ DataProcessor.estimatedAPY r
               = round2 (Z2Qc 8 * (1 - c / hundred)))
         Samples.three_rows.
Proof.
  split.
  - exact (proj1 missing_fields_get_defaults
             (PDict [("current", PList [PDict []])]) (PDict [])
             (PList [PDict []]) eq_refl eq_refl eq_refl).
  - apply (proj1 (proj2 (proj2 missing_fields_get_defaults))
             Samples.three_validators []).
    + vm_compute. reflexivity.
    + reflexivity.
Defined.

(** C6, as the specification words it, fails for the inflation rate: a
    validator without commission, aggregated with a network info that
    has no inflation rate, gets the estimated yield 8, not 0. *)
Lemma absent_inflation_rate_is_not_zero :
  exists rows,
    DataProcessor._process_validators
      (PDict [("current", PList [PDict []])]) (PDict []) = Ok rows /\
    map DataProcessor.estimatedAPY rows = [Z2Qc 8] /\
    ~ Forall (fun r => DataProcessor.estimatedAPY r = 0) rows.
Proof.
  eexists. split; [vm_compute; reflexivity|].
  split.
  - cbn [map]. f_equal. apply Qc_is_canon. vm_compute. reflexivity.
  - intros H. inversion H as [|r rows' Hr _]; subst.
    apply (f_equal this) in Hr. vm_compute in Hr. discriminate Hr.
Qed.

(** ** Sample runs *)

(** The example of the specification: stakes 100, 50 and 50 give the
    percentages 50, 25 and 25 and the ranks 1, 2 and 2. *)
Example three_validators_percentages :
  map (fun r => this (DataProcessor.percentage_of r)) Samples.three_rows
  = [50 # 1; 25 # 1; 25 # 1]%Q.
Proof. vm_compute. reflexivity. Qed.

Example three_validators_ranks :
  map DataProcessor.rank Samples.three_rows = [1; 2; 2]%Z.
Proof. vm_compute. reflexivity. Qed.

Example three_validators_status :
  map (fun r => DataProcessor.status (DataProcessor.entry r))
      Samples.three_rows
  = ["Active"; "Active"; "Delinquent"].
Proof. vm_compute. reflexivity. Qed.

(** Without an inflation rate the estimated yield of a validator without
    commission is 8. *)
Example three_validators_yield :
  map (fun r => this (DataProcessor.estimatedAPY r)) Samples.three_rows
  = [8 # 1; 8 # 1; 8 # 1]%Q.
Proof. vm_compute. reflexivity. Qed.

(** Balances of 5, 250 and 250000 tokens fill the first, second and last
    bucket. *)
Example three_accounts_counts :
  match DataProcessor._process_stake_accounts
          (PList Samples.three_accounts) with
  | Ok info =>
      DataProcessor.distribution_counts info = [1; 1; 0; 0; 1]%Z /\
      DataProcessor.distribution_categories info
      = ["0-100"; "100-1K"; "1K-10K"; "10K-100K"; "100K+"] /\
      map this (DataProcessor.distribution_amounts info)
      = [5 # 1; 250 # 1; 0 # 1; 0 # 1; 250000 # 1]%Q /\
      DataProcessor.total_accounts info = 3%Z
  | Err _ => False
  end.
Proof. vm_compute. repeat split; reflexivity. Qed.

(** A negative balance falls into no bucket. *)
Example negative_balance_is_dropped :
  DataProcessor.cut DataProcessor.buckets (Z2Qc (-1)) = None.
Proof. reflexivity. Qed.

(** Half-way cases of [round(2)] go to the even neighbour. *)
Example round2_half_even :
  this (round2 (Z2Qc 125 / Z2Qc 1000)) = (3 # 25)%Q /\
  this (round2 (Z2Qc 135 / Z2Qc 1000)) = (7 # 50)%Q.
Proof. vm_compute. split; reflexivity. Qed.

(* ================================================================= *)
(** * Further properties of the code *)

(** ** The validator frame *)

Section ValidatorFrame.
Import DataProcessor.

Lemma process_validator_fields current total v e :
  process_validator current total v = Ok e ->
  py_get v "nodePubkey" (PStr "Unknown") = Ok (nodePubkey e) /\
  py_get v "votePubkey" (PStr "Unknown") = Ok (votePubkey e) /\
  py_get v "commission" (PInt 0) = Ok (commission e) /\
  py_get v "lastVote" (PInt 0) = Ok (lastVote e) /\
  py_get v "rootSlot" (PInt 0) = Ok (rootSlot e) /\
  (status e = "Active" \/ status e = "Delinquent") /\
  py_in v current = Ok (String.eqb (status e) "Active").
Proof.
  unfold process_validator. intros H. inv_bind H. injection H as <-.
  cbn [nodePubkey votePubkey commission lastVote rootSlot status].
  repeat split; try assumption.
  - destruct x2; auto.
  - destruct x2; assumption.
Qed.

(** The frame has one row for every raw validator, the current ones
    first and in the order of the two lists; the stake of a row is the
    ['activatedStake'] of its validator (0 when absent), made a float
    and divided by [10**9], and the row copies the keys, the commission
    and the slots of its validator. *)
Theorem one_row_per_validator validators_info network_info rows
    current delinquent :
  _process_validators validators_info network_info = Ok rows ->
  py_get validators_info "current" (PList []) = Ok (PList current) ->
  py_get validators_info "delinquent" (PList []) = Ok (PList delinquent) ->
  List.length rows = (List.length current + List.length delinquent)%nat /\
  Forall2
    (fun v r =>
       (exists raw f,
          py_get v "activatedStake" (PInt 0) = Ok raw /\
          py_float raw = Ok f /\
          stake_of r = f / Z2Qc 1000000000) /\
       py_get v "nodePubkey" (PStr "Unknown") = Ok (nodePubkey (entry r)) /\
       py_get v "votePubkey" (PStr "Unknown") = Ok (votePubkey (entry r)) /\
       py_get v "commission" (PInt 0) = Ok (commission (entry r)) /\
       py_get v "lastVote" (PInt 0) = Ok (lastVote (entry r)) /\
       py_get v "rootSlot" (PInt 0) = Ok (rootSlot (entry r)))
    (current ++ delinquent) rows.
Proof.
  intros H Hc Hd. apply process_validators_inv in H.
  destruct H as (cur & del & both & all & stakes & Hc' & Hd' & Hadd & Hiter
                 & _ & Hrows & _).
  rewrite Hc in Hc'. rewrite Hd in Hd'.
  injection Hc' as <-. injection Hd' as <-.
  simpl in Hadd. injection Hadd as <-.
  simpl in Hiter. injection Hiter as <-.
  split.
  - rewrite <- (Forall2_length Hrows). apply length_app.
  - eapply Forall2_impl; [|exact Hrows].
    intros v r Hv.
    pose proof (process_validator_inv _ _ _ _ Hv) as (Hs & _).
    pose proof (process_validator_fields _ _ _ _ Hv)
      as (Hn & Hvo & Hco & Hl & Hr & _).
    split; [|tauto].
    unfold activated_stake_sol in Hs.
    destruct (py_get v "activatedStake" (PInt 0)) as [raw|e0];
      [|discriminate Hs].
    cbn [rbind] in Hs.
    destruct (py_float raw) as [f|e0] eqn:Hf; [|discriminate Hs].
    cbn [rbind] in Hs. injection Hs as Hs.
    exists raw, f. unfold stake_of. rewrite <- Hs.
    split; [reflexivity|]. split; [exact Hf|reflexivity].
Qed.

Lemma one_row_per_validator_witness :
  List.length Samples.three_rows = (2 + 1)%nat /\
  Forall2
    (fun v r =>
       (exists raw f,
          py_get v "activatedStake" (PInt 0) = Ok raw /\
          py_float raw = Ok f /\
          stake_of r = f / Z2Qc 1000000000) /\
       py_get v "nodePubkey" (PStr "Unknown") = Ok (nodePubkey (entry r)) /\
       py_get v "votePubkey" (PStr "Unknown") = Ok (votePubkey (entry r)) /\
       py_get v "commission" (PInt 0) = Ok (commission (entry r)) /\
       py_get v "lastVote" (PInt 0) = Ok (lastVote (entry r)) /\
       py_get v "rootSlot" (PInt 0) = Ok (rootSlot (entry r)))
    ([Samples.validator "v1" 100; Samples.validator "v2" 50]
     ++ [Samples.validator "v3" 50])
    Samples.three_rows.
Proof.
  apply (one_row_per_validator Samples.three_validators
           Samples.no_network_info Samples.three_rows
           [Samples.validator "v1" 100; Samples.validator "v2" 50]
           [Samples.validator "v3" 50]).
  - vm_compute. reflexivity.
  - reflexivity.
  - reflexivity.
Defined.

Lemma count_status_split (df : list validator_row) :
  Forall (fun r => status (entry r) = "Active"
                   \/ status (entry r) = "Delinquent") df ->
  (count_status "Active" df + count_status "Delinquent" df)%Z
  = Z.of_nat (List.length df).
Proof.
  unfold count_status.
  induction 1 as [|r df Hr _ IH]; [reflexivity|].
  cbn [filter].
  destruct Hr as [E | E]; rewrite E.
  - replace (String.eqb "Active" "Active") with true by reflexivity.
    replace (String.eqb "Active" "Delinquent") with false by reflexivity.
    cbn [List.length]. lia.
  - replace (String.eqb "Delinquent" "Active") with false by reflexivity.
    replace (String.eqb "Delinquent" "Delinquent") with true
      by reflexivity.
    cbn [List.length]. lia.
Qed.

(** The validator counts of the network summary split the frame: every
    row is counted once, as active or as delinquent. *)
Theorem validator_counts_split validators_info network_info network_info'
    rows s :
  _process_validators validators_info network_info = Ok rows ->
  _process_network_info network_info' rows = Ok s ->
  (validators_active s + validators_delinquent s)%Z = validators_total s /\
  validators_total s = Z.of_nat (List.length rows).
Proof.
  intros Hrows Hs.
  assert (Hstatus : Forall (fun r => status (entry r) = "Active"
                                     \/ status (entry r) = "Delinquent")
                           rows).
  { apply process_validators_inv in Hrows.
    destruct Hrows as (cur & del & both & all & stakes & _ & _ & _ & _ & _
                       & Hrows & _).
    eapply Forall2_right; [|exact Hrows].
    intros v r Hv. apply process_validator_fields in Hv. tauto. }
  unfold _process_network_info in Hs. inv_bind Hs. injection Hs as <-.
  cbn [validators_active validators_delinquent validators_total].
  split; [reflexivity|].
  destruct rows as [|r0 rows']; [reflexivity|].
  now apply count_status_split.
Qed.

Lemma validator_counts_split_witness :
  exists s,
    _process_network_info Samples.no_network_info Samples.three_rows = Ok s
    /\ (validators_active s + validators_delinquent s)%Z = validators_total s
    /\ validators_total s = Z.of_nat (List.length Samples.three_rows).
Proof.
  eexists. split; [vm_compute; reflexivity|].
  apply (validator_counts_split Samples.three_validators
           Samples.no_network_info Samples.no_network_info
           Samples.three_rows).
  - vm_compute. reflexivity.
  - vm_compute. reflexivity.
Defined.

End ValidatorFrame.

Lemma Qsum_ge_member (l : list Qc) (x : Qc) :
  Forall (fun y => 0 <= y) l -> In x l -> x <= Qsum l.
Proof.
  induction 1 as [|y l Hy Hl IH]; intros Hin; [destruct Hin|].
  simpl. destruct Hin as [->|Hin].
  - rewrite <- (Qcplus_0_r x) at 1.
    apply Qcplus_le_compat; [apply Qcle_refl|now apply Qsum_nonneg].
  - rewrite <- (Qcplus_0_l x).
    apply Qcplus_le_compat; [exact Hy|now apply IH].
Qed.

Lemma count_greater_lt_length (x : Qc) (l : list Qc) :
  In x l -> (count_greater x l < List.length l)%nat.
Proof.
  induction l as [|y l IH]; intros Hin; [destruct Hin|].
  rewrite count_greater_cons. cbn [List.length].
  assert (B : (count_greater x l <= List.length l)%nat)
    by apply filter_length_le.
  destruct Hin as [->|Hin].
  - rewrite Qc_ltb_irrefl. lia.
  - specialize (IH Hin). destruct (Qc_ltb x y); lia.
Qed.

Lemma exists_largest {A} (key : A -> Qc) (l : list A) :
  l <> [] -> exists x, In x l /\ forall y, In y l -> key y <= key x.
Proof.
  induction l as [|a l IH]; [congruence|]. intros _.
  destruct l as [|b l'].
  - exists a. split; [now left|].
    intros y [<-|[]]. apply Qcle_refl.
  - destruct IH as (m & Hm & Hmax); [discriminate|].
    destruct (Qclt_le_dec (key m) (key a)) as [L|L].
    + exists a. split; [now left|].
      intros y [<-|Hy]; [apply Qcle_refl|].
      eapply Qcle_trans; [apply Hmax, Hy|now apply Qclt_le_weak].
    + exists m. split; [now right|].
      intros y [<-|Hy]; [exact L|now apply Hmax].
Qed.

Section ValidatorBounds.
Import DataProcessor.

(** With non-negative stakes every stake percentage lies between 0 and
    100. *)
Theorem percentage_bounds validators_info network_info rows :
  _process_validators validators_info network_info = Ok rows ->
  Forall (fun r => 0 <= stake_of r) rows ->
  Forall (fun r => 0 <= percentage_of r /\ percentage_of r <= hundred) rows.
Proof.
  intros H Hpos. apply percentages_of_run in H.
  set (total := Qsum (map stake_of rows)) in *.
  apply Forall_forall. intros r Hr.
  rewrite Forall_forall in H, Hpos. rewrite (H r Hr).
  destruct (Qc_ltb 0 total) eqn:E.
  - apply Qc_ltb_lt in E. split.
    + replace 0 with (0 / total * hundred)
        by (unfold Qcdiv; now rewrite !Qcmult_0_l).
      apply share_mono; [exact E|now apply Hpos].
    + rewrite <- (share_whole total E) at 2.
      apply share_mono; [exact E|].
      apply Qsum_ge_member.
      * apply Forall_map, Forall_forall, Hpos.
      * now apply in_map.
  - split; [apply Qcle_refl|apply Qclt_le_weak, hundred_pos].
Qed.

Lemma percentage_bounds_witness :
  Forall (fun r => 0 <= percentage_of r /\ percentage_of r <= hundred)
         Samples.three_rows.
Proof.
  apply (percentage_bounds Samples.three_validators
                           Samples.no_network_info).
  - vm_compute. reflexivity.
  - repeat (constructor; [vm_compute; discriminate|]). constructor.
Defined.

(** Ranks run from 1 to the number of validators, and a non-empty frame
    has a validator of rank 1. *)
Theorem rank_bounds validators_info network_info rows :
  _process_validators validators_info network_info = Ok rows ->
  (forall r, In r rows ->
     (1 <= rank r <= Z.of_nat (List.length rows))%Z) /\
  (rows <> [] -> exists r, In r rows /\ rank r = 1%Z).
Proof.
  intros H. pose proof (rank_of_run _ _ _ H) as R. split.
  - intros r Hr. rewrite (R r Hr).
    assert (L := count_greater_lt_length (stake_of r) (map stake_of rows)
                   (in_map stake_of rows r Hr)).
    rewrite length_map in L. lia.
  - intros Hne. destruct (exists_largest stake_of rows Hne) as (m & Hm & Hmax).
    exists m. split; [exact Hm|].
    rewrite (R m Hm), count_greater_none; [reflexivity|].
    apply Forall_forall. intros x Hx. apply in_map_iff in Hx.
    destruct Hx as (y & <- & Hy). now apply Hmax.
Qed.

Lemma rank_bounds_witness :
  (forall r, In r Samples.three_rows ->
     (1 <= rank r <= Z.of_nat (List.length Samples.three_rows))%Z) /\
  (Samples.three_rows <> [] ->
   exists r, In r Samples.three_rows /\ rank r = 1%Z).
Proof.
  apply (rank_bounds Samples.three_validators Samples.no_network_info).
  vm_compute. reflexivity.
Defined.

End ValidatorBounds.

(** ** Rounding and the estimated yield *)

Lemma Z2Qc_plus (a b : Z) : Z2Qc (a + b) = Z2Qc a + Z2Qc b.
Proof.
  unfold Z2Qc, Qcplus. apply Q2Qc_eq_iff. cbn [this Q2Qc].
  rewrite !Qred_correct, inject_Z_plus. reflexivity.
Qed.

Lemma Z2Qc_le (a b : Z) : (a <= b)%Z -> Z2Qc a <= Z2Qc b.
Proof.
  intros H. unfold Qcle, Z2Qc, Q2Qc. cbn [this].
  rewrite !Qred_correct. now rewrite <- Zle_Qle.
Qed.

Lemma half_literal : Z2Qc 1 / Z2Qc 2 = Q2Qc (1 # 2).
Proof. apply Qc_is_canon. reflexivity. Qed.

Lemma over_hundred (q : Qc) : q / hundred = q * Q2Qc (1 # 100).
Proof.
  unfold Qcdiv.
  replace (/ hundred) with (Q2Qc (1 # 100))
    by (apply Qc_is_canon; reflexivity).
  reflexivity.
Qed.

Lemma hundred_literal : hundred = Q2Qc (100 # 1).
Proof. apply Qc_is_canon. reflexivity. Qed.

Lemma floor_le (q : Qc) : Z2Qc (Qfloor q) <= q.
Proof.
  unfold Qcle, Z2Qc, Q2Qc. cbn [this]. rewrite Qred_correct.
  apply Qfloor_le.
Qed.

Lemma lt_floor (q : Qc) : q < Z2Qc (Qfloor q) + Q2Qc (1 # 1).
Proof.
  unfold Qclt, Qcplus, Z2Qc, Q2Qc. cbn [this]. rewrite !Qred_correct.
  pose proof (Qlt_floor q) as H. rewrite inject_Z_plus in H. exact H.
Qed.

Ltac qc_to_q :=
  unfold Qcle, Qclt, Qcminus, Qcplus, Qcmult, Qcopp, Q2Qc in *;
  cbn [this] in *; rewrite ?Qred_correct in *.

(** [rint] is one of the two integers around its argument and at most a
    half away from it. *)
Lemma rint_close (q : Qc) :
  (rint q = Qfloor q \/ rint q = Qfloor q + 1)%Z /\
  q - Q2Qc (1 # 2) <= Z2Qc (rint q) /\
  Z2Qc (rint q) <= q + Q2Qc (1 # 2).
Proof.
  unfold rint. rewrite half_literal.
  pose proof (floor_le q) as Hlo. pose proof (lt_floor q) as Hhi.
  set (f := Qfloor q) in *.
  destruct (Qc_ltb (q - Z2Qc f) (Q2Qc (1 # 2))) eqn:E1;
    [apply Qc_ltb_lt in E1|apply Qc_ltb_ge in E1].
  - split; [now left|]. generalize dependent (Z2Qc f). intros z Hlo Hhi E1.
    qc_to_q. split; lra.
  - destruct (Qc_ltb (Q2Qc (1 # 2)) (q - Z2Qc f)) eqn:E2;
      [apply Qc_ltb_lt in E2|apply Qc_ltb_ge in E2].
    + split; [now right|]. rewrite Z2Qc_plus.
      replace (Z2Qc 1) with (Q2Qc (1 # 1)) by (apply Qc_is_canon; reflexivity).
      generalize dependent (Z2Qc f). intros z Hlo Hhi E1 E2.
      qc_to_q. split; lra.
    + destruct (Z.even f).
      * split; [now left|].
        generalize dependent (Z2Qc f). intros z Hlo Hhi E1 E2.
        qc_to_q. split; lra.
      * split; [now right|]. rewrite Z2Qc_plus.
        replace (Z2Qc 1) with (Q2Qc (1 # 1))
          by (apply Qc_is_canon; reflexivity).
        generalize dependent (Z2Qc f). intros z Hlo Hhi E1 E2.
        qc_to_q. split; lra.
Qed.

Lemma Qfloor_Z2Qc (n : Z) : Qfloor (Z2Qc n) = n.
Proof.
  unfold Z2Qc, Q2Qc. cbn [this].
  rewrite (Qfloor_comp _ _ (Qred_correct (inject_Z n))). apply Qfloor_Z.
Qed.

Lemma rint_Z2Qc (n : Z) : rint (Z2Qc n) = n.
Proof.
  unfold rint. rewrite Qfloor_Z2Qc.
  replace (Z2Qc n - Z2Qc n) with 0 by ring.
  now replace (Qc_ltb 0 (Z2Qc 1 / Z2Qc 2)) with true by reflexivity.
Qed.

Lemma rint_cases (q : Qc) :
  (q - Z2Qc (Qfloor q) < Q2Qc (1 # 2) /\ rint q = Qfloor q) \/
  (Q2Qc (1 # 2) < q - Z2Qc (Qfloor q) /\ rint q = (Qfloor q + 1)%Z) \/
  (Q2Qc (1 # 2) <= q - Z2Qc (Qfloor q) /\
   q - Z2Qc (Qfloor q) <= Q2Qc (1 # 2) /\
   rint q = if Z.even (Qfloor q) then Qfloor q else (Qfloor q + 1)%Z).
Proof.
  unfold rint. rewrite half_literal.
  destruct (Qc_ltb (q - Z2Qc (Qfloor q)) (Q2Qc (1 # 2))) eqn:E1.
  - left. apply Qc_ltb_lt in E1. auto.
  - apply Qc_ltb_ge in E1.
    destruct (Qc_ltb (Q2Qc (1 # 2)) (q - Z2Qc (Qfloor q))) eqn:E2.
    + right. left. apply Qc_ltb_lt in E2. auto.
    + right. right. apply Qc_ltb_ge in E2. auto.
Qed.

Lemma rint_mono (a b : Qc) : a <= b -> (rint a <= rint b)%Z.
Proof.
  intros Hab.
  assert (Hf : (Qfloor a <= Qfloor b)%Z) by now apply Qfloor_resp_le.
  destruct (Z.eq_dec (Qfloor a) (Qfloor b)) as [E|N].
  - pose proof (rint_cases a) as Ca. pose proof (rint_cases b) as Cb.
    rewrite <- E in Cb.
    generalize dependent (Z2Qc (Qfloor a)). intros z Ca Cb.
    destruct Ca as [(A1 & ->)|[(A1 & ->)|(A1 & A2 & ->)]];
      destruct Cb as [(B1 & ->)|[(B1 & ->)|(B1 & B2 & ->)]];
      destruct (Z.even (Qfloor a)); try lia;
      exfalso; qc_to_q; lra.
  - destruct (rint_close a) as ([Ha|Ha] & _);
      destruct (rint_close b) as ([Hb|Hb] & _); lia.
Qed.

Lemma round2_mono (a b : Qc) : a <= b -> round2 a <= round2 b.
Proof.
  intros Hab. unfold round2. rewrite !over_hundred.
  apply Qcmult_le_compat_r; [|discriminate].
  apply Z2Qc_le, rint_mono.
  apply Qcmult_le_compat_r; [exact Hab|apply Qclt_le_weak, hundred_pos].
Qed.

(** [round(2)] moves a value by at most half a hundredth. *)
Lemma round2_close (q : Qc) :
  q - Q2Qc (1 # 200) <= round2 q /\ round2 q <= q + Q2Qc (1 # 200).
Proof.
  unfold round2. rewrite over_hundred.
  destruct (rint_close (q * hundred)) as (_ & Hlo & Hhi).
  set (z := Z2Qc (rint (q * hundred))) in *. clearbody z.
  rewrite hundred_literal in Hlo, Hhi.
  qc_to_q. split; lra.
Qed.

(** A whole number of hundredths is not changed. *)
Lemma round2_hundredths (n : Z) :
  round2 (Z2Qc n / hundred) = Z2Qc n / hundred.
Proof.
  unfold round2.
  replace (Z2Qc n / hundred * hundred) with (Z2Qc n).
  - now rewrite rint_Z2Qc.
  - unfold hundred. field. intros E. discriminate E.
Qed.

Lemma round2_idempotent (q : Qc) : round2 (round2 q) = round2 q.
Proof. unfold round2 at 2 3. apply round2_hundredths. Qed.

Lemma round2_zero : round2 0 = 0.
Proof. apply Qc_is_canon. reflexivity. Qed.

Section EstimatedYield.
Import DataProcessor.

(** The estimated yield of a validator is within half a hundredth of
    [rate * (1 - commission / 100)], where [rate] is the total inflation
    rate of the network info (8 when it has none); for a commission
    between 0 and 100 and a rate that is not negative it lies between 0
    and the rounded rate. *)
Theorem estimated_yield_bounds validators_info network_info rows
    rates total rate :
  _process_validators validators_info network_info = Ok rows ->
  py_get network_info "inflation_rate" (PDict []) = Ok rates ->
  py_get rates "total" (PFloat default_inflation_rate) = Ok total ->
  py_num total = Ok rate ->
  Forall
    (fun r => exists c,
       py_num (commission (entry r)) = Ok c /\
       rate * (1 - c / hundred) - Q2Qc (1 # 200) <= estimatedAPY r /\
       estimatedAPY r <= rate * (1 - c / hundred) + Q2Qc (1 # 200) /\
       (0 <= rate -> 0 <= c -> c <= hundred ->
        0 <= estimatedAPY r /\ estimatedAPY r <= round2 rate))
    rows.
Proof.
  unfold _process_validators. intros H Hrates Htotal Hrate. inv_bind H.
  apply add_metrics_inv in H. destruct H as (Hentry & _ & Hapy).
  destruct x4 as [|e0 df].
  - destruct rows; [constructor|discriminate Hentry].
  - destruct Hapy as (rates' & total' & rate' & Hr & Ht & Hn & Hall);
      [discriminate|].
    rewrite Hrates in Hr. injection Hr as <-.
    rewrite Htotal in Ht. injection Ht as <-.
    rewrite Hrate in Hn. injection Hn as <-.
    eapply Forall_impl; [|exact Hall].
    intros r Hr. unfold estimated_apy in Hr. inv_bind Hr.
    injection Hr as Hr. exists x4. split; [assumption|].
    rewrite <- Hr.
    destruct (round2_close (rate * (1 - x4 / hundred))) as [Hlo Hhi].
    repeat split; try assumption.
    + rewrite <- round2_zero. apply round2_mono.
      rewrite over_hundred in *. rewrite hundred_literal in *.
      clear -H H0 H1. qc_to_q. nra.
    + apply round2_mono.
      rewrite over_hundred in *. rewrite hundred_literal in *.
      clear -H H0 H1. qc_to_q. nra.
Qed.

End EstimatedYield.

Lemma estimated_yield_bounds_witness :
  Forall
    (fun r => exists c,
       py_num (DataProcessor.commission (DataProcessor.entry r)) = Ok c /\
       DataProcessor.default_inflation_rate * (1 - c / hundred)
         - Q2Qc (1 # 200) <= DataProcessor.estimatedAPY r /\
       DataProcessor.estimatedAPY r
         <= DataProcessor.default_inflation_rate * (1 - c / hundred)
            + Q2Qc (1 # 200) /\
       (0 <= DataProcessor.default_inflation_rate -> 0 <= c ->
        c <= hundred ->
        0 <= DataProcessor.estimatedAPY r /\
        DataProcessor.estimatedAPY r
          <= round2 DataProcessor.default_inflation_rate))
    Samples.three_rows.
Proof.
  apply (estimated_yield_bounds Samples.three_validators
           Samples.no_network_info Samples.three_rows (PDict [])
           (PFloat DataProcessor.default_inflation_rate)
           DataProcessor.default_inflation_rate).
  - vm_compute. reflexivity.
  - reflexivity.
  - reflexivity.
  - reflexivity.
Defined.

(** ** Epoch progress and concentration *)

Section NetworkSummary.
Import DataProcessor.

(** For integer slot counters with [0 <= slotIndex <= slotsInEpoch] the
    progress is [slotIndex / slotsInEpoch * 100], between 0 and 100, and
    0 for an epoch without slots (nothing is divided by zero); the time
    remaining is [(slotsInEpoch - slotIndex) * 0.4 / 3600] hours and is
    not negative. *)
Theorem epoch_progress_bounds network_info rows s epoch_info slots index :
  _process_network_info network_info rows = Ok s ->
  py_get network_info "epoch_info" (PDict []) = Ok epoch_info ->
  py_get epoch_info "slotsInEpoch" (PInt 0) = Ok (PInt slots) ->
  py_get epoch_info "slotIndex" (PInt 0) = Ok (PInt index) ->
  (0 <= index <= slots)%Z ->
  epoch_progress_percentage s
  = (if (0 <? slots)%Z then Z2Qc index / Z2Qc slots * hundred else 0) /\
  0 <= epoch_progress_percentage s /\
  epoch_progress_percentage s <= hundred /\
  epoch_hours_remaining s
  = Z2Qc (slots - index) * seconds_per_slot / seconds_per_hour /\
  0 <= epoch_hours_remaining s.
Proof.
  unfold _process_network_info. intros H Hei Hslots Hindex Hrange.
  inv_bind H. injection H as <-.
  cbn [epoch_progress_percentage epoch_hours_remaining].
  rewrite Hei in E. injection E as <-.
  rewrite Hslots in E1. injection E1 as <-.
  rewrite Hindex in E2. injection E2 as <-.
  rewrite aggregator_hours_remaining in E5. injection E5 as <-.
  unfold py_gt0 in E3. cbn [py_num rbind] in E3. injection E3 as <-.
  assert (Hpos : Qc_ltb 0 (Z2Qc slots) = (0 <? slots)%Z).
  { destruct (0 <? slots)%Z eqn:L.
    - apply Z.ltb_lt in L. apply Qc_ltb_lt.
      unfold Qclt, Z2Qc, Q2Qc. cbn [this]. rewrite !Qred_correct.
      change (inject_Z 0 < inject_Z slots)%Q. now rewrite <- Zlt_Qlt.
    - apply Z.ltb_ge in L. apply Qc_ltb_ge.
      change (Z2Qc slots <= Z2Qc 0). now apply Z2Qc_le. }
  rewrite Hpos in E4.
  assert (Hhours : 0 <= Z2Qc (slots - index) * seconds_per_slot
                        / seconds_per_hour).
  { unfold Qcdiv. rewrite <- Qcmult_assoc.
    replace 0 with (Z2Qc 0 * (seconds_per_slot * / seconds_per_hour))
      by apply Qcmult_0_l.
    apply Qcmult_le_compat_r; [apply Z2Qc_le; lia|discriminate]. }
  destruct (0 <? slots)%Z eqn:L.
  - apply Z.ltb_lt in L.
    assert (Hs : 0 < Z2Qc slots).
    { apply Qc_ltb_lt. rewrite Hpos. reflexivity. }
    unfold py_truediv in E4. cbn [py_num rbind] in E4.
    replace (Qc_eqb (Z2Qc slots) 0) with false in E4.
    2:{ symmetry. destruct (Qc_eqb (Z2Qc slots) 0) eqn:Z; [|reflexivity].
        apply Qc_eqb_eq in Z. rewrite Z in Hs. discriminate Hs. }
    cbn [rbind] in E4. injection E4 as <-.
    repeat split; try assumption.
    + replace 0 with (Z2Qc 0 / Z2Qc slots * hundred)
        by (unfold Qcdiv; now rewrite !Qcmult_0_l).
      apply share_mono; [exact Hs|apply Z2Qc_le; lia].
    + rewrite <- (share_whole (Z2Qc slots) Hs) at 2.
      apply share_mono; [exact Hs|apply Z2Qc_le; lia].
  - injection E4 as <-.
    repeat split; try assumption;
      [apply Qcle_refl|apply Qclt_le_weak, hundred_pos].
Qed.

Lemma epoch_progress_bounds_witness :
  exists s,
    _process_network_info Samples.epoch_network_info Samples.three_rows
      = Ok s /\
    epoch_progress_percentage s
    = (if (0 <? 432000)%Z
       then Z2Qc 216000 / Z2Qc 432000 * hundred else 0) /\
    0 <= epoch_progress_percentage s /\
    epoch_progress_percentage s <= hundred /\
    epoch_hours_remaining s
    = Z2Qc (432000 - 216000) * seconds_per_slot / seconds_per_hour /\
    0 <= epoch_hours_remaining s.
Proof.
  eexists. split; [vm_compute; reflexivity|].
  apply (epoch_progress_bounds Samples.epoch_network_info
           Samples.three_rows _ Samples.epoch_info 432000%Z 216000%Z).
  - vm_compute. reflexivity.
  - reflexivity.
  - reflexivity.
  - reflexivity.
  - lia.
Defined.

(** The concentration figures of a small frame coincide: with at most
    10 validators all three are computed from the same rows, with at
    most 20 the last two are; for the empty frame all three are 0. *)
Theorem small_set_concentration network_info rows s :
  _process_network_info network_info rows = Ok s ->
  ((List.length rows <= 10)%nat ->
   concentration_top10 s = concentration_top20 s /\
   concentration_top20 s = concentration_top50 s) /\
  ((List.length rows <= 20)%nat ->
   concentration_top20 s = concentration_top50 s) /\
  (rows = [] ->
   concentration_top10 s = 0 /\ concentration_top20 s = 0 /\
   concentration_top50 s = 0).
Proof.
  intros H. apply concentration_of_run in H.
  destruct H as (-> & -> & -> & _).
  assert (Hall : forall n m, (List.length rows <= n)%nat ->
            (List.length rows <= m)%nat ->
            stake_top n (sort_desc stake_of rows) (Qsum (map stake_of rows))
            = stake_top m (sort_desc stake_of rows)
                (Qsum (map stake_of rows))).
  { intros n m Hn Hm. unfold stake_top, head.
    rewrite !firstn_all2; [reflexivity| |];
      rewrite (Permutation_length (sort_desc_perm stake_of rows));
      assumption. }
  split; [|split].
  - intros Hn. destruct rows as [|r0 rows'] eqn:Er; [auto|].
    rewrite <- Er in *. split; apply Hall; lia.
  - intros Hn. destruct rows as [|r0 rows'] eqn:Er; [auto|].
    rewrite <- Er in *. apply Hall; lia.
  - intros ->. auto.
Qed.

Lemma small_set_concentration_witness :
  exists s,
    _process_network_info Samples.no_network_info Samples.three_rows = Ok s
    /\ concentration_top10 s = concentration_top20 s
    /\ concentration_top20 s = concentration_top50 s.
Proof.
  eexists. split; [vm_compute; reflexivity|].
  apply (proj1 (small_set_concentration Samples.no_network_info
                  Samples.three_rows _ ltac:(vm_compute; reflexivity))).
  cbn. lia.
Defined.

End NetworkSummary.

(** ** Stake accounts: totals and negative balances *)

Section StakeTotals.
Import DataProcessor.



Lemma stake_accounts_run items info :
  _process_stake_accounts (PList items) = Ok info ->
  exists df,
    mapM process_stake_account items = Ok df /\
    info = match df with
           | [] => empty_stake_info
           | _ :: _ =>
               {| total_stake := Qsum (map balance df);
                  total_accounts := Z.of_nat (List.length df);
                  distribution_categories := labels;
                  distribution_counts :=
                    map (group_count df) category_indices;
                  distribution_amounts :=
                    map (group_total_sol df) category_indices;
                  accounts := firstn 100 df |}
           end.
Proof.
  unfold _process_stake_accounts. destruct items as [|a items'].
  - intros H. injection H as <-. exists []. auto.
  - cbn [py_truthy negb py_iter rbind]. intros H. inv_bind H.
    exists x. split; [assumption|].
    destruct x; injection H as <-; reflexivity.
Qed.

Lemma sample_balances items df :
  mapM process_stake_account items = Ok df ->
  map sample_balance items = map balance df.
Proof.
  intros H. apply mapM_Forall2 in H.
  induction H as [|a e items df Ha _ IH]; simpl.
  - reflexivity.
  - unfold sample_balance at 1. now rewrite Ha, IH.
Qed.

Lemma mapM_firstn {A B} (f : A -> result B) n l l' :
  mapM f l = Ok l' -> mapM f (firstn n l) = Ok (firstn n l').
Proof.
  intros H. apply mapM_Forall2 in H. revert n.
  induction H as [|x y l l' Hxy _ IH]; intros [|n]; simpl; try reflexivity.
  now rewrite Hxy, IH.
Qed.

(** The totals count every sample, while the list of accounts that is
    handed on holds the first 100 samples only. *)
Theorem stake_totals_and_sample items info :
  _process_stake_accounts (PList items) = Ok info ->
  total_stake info = Qsum (map sample_balance items) /\
  total_accounts info = Z.of_nat (List.length items) /\
  mapM process_stake_account (firstn 100 items) = Ok (accounts info) /\
  List.length (accounts info) = Nat.min 100 (List.length items).
Proof.
  intros H. destruct (stake_accounts_run items info H) as (df & Hdf & ->).
  rewrite (sample_balances items df Hdf).
  pose proof (mapM_length _ _ _ Hdf) as L.
  pose proof (mapM_firstn _ 100 _ _ Hdf) as F.
  destruct df as [|e df'].
  - destruct items; [|discriminate L].
    repeat split; reflexivity.
  - cbn [total_stake total_accounts accounts].
    repeat split; try assumption.
    + now rewrite L.
    + rewrite length_firstn. now rewrite L.
Qed.

Lemma stake_totals_and_sample_witness :
  exists info,
    _process_stake_accounts (PList Samples.many_accounts) = Ok info /\
    total_stake info = Qsum (map sample_balance Samples.many_accounts) /\
    total_accounts info = Z.of_nat (List.length Samples.many_accounts) /\
    mapM process_stake_account (firstn 100 Samples.many_accounts)
      = Ok (accounts info) /\
    List.length (accounts info)
      = Nat.min 100 (List.length Samples.many_accounts).
Proof.
  eexists. split; [vm_compute; reflexivity|].
  apply (stake_totals_and_sample Samples.many_accounts).
  vm_compute. reflexivity.
Defined.



End StakeTotals.

(** ** Validators served from the cache *)

Section CachedValidators.
Import DataProcessor.

(** A cached validator that reaches the aggregator has its stake, stored
    in tokens, divided by [10**9] again, and its credits are 0: the
    record has no ['epochCredits'] key. *)
Theorem cached_validator_is_converted_again current total v rank e :
  process_validator current total (Database.record v rank) = Ok e ->
  activatedStake e = Database.activated_stake v / lamports_per_sol /\
  credits e = PInt 0 /\
  nodePubkey e = Database.node_pubkey v /\
  votePubkey e = Database.vote_pubkey v /\
  commission e = Database.commission v.
Proof.
  intros H.
  destruct (process_validator_inv _ _ _ _ H) as (Hs & _ & ec & Hec & Hc).
  destruct (process_validator_fields _ _ _ _ H) as (Hn & Hv & Hco & _).
  unfold activated_stake_sol in Hs.
  cbn in Hs, Hec, Hn, Hv, Hco.
  injection Hs as <-. injection Hec as <-. injection Hn as <-.
  injection Hv as <-. injection Hco as <-.
  unfold current_epoch_credits in Hc. cbn [py_truthy] in Hc.
  injection Hc as <-. auto.
Qed.

Lemma cached_validator_is_converted_again_witness :
  exists e,
    process_validator (PList []) (Z2Qc 100)
      (Database.record Samples.cached_validator 1) = Ok e /\
    activatedStake e
    = Database.activated_stake Samples.cached_validator / lamports_per_sol
    /\ credits e = PInt 0
    /\ nodePubkey e = Database.node_pubkey Samples.cached_validator
    /\ votePubkey e = Database.vote_pubkey Samples.cached_validator
    /\ commission e = Database.commission Samples.cached_validator.
Proof.
  eexists. split; [vm_compute; reflexivity|].
  apply (cached_validator_is_converted_again (PList []) (Z2Qc 100)
           Samples.cached_validator 1%Z).
  vm_compute. reflexivity.
Defined.

End CachedValidators.

Lemma filter_none {A} (f : A -> bool) (l : list A) :
  (forall x, In x l -> f x = false) -> filter f l = [].
Proof.
  induction l as [|x l IH]; intros H; [reflexivity|].
  cbn [filter]. rewrite (H x (or_introl eq_refl)).
  apply IH. intros y Hy. apply H. now right.
Qed.

Section ClientCache.
Import SolanaClient.
Context {Remote Store : Type}.
Variable post : string -> pyval -> Remote -> result response * Remote.
Variable latest_epoch_rows : Store -> option (list Database.ValidatorInfo).
Variable get_latest_network_info : Store -> option pyval.
Variable get_latest_stake_data : Z -> Store -> option pyval.
Variable store_network_info : pyval -> Store -> result unit * Store.
Variable store_stake_accounts :
  DataProcessor.stake_info -> pyval -> Store -> result unit * Store.

Local Abbreviation world := (@world Remote Store).
Local Abbreviation rpc := (_make_rpc_request post).
Local Abbreviation get_stake_accounts :=
  (get_stake_accounts post get_latest_stake_data store_stake_accounts).
Local Abbreviation get_validators :=
  (get_validators post latest_epoch_rows).
Local Abbreviation get_network_info :=
  (get_network_info post latest_epoch_rows get_latest_network_info
                    store_network_info).
Local Abbreviation refresh :=
  (App.refresh post latest_epoch_rows get_latest_network_info
               get_latest_stake_data store_network_info
               store_stake_accounts).

(** A frame of the aggregator that is written to the validator table
    comes back from the cache as two empty lists, without a call to the
    remote: the cache is filtered on the statuses ['current'] and
    ['delinquent'], the aggregator writes ['Active'] and ['Delinquent'].
    The aggregator then builds an empty frame from it. *)
Theorem cached_frame_has_no_validators (w : world) validators_info
    network_info rows epoch :
  DataProcessor._process_validators validators_info network_info = Ok rows ->
  rows <> [] ->
  latest_epoch_rows (store w) = Some (Cache.validator_records rows epoch) ->
  get_validators true w
  = (Ok (PDict [("current", PList []); ("delinquent", PList [])]), w) /\
  DataProcessor._process_validators
    (PDict [("current", PList []); ("delinquent", PList [])]) network_info
  = Ok [].
Proof.
  clear store_network_info.
  intros Hrows Hne Hlatest. split; [|reflexivity].
  assert (Hstatus : forall v, In v (Cache.validator_records rows epoch) ->
            Database.status v = "Active" \/ Database.status v = "Delinquent").
  { apply process_validators_inv in Hrows.
    destruct Hrows as (cur & del & both & all & stakes & _ & _ & _ & _ & _
                       & Hrows & _).
    assert (F : Forall (fun r => DataProcessor.status (DataProcessor.entry r)
                                 = "Active"
                                 \/ DataProcessor.status
                                      (DataProcessor.entry r) = "Delinquent")
                       rows).
    { eapply Forall2_right; [|exact Hrows].
      intros v r Hv. apply process_validator_fields in Hv. tauto. }
    intros v Hv. unfold Cache.validator_records in Hv.
    apply in_map_iff in Hv. destruct Hv as (r & <- & Hr).
    rewrite Forall_forall in F. exact (F r Hr). }
  unfold SolanaClient.get_validators, bind, read_store. rewrite Hlatest.
  unfold Database.get_latest_validators_data.
  destruct (Cache.validator_records rows epoch) as [|v0 vs] eqn:Ev.
  { destruct rows; [congruence|discriminate Ev]. }
  rewrite <- Ev in *. unfold ret, records_with_status.
  rewrite !filter_none; [reflexivity| |].
  - intros [v k] Hin. apply in_combine_l in Hin. cbn [fst].
    destruct (Hstatus v Hin) as [-> | ->]; reflexivity.
  - intros [v k] Hin. apply in_combine_l in Hin. cbn [fst].
    destruct (Hstatus v Hin) as [-> | ->]; reflexivity.
Qed.

(** The outcome of one remote call whose body decodes to an object: a
    status other than 200 fails whatever the body is, an ['error'] entry
    wins over a ['result'] entry, and a body with neither raises
    [KeyError].  The call changes the remote only. *)
Theorem rpc_request_outcomes method params (w : world) resp rem d :
  post method (params_or_empty params) (remote w) = (Ok resp, rem) ->
  json resp = Ok (PDict d) ->
  rpc method params w
  = (if negb (status_code resp =? 200)%Z
     then Err (RpcStatusFailure (status_code resp) (text resp))
     else match assoc "error" d with
          | Some err => Err (RpcError err)
          | None =>
              match assoc "result" d with
              | Some result => Ok result
              | None => Err KeyError
              end
          end,
     {| remote := rem; store := store w; stdout := stdout w |}).
Proof.
  intros Hpost Hjson.
  unfold _make_rpc_request, bind, on_remote, raise, lift.
  rewrite Hpost. cbn.
  destruct (negb (status_code resp =? 200)%Z); [reflexivity|].
  rewrite Hjson. cbn.
  destruct (assoc "error" d); [reflexivity|].
  destruct (assoc "result" d); reflexivity.
Qed.

(** One entry through the stake table and back into the aggregator. *)
Lemma entry_through_cache epoch (e : DataProcessor.stake_entry) :
  cacheable e ->
  exists account e',
    uncache_account (Cache.account_data (Cache.stake_record epoch e))
      = Ok account /\
    DataProcessor.process_stake_account account = Ok e' /\
    DataProcessor.pubkey e' = DataProcessor.pubkey e /\
    DataProcessor.parsed e' = info_left (DataProcessor.parsed e).
Proof.
  intros Hp. destruct e as [p b x]. unfold cacheable in Hp. cbn in Hp.
  unfold Cache.account_data, Cache.stake_record, uncache_account.
  cbn [Cache.pubkey Cache.balance Cache.parsed_data DataProcessor.pubkey
       DataProcessor.balance DataProcessor.parsed].
  cbn [py_getitem assoc String.eqb Ascii.eqb Bool.eqb rbind].
  replace (py_mul (PFloat b) (PFloat lamports_per_sol))
    with (Ok (PFloat (b * lamports_per_sol))) by reflexivity.
  cbn [rbind py_int].
  set (l := Z.quot _ _). clearbody l.
  assert (Hprocess : forall parsed' info_value,
            py_get parsed' "info" (PDict []) = Ok info_value ->
            DataProcessor.process_stake_account
              (PDict [("pubkey", p);
                      ("account",
                       PDict [("lamports", PInt l);
                              ("data", PDict [("parsed", parsed')])])])
            = Ok {| DataProcessor.pubkey := p;
                    DataProcessor.balance := Z2Qc l / lamports_per_sol;
                    DataProcessor.parsed := info_value |}).
  { intros parsed' info_value Hinfo.
    unfold DataProcessor.process_stake_account.
    replace (py_get _ "pubkey" (PStr "Unknown")) with (Ok p)
      by reflexivity.
    cbn [rbind].
    replace (py_get (PDict [("pubkey", p);
                      ("account",
                       PDict [("lamports", PInt l);
                              ("data", PDict [("parsed", parsed')])])])
                    "account" (PDict []))
      with (Ok (PDict [("lamports", PInt l);
                       ("data", PDict [("parsed", parsed')])]))
      by reflexivity.
    cbn [rbind].
    replace (py_get (PDict [("lamports", PInt l);
                            ("data", PDict [("parsed", parsed')])])
                    "lamports" (PInt 0))
      with (Ok (PInt l)) by reflexivity.
    cbn [rbind].
    replace (py_truediv (PInt l) (PInt 1000000000))
      with (Ok (Z2Qc l / lamports_per_sol)) by reflexivity.
    cbn [rbind].
    replace (py_get (PDict [("lamports", PInt l);
                            ("data", PDict [("parsed", parsed')])])
                    "data" (PDict []))
      with (Ok (PDict [("parsed", parsed')])) by reflexivity.
    cbn [rbind is_dict].
    replace (py_contains "parsed" (PDict [("parsed", parsed')]))
      with (Ok true) by reflexivity.
    cbn [rbind].
    replace (py_get (PDict [("parsed", parsed')]) "parsed" (PDict []))
      with (Ok parsed') by reflexivity.
    cbn [rbind]. rewrite Hinfo. reflexivity. }
  destruct (py_truthy x) eqn:Hx.
  - destruct Hp as [Hp | [info ->]]; [discriminate Hp|].
    rewrite Hx. cbn [rbind]. eexists. eexists.
    split; [reflexivity|]. split.
    + apply (Hprocess _ (info_left (PDict info))).
      unfold py_get, info_left.
      destruct (assoc "info" info); reflexivity.
    + split; reflexivity.
  - cbn [rbind]. eexists. eexists.
    split; [reflexivity|]. split.
    + now apply Hprocess.
    + split; [reflexivity|]. cbn [DataProcessor.parsed].
      destruct x as [| | | | |l0|d]; try reflexivity.
      destruct d; [reflexivity|discriminate Hx].
Qed.

Lemma cached_accounts (rows : list Cache.StakeAccount) :
  rows <> [] ->
  exists d,
    Cache.get_latest_stake_data (Some rows) = Some d /\
    py_get d "accounts" (PList [])
    = Ok (PList (map Cache.account_data rows)).
Proof.
  intros H. destruct rows as [|r rows]; [congruence|].
  eexists. split; reflexivity.
Qed.

(** If the stake table holds the records that are built from entries
    of the aggregator, the cached branch of the stake-account fetch
    answers without a call to the remote, and the aggregator rebuilds
    from its answer, entry by entry, the same pubkey; of the parsed
    metadata only its own ['info'] entry is left. *)
Theorem stake_cache_round_trip (w : world) limit epoch entries :
  entries <> [] ->
  Forall cacheable entries ->
  get_latest_stake_data limit (store w)
  = Cache.get_latest_stake_data
      (Some (map (Cache.stake_record epoch) entries)) ->
  exists accounts entries',
    get_stake_accounts true limit w = (Ok (PList accounts), w) /\
    mapM DataProcessor.process_stake_account accounts = Ok entries' /\
    Forall2
      (fun e e' =>
         DataProcessor.pubkey e' = DataProcessor.pubkey e /\
         DataProcessor.parsed e' = info_left (DataProcessor.parsed e))
      entries entries'.
Proof.
  intros Hne Hall Hlatest.
  assert (Hmap : exists accounts entries',
            mapM uncache_account
                 (map Cache.account_data
                      (map (Cache.stake_record epoch) entries))
            = Ok accounts /\
            mapM DataProcessor.process_stake_account accounts
            = Ok entries' /\
            Forall2
              (fun e e' =>
                 DataProcessor.pubkey e' = DataProcessor.pubkey e /\
                 DataProcessor.parsed e'
                 = info_left (DataProcessor.parsed e))
              entries entries').
  { clear Hne Hlatest.
    induction Hall as [|e entries He _ (accounts & es' & Hu & Hp & Hrel)].
    - exists [], []. repeat split; constructor.
    - destruct (entry_through_cache epoch e He)
        as (a & e' & Ha & Hpa & Hkey & Hinfo).
      exists (a :: accounts), (e' :: es'). cbn [map mapM].
      rewrite Ha, Hu, Hpa, Hp.
      split; [reflexivity|]. split; [reflexivity|].
      constructor; [split; assumption|exact Hrel]. }
  destruct Hmap as (accounts & es' & Hu & Hp & Hrel).
  exists accounts, es'. split; [|split; assumption].
  unfold SolanaClient.get_stake_accounts, bind, read_store.
  rewrite Hlatest.
  destruct (cached_accounts (map (Cache.stake_record epoch) entries))
    as (d & -> & Hd).
  { destruct entries; [congruence|discriminate]. }
  unfold lift. rewrite Hd.
  cbn [py_iter]. rewrite Hu. reflexivity.
Qed.

(** A refresh survives a failed stake-account scan: when the validators
    and the network info are fetched and the scan raises, the aggregator
    is built with an empty stake-account list, and its stake information
    is the empty one.  An error of the validator fetch ends the
    refresh. *)
Theorem refresh_survives_failed_scan :
  (forall (use_cache : bool) (w w1 w2 w3 : world) validators_info
          network_info e,
     get_validators use_cache w = (Ok validators_info, w1) ->
     get_network_info use_cache w1 = (Ok network_info, w2) ->
     (if use_cache then get_latest_stake_data 50 (store w2) else None)
       = None ->
     rpc "getProgramAccounts" (scan_params 50) w2 = (Err e, w3) ->
     refresh use_cache w
     = (DataProcessor.__init__ validators_info network_info (PList []),
        printed w3 (WarnGetStakeAccounts e)) /\
     forall t,
       DataProcessor.__init__ validators_info network_info (PList [])
         = Ok t ->
       DataProcessor.processed_stake_info t
       = DataProcessor.empty_stake_info) /\
  (forall (use_cache : bool) (w w1 : world) e,
     get_validators use_cache w = (Err e, w1) ->
     refresh use_cache w = (Err e, w1)).
Proof.
  split.
  - intros use_cache w w1 w2 w3 vi nd e Hv Hn Hmiss Hscan. split.
    + unfold App.refresh, bind. rewrite Hv, Hn.
      unfold SolanaClient.get_stake_accounts, bind.
      rewrite (cache_miss use_cache (get_latest_stake_data 50) w2 Hmiss).
      unfold catch, scan_stake_accounts, bind. rewrite Hscan.
      reflexivity.
    + intros t Ht. unfold DataProcessor.__init__ in Ht. inv_bind Ht.
      injection Ht as <-. cbn [DataProcessor.processed_stake_info].
      cbn in E1. congruence.
  - intros use_cache w w1 e Hv. unfold App.refresh, bind.
    now rewrite Hv.
Qed.

(** *** What a fetch writes *)

Lemma quiet_ret {A} (a : A) : quiet (@ret Remote Store A a).
Proof. intros w r w' H. now injection H as _ <-. Qed.

Lemma quiet_lift {A} (r : result A) : quiet (@lift Remote Store A r).
Proof. intros w r' w' H. now injection H as _ <-. Qed.

Lemma quiet_read_store {A} (f : Store -> A) :
  quiet (@read_store Remote Store A f).
Proof. intros w r w' H. now injection H as _ <-. Qed.

Lemma quiet_rpc method params :
  quiet (rpc method params : @M Remote Store pyval).
Proof.
  intros w r w' H. exact (proj1 (rpc_keeps_store post _ _ _ _ _ H)).
Qed.

Lemma quiet_bind {A B} (m : @M Remote Store A) (k : A -> @M Remote Store B) :
  quiet m -> (forall a, quiet (k a)) -> quiet (bind m k).
Proof.
  intros Hm Hk w r w' H. apply bind_inv in H.
  destruct H as [(a & w1 & H1 & H2)|(e & H1 & _)].
  - rewrite (Hk a _ _ _ H2). exact (Hm _ _ _ H1).
  - exact (Hm _ _ _ H1).
Qed.

Lemma quiet_get_validators (use_cache : bool) :
  quiet (get_validators use_cache : @M Remote Store pyval).
Proof.
  unfold SolanaClient.get_validators. apply quiet_bind.
  - destruct use_cache; [apply quiet_read_store|apply quiet_ret].
  - intros [cached|]; [apply quiet_ret|apply quiet_rpc].
Qed.

Lemma quiet_step {A B} (m : @M Remote Store A) (k : A -> @M Remote Store B)
    (w0 w w' : world) (r : result B) :
  quiet m ->
  store w = store w0 ->
  bind m k w = (r, w') ->
  (exists a w1, store w1 = store w0 /\ k a w1 = (r, w')) \/
  (store w' = store w0 /\ exists e, r = Err e).
Proof.
  intros Hm Hs H. apply bind_inv in H.
  destruct H as [(a & w1 & H1 & H2)|(e & H1 & ->)].
  - left. exists a, w1. split; [|exact H2].
    rewrite (Hm _ _ _ H1). exact Hs.
  - right. split; [|eauto]. rewrite (Hm _ _ _ H1). exact Hs.
Qed.

Ltac quiet_step :=
  match goal with
  | Same : store ?w = store ?w0,
    H : bind ?m ?k ?w = (?r, ?w') |- _ =>
      let a := fresh "a" in
      let w1 := fresh "w" in
      let Same1 := fresh "Same" in
      let H1 := fresh "H" in
      let Q := fresh "Q" in
      assert (Q : quiet m)
        by first [apply quiet_lift | apply quiet_rpc
                 | apply quiet_get_validators];
      destruct (quiet_step m k w0 w w' r Q Same H)
        as [(a & w1 & Same1 & H1)|(Same1 & a & H1)];
      clear Q Same H;
      [cbv beta zeta in H1|subst r; exact Same1]
  end.

Lemma fetch_network_info_effects (use_cache : bool) (w w' : world) r :
  SolanaClient.fetch_network_info post latest_epoch_rows store_network_info
    use_cache w = (r, w') ->
  match r with
  | Ok nd => store w' = snd (store_network_info nd (store w))
  | Err _ => store w' = store w
  end.
Proof.
  unfold SolanaClient.fetch_network_info, get_epoch_info, get_inflation_rate,
    get_supply.
  intros H.
  assert (Same : store w = store w) by reflexivity.
  revert Same H. generalize w at 1 3 as wi. intros wi Same H.
  repeat quiet_step.
  match goal with
  | Same : store ?wn = store w, H : bind _ _ ?wn = _ |- _ =>
      unfold bind, catch, on_store, print, printed, ret in H;
      rewrite Same in H;
      match type of H with
      | context [store_network_info ?pd (store w)] =>
          destruct (store_network_info pd (store w)) as [[[]|e] st] eqn:E;
          cbn in H; injection H as <- <-; rewrite E; reflexivity
      end
  end.
Qed.

(** On its RPC branch the network-info fetch changes the store by one
    call of the store function, on the dict it returns and on the store
    as it was when the fetch began: the remote calls and the validator
    fetch inside it write nothing.  When the fetch raises, it raises its
    own wrapped error and the store is as it was. *)
Theorem network_fetch_store_effect (use_cache : bool) (w w' : world) r :
  (if use_cache then get_latest_network_info (store w) else None) = None ->
  get_network_info use_cache w = (r, w') ->
  match r with
  | Ok nd => store w' = snd (store_network_info nd (store w))
  | Err e =>
      (exists cause, e = NetworkInfoFailure cause) /\ store w' = store w
  end.
Proof.
  intros Hmiss H.
  unfold SolanaClient.get_network_info, bind in H.
  rewrite (cache_miss use_cache get_latest_network_info w Hmiss) in H.
  unfold catch in H.
  destruct (SolanaClient.fetch_network_info post latest_epoch_rows
              store_network_info use_cache w) as [[nd|e] w1] eqn:Hfetch;
    apply fetch_network_info_effects in Hfetch.
  - injection H as <- <-. exact Hfetch.
  - unfold raise in H. injection H as <- <-. split; [eauto|exact Hfetch].
Qed.

(** Every dict the RPC branch of the network-info fetch builds has the
    fifteen nested entries the store reads by index: the record of the
    network table is built without a [KeyError], it carries the whole
    dict as its JSON column, and its validator counts are integers. *)
Theorem fetched_network_info_is_storable (use_cache : bool) (w w' : world)
    nd :
  (if use_cache then get_latest_network_info (store w) else None) = None ->
  get_network_info use_cache w = (Ok nd, w') ->
  exists record,
    Cache.network_record nd = Ok record /\
    Cache.data_json record = nd /\
    exists active delinquent,
      Cache.active_validators record = PInt active /\
      Cache.delinquent_validators record = PInt delinquent.
Proof.
  intros Hmiss H.
  unfold SolanaClient.get_network_info, bind in H.
  rewrite (cache_miss use_cache get_latest_network_info w Hmiss) in H.
  unfold catch in H.
  destruct (SolanaClient.fetch_network_info post latest_epoch_rows
              store_network_info use_cache w) as [[nd'|e] w1] eqn:Hfetch;
    [|discriminate H].
  injection H as -> _.
  unfold SolanaClient.fetch_network_info in Hfetch.
  repeat (apply bind_Ok in Hfetch;
          destruct Hfetch as (? & ? & _ & Hfetch); cbv beta zeta in Hfetch).
  unfold ret in Hfetch. injection Hfetch as <- _.
  eexists. split; [reflexivity|]. split; [reflexivity|].
  cbn [Cache.active_validators Cache.delinquent_validators]. eauto.
Qed.


End ClientCache.

Lemma cached_frame_has_no_validators_witness :
  SolanaClient.get_validators Samples.failing_post Samples.cached_rows true
    Samples.start
  = (Ok (PDict [("current", PList []); ("delinquent", PList [])]),
     Samples.start) /\
  DataProcessor._process_validators
    (PDict [("current", PList []); ("delinquent", PList [])])
    Samples.no_network_info
  = Ok [].
Proof.
  apply (cached_frame_has_no_validators Samples.failing_post
           Samples.cached_rows Samples.start Samples.three_validators
           Samples.no_network_info Samples.three_rows (PInt 500)).
  - vm_compute. reflexivity.
  - discriminate.
  - reflexivity.
Defined.

Lemma rpc_request_outcomes_witness :
  SolanaClient._make_rpc_request Samples.limited_post "getProgramAccounts"
    (SolanaClient.scan_params 50) Samples.start
  = (Err (RpcError Samples.scan_limit_error), Samples.start) /\
  SolanaClient._make_rpc_request Samples.healthy_post "getSlot" PNone
    Samples.start
  = (Ok (PInt 216216000), Samples.start).
Proof.
  split.
  - exact (rpc_request_outcomes Samples.limited_post "getProgramAccounts"
             (SolanaClient.scan_params 50) Samples.start
             (Samples.reply (PDict [("jsonrpc", PStr "2.0");
                                    ("error", Samples.scan_limit_error);
                                    ("id", PInt 1)]))
             tt _ eq_refl eq_refl).
  - exact (rpc_request_outcomes Samples.healthy_post "getSlot" PNone
             Samples.start
             (Samples.reply (PDict [("jsonrpc", PStr "2.0");
                                    ("result", PInt 216216000);
                                    ("id", PInt 1)]))
             tt _ eq_refl eq_refl).
Defined.

Lemma stake_cache_round_trip_witness :
  exists accounts entries',
    SolanaClient.get_stake_accounts Samples.failing_post
      Samples.cached_stake Samples.record_stake true 50 Samples.start
    = (Ok (PList accounts), Samples.start) /\
    mapM DataProcessor.process_stake_account accounts = Ok entries' /\
    Forall2
      (fun e e' =>
         DataProcessor.pubkey e' = DataProcessor.pubkey e /\
         DataProcessor.parsed e' = info_left (DataProcessor.parsed e))
      Samples.two_entries entries'.
Proof.
  apply (stake_cache_round_trip Samples.failing_post Samples.cached_stake
           Samples.record_stake Samples.start 50%Z (PInt 500)
           Samples.two_entries).
  - discriminate.
  - constructor; [left; reflexivity|].
    constructor; [right; eexists; reflexivity|constructor].
  - reflexivity.
Defined.

Lemma refresh_survives_failed_scan_witness :
  App.refresh Samples.limited_post Samples.no_rows Samples.no_network
    Samples.no_stake Samples.record_network Samples.record_stake false
    Samples.start
  = (DataProcessor.__init__ Samples.three_validators
       Samples.fetched_network_info (PList []),
     SolanaClient.printed Samples.after_fetch
       (SolanaClient.WarnGetStakeAccounts
          (RpcError Samples.scan_limit_error))) /\
  (exists t,
     DataProcessor.__init__ Samples.three_validators
       Samples.fetched_network_info (PList []) = Ok t /\
     DataProcessor.processed_stake_info t = DataProcessor.empty_stake_info)
  /\
  App.refresh Samples.failing_post Samples.no_rows Samples.no_network
    Samples.no_stake Samples.record_network Samples.record_stake false
    Samples.start
  = (Err (RpcError Samples.scan_limit_error), Samples.start).
Proof.
  destruct (proj1 (refresh_survives_failed_scan Samples.limited_post
                     Samples.no_rows Samples.no_network Samples.no_stake
                     Samples.record_network Samples.record_stake)
                  false Samples.start Samples.start Samples.after_fetch
                  Samples.after_fetch Samples.three_validators
                  Samples.fetched_network_info
                  (RpcError Samples.scan_limit_error))
    as [Hrefresh Hempty]; try (vm_compute; reflexivity).
  split; [exact Hrefresh|]. split.
  - eexists. split; [vm_compute; reflexivity|].
    apply Hempty. vm_compute. reflexivity.
  - apply (proj2 (refresh_survives_failed_scan Samples.failing_post
                    Samples.no_rows Samples.no_network Samples.no_stake
                    Samples.record_network Samples.record_stake)).
    vm_compute. reflexivity.
Defined.

Lemma network_fetch_store_effect_witness :
  SolanaClient.store Samples.after_fetch
  = snd (Samples.record_network Samples.fetched_network_info
           (SolanaClient.store Samples.start)) /\
  ((exists cause,
      NetworkInfoFailure (RpcError Samples.scan_limit_error)
      = NetworkInfoFailure cause) /\
   SolanaClient.store Samples.start = SolanaClient.store Samples.start).
Proof.
  split.
  - refine (network_fetch_store_effect Samples.healthy_post Samples.no_rows
              Samples.no_network Samples.record_network false
              Samples.start Samples.after_fetch
              (Ok Samples.fetched_network_info) eq_refl _).
    vm_compute. reflexivity.
  - refine (network_fetch_store_effect Samples.failing_post Samples.no_rows
              Samples.no_network Samples.record_network false
              Samples.start Samples.start
              (Err (NetworkInfoFailure (RpcError Samples.scan_limit_error)))
              eq_refl _).
    vm_compute. reflexivity.
Defined.

Lemma fetched_network_info_is_storable_witness :
  exists record,
    Cache.network_record Samples.fetched_network_info = Ok record /\
    Cache.data_json record = Samples.fetched_network_info /\
    exists active delinquent,
      Cache.active_validators record = PInt active /\
      Cache.delinquent_validators record = PInt delinquent.
Proof.
  apply (fetched_network_info_is_storable Samples.healthy_post
           Samples.no_rows Samples.no_network Samples.record_network
           false Samples.start Samples.after_fetch
           Samples.fetched_network_info).
  - reflexivity.
  - vm_compute. reflexivity.
Defined.


(** ** Freshness of the cache *)

(** The cache is fresh when its latest network snapshot is younger than
    the maximal age, so a larger maximal age keeps fresh data fresh, and
    an empty table is never fresh.  The sidebar divides the refresh
    interval, in seconds, by 60: for an interval below one minute the
    maximal age is 0 and no snapshot of the past is fresh. *)
Theorem freshness_window :
  (forall now max_age, Cache.is_data_fresh None now max_age = false) /\
  (forall t now max_age max_age',
     (max_age <= max_age')%Z ->
     Cache.is_data_fresh (Some t) now max_age = true ->
     Cache.is_data_fresh (Some t) now max_age' = true) /\
  (forall t now refresh_interval,
     (0 <= refresh_interval < 60)%Z ->
     t <= now ->
     Sidebar.cache_is_fresh (Some t) now refresh_interval = false).
Proof.
  split; [reflexivity|]. split.
  - intros t now m m' Hm H. unfold Cache.is_data_fresh in *.
    apply Qc_ltb_lt in H. apply Qc_ltb_lt.
    eapply Qcle_lt_trans; [|exact H].
    assert (L : Z2Qc (60 * m) <= Z2Qc (60 * m')) by (apply Z2Qc_le; lia).
    generalize dependent (Z2Qc (60 * m)).
    generalize dependent (Z2Qc (60 * m')). intros a b _ L.
    qc_to_q. lra.
  - intros t now ri Hri Ht.
    unfold Sidebar.cache_is_fresh, Cache.is_data_fresh.
    rewrite (Z.div_small ri 60) by lia.
    apply Qc_ltb_ge. replace (now - Z2Qc (60 * 0)) with now; [exact Ht|].
    replace (Z2Qc (60 * 0)) with 0 by (apply Qc_is_canon; reflexivity).
    ring.
Qed.

Lemma freshness_window_witness :
  Cache.is_data_fresh None (Z2Qc 1000) 1 = false /\
  Cache.is_data_fresh (Some (Z2Qc 950)) (Z2Qc 1000) 5 = true /\
  Sidebar.cache_is_fresh (Some (Z2Qc 990)) (Z2Qc 1000) 30 = false.
Proof.
  destruct freshness_window as (Hnone & Hmono & Hshort).
  split; [apply Hnone|]. split.
  - apply (Hmono (Z2Qc 950) (Z2Qc 1000) 1%Z 5%Z); [lia|reflexivity].
  - apply (Hshort (Z2Qc 990) (Z2Qc 1000) 30%Z); [lia|].
    apply Z2Qc_le. lia.
Defined.
